(** * first_glance: the EDA report helpers of [report_functions.py]

    A shallow embedding of the functions of [report_functions.py] and the
    properties of its column classifier, statistics report, chart grids,
    correlation heatmap and report driver.

    Conventions of the embedding
    - Python [int] is [Z]; [//] and [%] are [Z.div] and [Z.modulo], which
      round towards minus infinity as Python does, with the division by zero
      raised explicitly.
    - A pandas [DataFrame] read from a CSV file is an index together with an
      ordered list of typed columns.  Tables computed by the report
      ([describe], [merge], ...) are row-labelled matrices of scalars.
    - Python exceptions are values of [exn]; a function that may raise
      returns a [result], and code that also talks to the plotting surface,
      the pandas options or the warnings machinery runs in the monad [M],
      whose outcomes keep the state reached when an exception is raised.
    - The summaries of [describe] are floating point statistics of the
      library and are parameters.  The correlation is computed in binary64
      with the primitive floats of the kernel; a finite [float64] cell is
      held as the rational it denotes.
    - Strings are byte strings, and [str.capitalize] and [str.title] are
      modelled on ASCII text: what is stated about titles is stated for
      column names that are ASCII.

    Library behaviour written into the model
    - pandas: [data[key]] is a DataFrame when the label is repeated, and a
      boolean Series of several entries has no truth value; column
      assignment aligns on the index; [describe()] summarises the columns
      of [np.number] dtype ([int64], [float64], [uint64]), or every column
      as an object column when none is, and refuses a table without
      columns; [corr()] is Pearson's coefficient by Welford's method in
      binary64 over pairwise finite values, clipped to [-1, 1], NaN when
      the divisor is zero; [mode.use_inf_as_na] makes [isnull] count
      infinities.
    - matplotlib: [plt.subplots] makes the figure, then the grid, which
      needs at least one row and one column, and squeezes the array of
      axes; [plt.show()] displays and closes the open figures, as a
      blocking or an inline backend does (a backend that displays nothing,
      or keeps the figures open, is not modelled).
    - seaborn: [boxplot] and [histplot] may refuse the data of a column
      (a box plot of a column without any value to draw raises
      [ValueError]): which charts are refused is a parameter; [heatmap]
      takes the colour range of the matrix before it draws, and fails on a
      matrix without cells.
    - warnings: any library call may issue advisory warnings, handled by
      the first matching filter. *)

From Stdlib Require Import Floats List String Ascii ZArith QArith Bool Arith Lia.
Import ListNotations.

Local Open Scope string_scope.
Local Open Scope Z_scope.
Local Open Scope list_scope.

(** ** Exceptions and results *)

Inductive wcategory : Type :=
  | UserWarning
  | RuntimeWarning
  | FutureWarning
  | DeprecationWarning.

Inductive exn : Type :=
  | ZeroDivisionError
  | ValueError
  | IndexError
  | TypeError
  | KeyError
  | FileNotFoundError
  | ParserError
  | EmptyDataError
  | WarningRaised (c : wcategory).

Definition wcategory_name (c : wcategory) : string :=
  match c with
  | UserWarning => "UserWarning"
  | RuntimeWarning => "RuntimeWarning"
  | FutureWarning => "FutureWarning"
  | DeprecationWarning => "DeprecationWarning"
  end.

(** [type(e).__name__] *)
Definition exn_name (e : exn) : string :=
  match e with
  | ZeroDivisionError => "ZeroDivisionError"
  | ValueError => "ValueError"
  | IndexError => "IndexError"
  | TypeError => "TypeError"
  | KeyError => "KeyError"
  | FileNotFoundError => "FileNotFoundError"
  | ParserError => "ParserError"
  | EmptyDataError => "EmptyDataError"
  | WarningRaised c => wcategory_name c
  end.

Inductive result (A : Type) : Type :=
  | Ok (a : A)
  | Err (e : exn).

Arguments Ok {A} a.
Arguments Err {A} e.

Definition rbind {A B : Type} (r : result A) (k : A -> result B) : result B :=
  match r with
  | Ok a => k a
  | Err e => Err e
  end.

Notation "'let?' x ':=' r 'in' k" := (rbind r (fun x => k))
  (at level 10, x name, r at level 100, k at level 200).

(** A list comprehension [[x for x in xs if p(x)]] whose test may raise. *)
Fixpoint filter_r {A : Type} (p : A -> result bool) (xs : list A) : result (list A) :=
  match xs with
  | [] => Ok []
  | x :: rest =>
      let? keep := p x in
      let? tail := filter_r p rest in
      Ok (if keep then x :: tail else tail)
  end.

(** [a // b] *)
Definition floordiv (a b : Z) : result Z :=
  if b =? 0 then Err ZeroDivisionError else Ok (a / b).

(** [a % b] *)
Definition pymod (a b : Z) : result Z :=
  if b =? 0 then Err ZeroDivisionError else Ok (a mod b).

(** ** Strings: [str.capitalize] and [str.title] on ASCII text

    A string is the sequence of its bytes.  On ASCII text, where every
    character is one byte below 128, the functions below are Python's; a
    name with other characters is outside what they describe, and the
    properties of titles ask for [isascii]. *)

Module PyStr.

(** [s.isascii()] *)
Fixpoint isascii (s : string) : bool :=
  match s with
  | EmptyString => true
  | String c rest => (nat_of_ascii c <? 128)%nat && isascii rest
  end.

Definition is_lower (c : ascii) : bool :=
  let n := nat_of_ascii c in ((97 <=? n) && (n <=? 122))%nat.

Definition is_upper (c : ascii) : bool :=
  let n := nat_of_ascii c in ((65 <=? n) && (n <=? 90))%nat.

Definition is_alpha (c : ascii) : bool := is_lower c || is_upper c.

Definition upper (c : ascii) : ascii :=
  if is_lower c then ascii_of_nat (nat_of_ascii c - 32) else c.

Definition lower (c : ascii) : ascii :=
  if is_upper c then ascii_of_nat (nat_of_ascii c + 32) else c.

Fixpoint lower_all (s : string) : string :=
  match s with
  | EmptyString => EmptyString
  | String c rest => String (lower c) (lower_all rest)
  end.

(** [s.capitalize()]: the first character upper-cased, every other one
    lower-cased. *)
Definition capitalize (s : string) : string :=
  match s with
  | EmptyString => EmptyString
  | String c rest => String (upper c) (lower_all rest)
  end.

(** [s.title()]: every letter that follows a non-letter is upper-cased,
    every other letter lower-cased.  [prev] tells whether the previous
    character was a letter. *)
Fixpoint title_from (prev : bool) (s : string) : string :=
  match s with
  | EmptyString => EmptyString
  | String c rest =>
      String (if prev then lower c else upper c) (title_from (is_alpha c) rest)
  end.

Definition title (s : string) : string := title_from false s.

End PyStr.

(** ** The data model: a DataFrame as [pd.read_csv] builds it *)

(** The column dtypes that [read_csv] infers. *)
Inductive dtype : Type :=
  | int64
  | float64
  | uint64
  | bool_
  | object_.

Definition dtype_name (d : dtype) : string :=
  match d with
  | int64 => "int64"
  | float64 => "float64"
  | uint64 => "uint64"
  | bool_ => "bool"
  | object_ => "object"
  end.

(** [d == 'int64'], [d != 'int64']: a dtype compared with a dtype name. *)
Definition dtype_eq (d : dtype) (s : string) : bool := String.eqb (dtype_name d) s.
Definition dtype_ne (d : dtype) (s : string) : bool := negb (dtype_eq d s).

(** Cell values.  [SFloat] carries the rational that a finite [float64]
    denotes; [SInf] is plus or minus infinity, [SNaN] the missing value;
    [SDtype] is a dtype object stored in a cell. *)
Inductive scalar : Type :=
  | SInt (z : Z)
  | SFloat (q : Q)
  | SInf (negative : bool)
  | SNaN
  | SStr (s : string)
  | SBool (b : bool)
  | SDtype (d : dtype).

Record column : Type := mkColumn {
  col_name : string;
  col_dtype : dtype;
  col_values : list scalar
}.

Record DataFrame : Type := mkDataFrame {
  df_index : list Z;
  df_columns : list column
}.

(** [data.columns] *)
Definition columns (data : DataFrame) : list string := map col_name (df_columns data).

(** [data.shape[0]] *)
Definition shape0 (data : DataFrame) : Z := Z.of_nat (List.length (df_index data)).

Fixpoint nodupb (l : list string) : bool :=
  match l with
  | [] => true
  | x :: rest => negb (existsb (String.eqb x) rest) && nodupb rest
  end.

(** The invariants of a table: column labels are distinct and every column
    has one value per index entry. *)
Definition unique_columns (data : DataFrame) : Prop := nodupb (columns data) = true.

Definition aligned (data : DataFrame) : Prop :=
  forall c, In c (df_columns data) -> List.length (col_values c) = List.length (df_index data).

Module Pandas.

(** [data[key]] returns a Series when exactly one column carries the
    label, a DataFrame of all of them when the label is repeated, and
    raises [KeyError] when it is absent. *)
Inductive selection : Type :=
  | Series (c : column)
  | Frame (cs : list column).

Definition getitem (data : DataFrame) (key : string) : result selection :=
  match filter (fun c => String.eqb (col_name c) key) (df_columns data) with
  | [] => Err KeyError
  | [c] => Ok (Series c)
  | cs => Ok (Frame cs)
  end.

(** The value of [data[key].dtypes == name]: one boolean for a Series,
    a boolean Series for a DataFrame. *)
Inductive truth : Type :=
  | Scalar (b : bool)
  | Elementwise (bs : list bool).

Definition dtypes_test (test : dtype -> string -> bool) (sel : selection)
    (name : string) : truth :=
  match sel with
  | Series c => Scalar (test (col_dtype c) name)
  | Frame cs => Elementwise (map (fun c => test (col_dtype c) name) cs)
  end.

(** [bool(v)], as [or] and [and] call it on their left operand and the
    comprehension's [if] on the final value: a boolean Series with more
    than one entry has no truth value. *)
Definition truth_value (v : truth) : result bool :=
  match v with
  | Scalar b => Ok b
  | Elementwise [b] => Ok b
  | Elementwise _ => Err ValueError
  end.

(** [pd.DataFrame(data, columns=names)]: the same index, the named
    columns in the order asked for; a label that [data] does not have
    gives a column of missing values, and repeated labels in [data]
    cannot be reindexed. *)
Definition find_column (data : DataFrame) (key : string) : column :=
  match find (fun c => String.eqb (col_name c) key) (df_columns data) with
  | Some c => c
  | None => mkColumn key object_ (map (fun _ => SNaN) (df_index data))
  end.

Definition reindex_columns (data : DataFrame) (names : list string) : result DataFrame :=
  if nodupb (columns data)
  then Ok (mkDataFrame (df_index data) (map (find_column data) names))
  else Err ValueError.

End Pandas.

(** ** Column classifier *)

(** [data[column].dtypes == 'int64' or data[column].dtypes == 'float64'] *)
Definition is_int64_or_float64 (data : DataFrame) (column : string) : result bool :=
  let? sel := Pandas.getitem data column in
  let? left := Pandas.truth_value (Pandas.dtypes_test dtype_eq sel "int64") in
  if left then Ok true
  else
    let? sel' := Pandas.getitem data column in
    Pandas.truth_value (Pandas.dtypes_test dtype_eq sel' "float64").

(** [data[column].dtypes != 'int64' and data[column].dtypes != 'float64'] *)
Definition not_int64_and_not_float64 (data : DataFrame) (column : string) : result bool :=
  let? sel := Pandas.getitem data column in
  let? left := Pandas.truth_value (Pandas.dtypes_test dtype_ne sel "int64") in
  if left then
    let? sel' := Pandas.getitem data column in
    Pandas.truth_value (Pandas.dtypes_test dtype_ne sel' "float64")
  else Ok false.

(** [NumericOutput(data = dataframe).data] and its non-numeric twin hand
    the frame back as it is: the pydantic models only check that the value
    is a [DataFrame]. *)
Definition numeric_data (data : DataFrame) : result DataFrame :=
  let? numeric_columns := filter_r (is_int64_or_float64 data) (columns data) in
  Pandas.reindex_columns data numeric_columns.

Definition non_numeric_data (data : DataFrame) : result DataFrame :=
  let? non_numeric_columns := filter_r (not_int64_and_not_float64 data) (columns data) in
  Pandas.reindex_columns data non_numeric_columns.

(** The dtype test of the classifier, on a column: the dtype is named
    [int64] or [float64]. *)
Definition numeric_dtype (d : dtype) : bool :=
  match d with
  | int64 | float64 => true
  | uint64 | bool_ | object_ => false
  end.

Definition is_numeric (c : column) : bool := numeric_dtype (col_dtype c).

(** The dtype test of [describe()], on a column: the dtype is a subclass
    of [np.number], which the unsigned integers are and booleans are not. *)
Definition number_dtype (d : dtype) : bool :=
  match d with
  | int64 | float64 | uint64 => true
  | bool_ | object_ => false
  end.

Definition is_number (c : column) : bool := number_dtype (col_dtype c).

(** ** Derived tables: row-labelled matrices of scalars *)

Inductive label : Type :=
  | LInt (z : Z)
  | LStr (s : string).

Definition label_eqb (a b : label) : bool :=
  match a, b with
  | LInt x, LInt y => x =? y
  | LStr x, LStr y => String.eqb x y
  | _, _ => false
  end.

(** [fr_rows] holds one list per index label, each with one scalar per
    column label. *)
Record frame : Type := mkFrame {
  fr_index : list label;
  fr_columns : list label;
  fr_rows : list (list scalar)
}.

(** The index label that a column name makes. *)
Definition name_label (c : column) : label := LStr (col_name c).

(** A Series: index labels with their values. *)
Definition series : Type := list (label * scalar).

Fixpoint has_dup (l : list label) : bool :=
  match l with
  | [] => false
  | x :: rest => existsb (label_eqb x) rest || has_dup rest
  end.

Fixpoint labels_eqb (a b : list label) : bool :=
  match a, b with
  | [], [] => true
  | x :: a', y :: b' => label_eqb x y && labels_eqb a' b'
  | _, _ => false
  end.

Definition range (n : nat) : list label := map (fun i => LInt (Z.of_nat i)) (seq 0 n).

Module Frames.

(** [frame.T] *)
Definition transpose (f : frame) : frame :=
  mkFrame (fr_columns f) (fr_index f)
    (map (fun j => map (fun row => nth j row SNaN) (fr_rows f))
         (seq 0 (List.length (fr_columns f)))).

(** [pd.DataFrame(d)] for a dict [d] of equally long lists: one column per
    key, in insertion order, over a fresh range index. *)
Definition of_dict (d : list (string * list scalar)) : result frame :=
  match d with
  | [] => Ok (mkFrame [] [] [])
  | (_, first) :: _ =>
      let n := List.length first in
      if forallb (fun kv => Nat.eqb (List.length (snd kv)) n) d
      then Ok (mkFrame (range n) (map (fun kv => LStr (fst kv)) d)
                 (map (fun i => map (fun kv => nth i (snd kv) SNaN) d) (seq 0 n)))
      else Err ValueError
  end.

(** [Series.to_frame()]: a single column labelled [0]. *)
Definition to_frame (s : series) : frame :=
  mkFrame (map fst s) [LInt 0] (map (fun kv => [snd kv]) s).

(** [frame.rename(columns=mapping)] *)
Definition rename_label (mapping : list (label * label)) (l : label) : label :=
  match find (fun kv => label_eqb (fst kv) l) mapping with
  | Some kv => snd kv
  | None => l
  end.

Definition rename_columns (mapping : list (label * label)) (f : frame) : frame :=
  mkFrame (fr_index f) (map (rename_label mapping) (fr_columns f)) (fr_rows f).

(** [frame.drop(columns=name)]: [KeyError] when no column has the label. *)
Fixpoint drop_at (keep : list bool) (row : list scalar) : list scalar :=
  match keep, row with
  | k :: keep', v :: row' => if k then v :: drop_at keep' row' else drop_at keep' row'
  | _, _ => []
  end.

Definition drop_columns (name : label) (f : frame) : result frame :=
  let keep := map (fun l => negb (label_eqb l name)) (fr_columns f) in
  if forallb (fun k => k) keep then Err KeyError
  else Ok (mkFrame (fr_index f) (filter (fun l => negb (label_eqb l name)) (fr_columns f))
             (map (drop_at keep) (fr_rows f))).

(** Alignment of a Series on an index, as column assignment does it: taken
    as it is when the two indexes are equal, otherwise looked up label by
    label (a missing label gives NaN), which repeated labels forbid. *)
Definition lookup_series (s : series) (l : label) : scalar :=
  match find (fun kv => label_eqb (fst kv) l) s with
  | Some kv => snd kv
  | None => SNaN
  end.

Definition align (index : list label) (s : series) : result (list scalar) :=
  if labels_eqb (map fst s) index then Ok (map snd s)
  else if has_dup (map fst s) then Err ValueError
  else Ok (map (lookup_series s) index).

(** Replace the value at the position of [key], or append when absent. *)
Fixpoint put_at (cols : list label) (key : label) (v : scalar) (row : list scalar)
    : list scalar :=
  match cols, row with
  | c :: cols', x :: row' =>
      if label_eqb c key then v :: row' else x :: put_at cols' key v row'
  | _, _ => row ++ [v]
  end.

(** [frame[key] = s] for a Series [s] *)
Definition setitem_series (f : frame) (key : label) (s : series) : result frame :=
  let? values := align (fr_index f) s in
  Ok (mkFrame (fr_index f)
        (if existsb (label_eqb key) (fr_columns f) then fr_columns f
         else fr_columns f ++ [key])
        (map (fun rv => put_at (fr_columns f) key (snd rv) (fst rv))
             (combine (fr_rows f) values))).

(** [frame[key] = g] for a DataFrame [g]: [g] must have a single column,
    which is then assigned as a Series. *)
Definition setitem_frame (f : frame) (key : label) (g : frame) : result frame :=
  match fr_columns g with
  | [_] => setitem_series f key (combine (fr_index g) (map (fun row => nth 0 row SNaN) (fr_rows g)))
  | _ => Err ValueError
  end.

(** [pd.merge(left, right, left_index=True, right_index=True, how='left')]
    for frames that share no column label: every left row, in the left
    order, once per right row with the same index label, or once with NaN
    in the right columns when there is none. *)
Definition matching (right : frame) (l : label) : list (list scalar) :=
  map snd (filter (fun kv => label_eqb (fst kv) l) (combine (fr_index right) (fr_rows right))).

Definition merge_row (right : frame) (l : label) (row : list scalar)
    : list (label * list scalar) :=
  match matching right l with
  | [] => [(l, row ++ map (fun _ => SNaN) (fr_columns right))]
  | ms => map (fun m => (l, row ++ m)) ms
  end.

Definition merge_left (left right : frame) : frame :=
  let joined := flat_map (fun lr => merge_row right (fst lr) (snd lr))
                  (combine (fr_index left) (fr_rows left)) in
  mkFrame (map fst joined) (fr_columns left ++ fr_columns right) (map snd joined).

(** The cell of row [r] and column [c], when both labels exist. *)
Fixpoint position (l : label) (ls : list label) : option nat :=
  match ls with
  | [] => None
  | x :: rest => if label_eqb x l then Some O else option_map S (position l rest)
  end.

Definition cell (f : frame) (r c : label) : option scalar :=
  match position r (fr_index f), position c (fr_columns f) with
  | Some i, Some j =>
      match nth_error (fr_rows f) i with
      | Some row => nth_error row j
      | None => None
      end
  | _, _ => None
  end.

End Frames.

(** ** The process state: warnings machinery, pandas options, plotting surface *)

Inductive action : Type :=
  | act_error
  | act_ignore
  | act_always
  | act_default
  | act_module
  | act_once.

(** A warnings filter; category [None] is [Warning], the base class that
    matches every category. *)
Record wfilter : Type := mkFilter {
  wf_action : action;
  wf_category : option wcategory
}.

Record warning : Type := mkWarning {
  w_category : wcategory;
  w_message : string
}.

Inductive chart : Type :=
  | Boxplot (x : Pandas.selection)
  | Histplot (x : Pandas.selection)
  | Heatmap (m : frame) (annot : bool) (fmt : string).

(** One subplot: what is drawn in it, its title, and whether its axis
    (frame, ticks, labels) is shown. *)
Record axes : Type := mkAxes {
  ax_charts : list chart;
  ax_title : string;
  ax_on : bool
}.

Definition blank_axes : axes := mkAxes [] "" true.

(** A figure: its number, its size in inches ([None] is the default size),
    the rows and columns of its grid and its subplots in row-major order. *)
Record figure : Type := mkFigure {
  fig_num : nat;
  fig_size : option (Z * Z);
  fig_grid : Z * Z;
  fig_axes : list axes;
  fig_suptitle : option string;
  fig_tight : bool
}.

(** [open_figures] has the newest figure first: its head is the current
    figure.  [shown] is what [plt.show()] has displayed, in order. *)
Record world : Type := mkWorld {
  use_inf_as_na : bool;
  filters : list wfilter;
  stderr : list warning;
  stdout : list string;
  open_figures : list figure;
  shown : list figure
}.

Definition set_use_inf_as_na (b : bool) (s : world) : world :=
  mkWorld b (filters s) (stderr s) (stdout s) (open_figures s) (shown s).

Definition set_filters (fs : list wfilter) (s : world) : world :=
  mkWorld (use_inf_as_na s) fs (stderr s) (stdout s) (open_figures s) (shown s).

Definition set_stderr (ws : list warning) (s : world) : world :=
  mkWorld (use_inf_as_na s) (filters s) ws (stdout s) (open_figures s) (shown s).

Definition set_stdout (out : list string) (s : world) : world :=
  mkWorld (use_inf_as_na s) (filters s) (stderr s) out (open_figures s) (shown s).

Definition set_figures (figs shown' : list figure) (s : world) : world :=
  mkWorld (use_inf_as_na s) (filters s) (stderr s) (stdout s) figs shown'.

Definition set_open_figures (figs : list figure) (s : world) : world :=
  set_figures figs (shown s) s.

Inductive outcome (A : Type) : Type :=
  | Returns (a : A) (s : world)
  | Raises (e : exn) (s : world).

Arguments Returns {A} a s.
Arguments Raises {A} e s.

Definition final {A : Type} (o : outcome A) : world :=
  match o with
  | Returns _ s => s
  | Raises _ s => s
  end.

Definition M (A : Type) : Type := world -> outcome A.

Definition ret {A : Type} (a : A) : M A := fun s => Returns a s.

Definition raise {A : Type} (e : exn) : M A := fun s => Raises e s.

Definition bind {A B : Type} (m : M A) (k : A -> M B) : M B :=
  fun s =>
    match m s with
    | Returns a s' => k a s'
    | Raises e s' => Raises e s'
    end.

Definition lift {A : Type} (r : result A) : M A :=
  match r with
  | Ok a => ret a
  | Err e => raise e
  end.

Definition modify (f : world -> world) : M unit := fun s => Returns tt (f s).

Notation "x <- m ;; k" := (bind m (fun x => k))
  (at level 61, m at next level, right associativity).
Notation "m ;; k" := (bind m (fun _ => k))
  (at level 61, right associativity).

(** [for x in xs: body(x)] *)
Fixpoint for_each {A : Type} (xs : list A) (body : A -> M unit) : M unit :=
  match xs with
  | [] => ret tt
  | x :: rest => body x ;; for_each rest body
  end.

(** [enumerate(xs)] and [range(a, b)] *)
Definition enumerate {A : Type} (xs : list A) : list (Z * A) :=
  combine (map Z.of_nat (seq 0 (List.length xs))) xs.

Definition py_range (a b : Z) : list Z :=
  map (fun k => a + Z.of_nat k) (seq 0 (Z.to_nat (b - a))).

(** [print(text)] *)
Definition print (text : string) : M unit :=
  modify (fun s => set_stdout (stdout s ++ [(text ++ String "010" EmptyString)%string]) s).

Module Warnings.

Definition matches (f : wfilter) (w : warning) : bool :=
  match wf_category f with
  | None => true
  | Some c =>
      match c, w_category w with
      | UserWarning, UserWarning => true
      | RuntimeWarning, RuntimeWarning => true
      | FutureWarning, FutureWarning => true
      | DeprecationWarning, DeprecationWarning => true
      | _, _ => false
      end
  end.

(** The action of the first filter that matches, [default] when none does. *)
Definition action_for (fs : list wfilter) (w : warning) : action :=
  match find (fun f => matches f w) fs with
  | Some f => wf_action f
  | None => act_default
  end.

(** [warnings.warn(w)]: raised under [error], dropped under [ignore],
    written to the error stream otherwise (that [default], [module] and
    [once] print a repeated warning only once is not modelled). *)
Definition warn (w : warning) : M unit :=
  fun s =>
    match action_for (filters s) w with
    | act_error => Raises (WarningRaised (w_category w)) s
    | act_ignore => Returns tt s
    | _ => Returns tt (set_stderr (stderr s ++ [w]) s)
    end.

Definition emit (ws : list warning) : M unit := for_each ws warn.

(** [warnings.simplefilter(a)]: a filter for every category, put first. *)
Definition simplefilter (a : action) : M unit :=
  modify (fun s => set_filters (mkFilter a None :: filters s) s).

(** [with warnings.catch_warnings(): body]: the filters are saved on entry
    and put back on exit, whether the body returns or raises. *)
Definition catch_warnings {A : Type} (body : M A) : M A :=
  fun s =>
    let saved := filters s in
    match body s with
    | Returns a s' => Returns a (set_filters saved s')
    | Raises e s' => Raises e (set_filters saved s')
    end.

(** No category of warning is turned into an exception. *)
Definition escalates (fs : list wfilter) (c : wcategory) : bool :=
  match action_for fs (mkWarning c "") with
  | act_error => true
  | _ => false
  end.

Definition tolerant (s : world) : bool :=
  negb (existsb (escalates (filters s))
          [UserWarning; RuntimeWarning; FutureWarning; DeprecationWarning]).

End Warnings.

(** The calls into pandas, matplotlib and seaborn that may issue advisory
    warnings, with the arguments the warnings may depend on. *)
Inductive libcall : Type :=
  | call_set_option (name : string) (value : bool)
  | call_read_csv (path : string)
  | call_corr (data : DataFrame)
  | call_describe (data : DataFrame)
  | call_figure (figsize : option (Z * Z))
  | call_subplots (nrows ncols : Z)
  | call_boxplot (x : Pandas.selection)
  | call_histplot (x : Pandas.selection)
  | call_heatmap (m : frame)
  | call_suptitle (t : string)
  | call_title (t : string)
  | call_tight_layout
  | call_show.

(** Handles on subplots: an [Axes] object is named by the number of its
    figure and its row-major position in it. *)
Record ax_ref : Type := mkRef {
  ref_fig : nat;
  ref_pos : nat
}.

(** What [plt.subplots] returns next to the figure (with the default
    [squeeze=True]): one [Axes] for a 1x1 grid, a one-dimensional array
    when there is a single row or a single column, a two-dimensional array
    otherwise. *)
Inductive axes_array : Type :=
  | AxesObject (a : ax_ref)
  | Axes1D (l : list ax_ref)
  | Axes2D (rows : list (list ax_ref)).

(** numpy indexing along one axis: negative indices count from the end. *)
Definition np_index {A : Type} (l : list A) (i : Z) : result A :=
  let n := Z.of_nat (List.length l) in
  let k := if i <? 0 then i + n else i in
  if (0 <=? k) && (k <? n)
  then match nth_error l (Z.to_nat k) with
       | Some a => Ok a
       | None => Err IndexError
       end
  else Err IndexError.

(** [axes[row, col]] *)
Definition axes_getitem (ax : axes_array) (row col : Z) : result ax_ref :=
  match ax with
  | AxesObject _ => Err TypeError
  | Axes1D _ => Err IndexError
  | Axes2D rows =>
      let? r := np_index rows row in
      np_index r col
  end.

Fixpoint update_nth {A : Type} (n : nat) (f : A -> A) (l : list A) : list A :=
  match l, n with
  | [], _ => []
  | x :: rest, O => f x :: rest
  | x :: rest, S n' => x :: update_nth n' f rest
  end.

Fixpoint update_figure (num : nat) (f : figure -> figure) (figs : list figure)
    : list figure :=
  match figs with
  | [] => []
  | g :: rest =>
      if Nat.eqb (fig_num g) num then f g :: rest else g :: update_figure num f rest
  end.

Definition set_axes (axs : list axes) (g : figure) : figure :=
  mkFigure (fig_num g) (fig_size g) (fig_grid g) axs (fig_suptitle g) (fig_tight g).

Definition add_chart (c : chart) (a : axes) : axes :=
  mkAxes (ax_charts a ++ [c]) (ax_title a) (ax_on a).

Definition with_title (t : string) (a : axes) : axes :=
  mkAxes (ax_charts a) t (ax_on a).

Definition switched_off (a : axes) : axes :=
  mkAxes (ax_charts a) (ax_title a) false.

Definition next_num (figs : list figure) : nat :=
  S (fold_right (fun g m => Nat.max (fig_num g) m) O figs).

Definition bad_size (figsize : option (Z * Z)) : bool :=
  match figsize with
  | Some (w, h) => (w <? 0) || (h <? 0)
  | None => false
  end.

Definition grid_refs (num : nat) (nrows ncols : Z) : list (list ax_ref) :=
  map (fun r => map (fun c => mkRef num (r * Z.to_nat ncols + c)) (seq 0 (Z.to_nat ncols)))
      (seq 0 (Z.to_nat nrows)).

Definition squeeze (nrows ncols : Z) (refs : list (list ax_ref)) : axes_array :=
  if (nrows =? 1) && (ncols =? 1)
  then match List.concat refs with
       | a :: _ => AxesObject a
       | [] => Axes1D []
       end
  else if (nrows =? 1) || (ncols =? 1) then Axes1D (List.concat refs)
  else Axes2D refs.

(** The current figure, made first when none is open. *)
Definition with_gcf (f : figure -> figure) : M unit :=
  modify (fun s =>
    match open_figures s with
    | [] => set_open_figures [f (mkFigure 1 None (0, 0) [] None false)] s
    | g :: rest => set_open_figures (f g :: rest) s
    end).

(** The current axes of a figure: the last one added, made first when the
    figure has none. *)
Definition on_gca (f : axes -> axes) (g : figure) : figure :=
  match fig_axes g with
  | [] => mkFigure (fig_num g) (fig_size g) (1, 1) [f blank_axes] (fig_suptitle g) (fig_tight g)
  | axs => set_axes (update_nth (List.length axs - 1) f axs) g
  end.

Definition size_zero (m : frame) : bool :=
  forallb (fun row => match row with [] => true | _ => false end) (fr_rows m).

(** ** pandas: correlation of the columns of a numeric table *)

(** The binary64 value nearest to an integer, and the one of a finite
    float cell: the quotient of its numerator and denominator, which is
    the value itself when binary64 represents it. *)
Definition float_of_Z (z : Z) : float := SF2Prim (binary_normalize prec emax z 0 false).

Definition float_of_Q (q : Q) : float :=
  (float_of_Z (Qnum q) / float_of_Z (Zpos (Qden q)))%float.

(** [np.isfinite] *)
Definition isfinite (f : float) : bool := negb (is_nan f || is_infinity f).

(** A cell of [data.to_numpy(dtype=float)] when [np.isfinite] holds of it. *)
Definition to_float (v : scalar) : option float :=
  match v with
  | SInt z => let f := float_of_Z z in if isfinite f then Some f else None
  | SFloat q => let f := float_of_Q q in if isfinite f then Some f else None
  | _ => None
  end.

(** The cell that holds a binary64 value. *)
Definition scalar_of_float (f : float) : scalar :=
  match Prim2SF f with
  | S754_zero _ => SFloat 0
  | S754_finite negative m e =>
      SFloat (Qred (inject_Z (if negative then Zneg m else Zpos m) * Qpower 2 e))
  | S754_infinity negative => SInf negative
  | S754_nan => SNaN
  end.

(** The running sums of Welford's method over the rows where both values
    are finite. *)
Record welford : Type := mkWelford {
  nobs : Z;
  ssqdm_x : float;
  ssqdm_y : float;
  covxy : float;
  meanx : float;
  meany : float
}.

Definition welford_start : welford := mkWelford 0 0 0 0 0 0.

Definition welford_step (st : welford) (vx vy : float) : welford :=
  let n := nobs st + 1 in
  let dx := (vx - meanx st)%float in
  let dy := (vy - meany st)%float in
  let mx := (meanx st + 1 / float_of_Z n * dx)%float in
  let my := (meany st + 1 / float_of_Z n * dy)%float in
  mkWelford n
    (ssqdm_x st + (vx - mx) * dx)%float
    (ssqdm_y st + (vy - my) * dy)%float
    (covxy st + (vx - mx) * dy)%float
    mx my.

Fixpoint welford_rows (st : welford) (xs ys : list scalar) : welford :=
  match xs, ys with
  | x :: xs', y :: ys' =>
      match to_float x, to_float y with
      | Some vx, Some vy => welford_rows (welford_step st vx vy) xs' ys'
      | _, _ => welford_rows st xs' ys'
      end
  | _, _ => st
  end.

(** [if val > 1.0: val = 1.0 elif val < -1.0: val = -1.0] *)
Definition clip (val : float) : float :=
  if (1 <? val)%float then 1%float
  else if (val <? -1)%float then (-1)%float
  else val.

(** The Pearson coefficient of two columns: NaN when no row has both
    values, or when the divisor, the square root of the product of the two
    sums of squares, is zero. *)
Definition pearson (x y : column) : scalar :=
  let st := welford_rows welford_start (col_values x) (col_values y) in
  if nobs st <? 1 then SNaN
  else
    let divisor := PrimFloat.sqrt (ssqdm_x st * ssqdm_y st) in
    if (divisor =? 0)%float then SNaN
    else scalar_of_float (clip (covxy st / divisor)).

(** [data.corr()]: the cell of columns [xi >= yi] is computed and stored at
    both [(xi, yi)] and [(yi, xi)]. *)
Definition corr_cell (cols : list column) (i j : nat) : scalar :=
  let xi := Nat.max i j in
  let yi := Nat.min i j in
  match nth_error cols xi, nth_error cols yi with
  | Some x, Some y => pearson x y
  | _, _ => SNaN
  end.

Definition corr (data : DataFrame) : frame :=
  let cols := df_columns data in
  let k := List.length cols in
  mkFrame (map name_label cols) (map name_label cols)
    (map (fun i => map (fun j => corr_cell cols i j) (seq 0 k)) (seq 0 k)).

(** The cells of [describe()] for one column: floating point statistics,
    computed by pandas. *)
Record numeric_summary : Type := mkNumericSummary {
  ns_count : scalar;
  ns_mean : scalar;
  ns_std : scalar;
  ns_min : scalar;
  ns_q25 : scalar;
  ns_q50 : scalar;
  ns_q75 : scalar;
  ns_max : scalar
}.

Record object_summary : Type := mkObjectSummary {
  os_count : scalar;
  os_unique : scalar;
  os_top : scalar;
  os_freq : scalar
}.

(** ** Observations

    What a run shows apart from the warnings machinery: the result or the
    exception, the pandas option, the printed text and the figures. *)

Definition agree (s1 s2 : world) : Prop :=
  use_inf_as_na s1 = use_inf_as_na s2 /\ stdout s1 = stdout s2 /\
  open_figures s1 = open_figures s2 /\ shown s1 = shown s2.

Definition same_result {A : Type} (o1 o2 : outcome A) : Prop :=
  match o1, o2 with
  | Returns a _, Returns b _ => a = b
  | Raises e _, Raises e' _ => e = e'
  | _, _ => False
  end.

(** Two runs, from [s1] and from [s2], end alike, each with the warnings
    filters it started with. *)
Definition related {A : Type} (s1 s2 : world) (o1 o2 : outcome A) : Prop :=
  same_result o1 o2 /\ agree (final o1) (final o2) /\
  filters (final o1) = filters s1 /\ filters (final o2) = filters s2.

(** Two programs that end alike from worlds that show the same, whenever
    neither world turns warnings into exceptions. *)
Definition sim {A : Type} (m1 m2 : M A) : Prop :=
  forall s1 s2, agree s1 s2 ->
    Warnings.tolerant s1 = true -> Warnings.tolerant s2 = true ->
    related s1 s2 (m1 s1) (m2 s2).

(** A program that leaves the pandas option as it found it, whether it
    returns or raises. *)
Definition keeps_option {A : Type} (m : M A) : Prop :=
  forall s, use_inf_as_na (final (m s)) = use_inf_as_na s.

(** ** The chart grid as the layout law describes it *)

Definition charts_of (plot_type : string) (c : column) : list chart :=
  if String.eqb plot_type "boxplot" then [Boxplot (Pandas.Series c)]
  else if String.eqb plot_type "histplot" then [Histplot (Pandas.Series c)]
  else [].

(** A populated cell: the chart of a column under its title. *)
Definition chart_cell (plot_type : string) (c : column) : axes :=
  mkAxes (charts_of plot_type c) (PyStr.capitalize (col_name c)) true.

(** A hidden cell: nothing drawn, axis off. *)
Definition hidden_cell : axes := mkAxes [] "" false.

Definition grid_title (plot_type : string) : string :=
  ((if String.eqb plot_type "boxplot" then "Boxplot" else "Histogram") ++ " Analysis")%string.

(** The figure with one populated cell per column of [numeric], in
    row-major order over [num_cols] columns, and hidden cells after them
    up to the end of the last row. *)
Definition chart_grid (num : nat) (plot_type : string) (numeric : list column)
    (num_cols : Z) : figure :=
  let n := Z.of_nat (List.length numeric) in
  let num_rows := (n + num_cols - 1) / num_cols in
  mkFigure num (Some (15, num_rows * 5)) (num_rows, num_cols)
    (map (chart_cell plot_type) numeric
     ++ repeat hidden_cell (Z.to_nat (num_rows * num_cols - n)))
    (Some (grid_title plot_type)) true.

(** The numeric columns of a table, as the classifier and the renderer
    select them, and the columns that [describe()] takes as numbers. *)
Definition numeric_of (data : DataFrame) : list column :=
  filter is_numeric (df_columns data).

Definition numbers_of (data : DataFrame) : list column :=
  filter is_number (df_columns data).

(** The names of the columns are ASCII text. *)
Definition ascii_names (cols : list column) : bool :=
  forallb (fun c => PyStr.isascii (col_name c)) cols.

(** ** The heatmap figure *)

(** The figure of [create_heatmap]: a single subplot holding the annotated
    map of the matrix [m] under its title. *)
Definition heatmap_figure (num : nat) (m : frame) : figure :=
  mkFigure num (Some (8, 6)) (1, 1)
    [mkAxes [Heatmap m true ".2f"] "Correlation Heatmap" true] None true.

(** ** Further observations *)

(** Every warning is ignored: the first filter is the one that
    [simplefilter('ignore')] installs. *)
Definition muted (s : world) : Prop :=
  exists fs, filters s = mkFilter act_ignore None :: fs.

(** A program that, run where every warning is ignored, writes nothing to
    the error stream and leaves the filters alone, whether it returns or
    raises. *)
Definition quiet_when_muted {A : Type} (m : M A) : Prop :=
  forall s, muted s ->
    stderr (final (m s)) = stderr s /\ filters (final (m s)) = filters s.

(** The cell of a matrix by position. *)
Definition entry (m : frame) (i j : nat) : option scalar :=
  match nth_error (fr_rows m) i with
  | Some row => nth_error row j
  | None => None
  end.

(** The infinite values of a column. *)
Definition infinities (c : column) : Z :=
  Z.of_nat (List.length (filter (fun v => match v with SInf _ => true | _ => false end)
                           (col_values c))).

(** ** Sample inputs

    Concrete tables, worlds and library behaviours on which the
    definitions are evaluated. *)

Module Sample.

(** A library that issues no warning. *)
Definition silent : libcall -> list warning := fun _ => [].

(** A library whose statistics warn about empty slices. *)
Definition noisy (c : libcall) : list warning :=
  match c with
  | call_corr _ => [mkWarning RuntimeWarning "Degrees of freedom <= 0 for slice"]
  | call_heatmap _ => [mkWarning RuntimeWarning "All-NaN slice encountered"]
  | call_set_option _ _ => [mkWarning FutureWarning "use_inf_as_na option is deprecated"]
  | call_show => [mkWarning UserWarning "FigureCanvasAgg is non-interactive"]
  | _ => []
  end.

(** seaborn 0.13: a box plot of a column that has no value left to draw,
    once the missing and the infinite ones are dropped, is refused. *)
Definition has_value (v : scalar) : bool :=
  match v with
  | SNaN | SInf _ => false
  | _ => true
  end.

Definition seaborn (inf_as_na : bool) (c : chart) : option exn :=
  match c with
  | Boxplot (Pandas.Series x) =>
      if existsb has_value (col_values x) then None else Some ValueError
  | _ => None
  end.

Definition fresh : world := mkWorld false [] [] [] [] [].

(** A process started with [-W error]. *)
Definition strict : world := mkWorld false [mkFilter act_error None] [] [] [] [].

Definition people : DataFrame :=
  mkDataFrame [0; 1; 2]
    [ mkColumn "age" int64 [SInt 30; SInt 41; SInt 25];
      mkColumn "total income" float64 [SFloat (5 # 2); SNaN; SFloat (7 # 1)];
      mkColumn "city" object_ [SStr "Oslo"; SStr "Rome"; SStr "Lima"];
      mkColumn "score" int64 [SInt 1; SInt 2; SInt 4] ].

Definition one_numeric : DataFrame :=
  mkDataFrame [0; 1]
    [ mkColumn "a" int64 [SInt 1; SInt 2];
      mkColumn "b" object_ [SStr "x"; SStr "y"] ].

Definition constant_column : DataFrame :=
  mkDataFrame [0; 1] [ mkColumn "a" int64 [SInt 5; SInt 5] ].

Definition text_only : DataFrame :=
  mkDataFrame [0; 1] [ mkColumn "city" object_ [SStr "Oslo"; SStr "Rome"] ].

Definition files (path : string) : result DataFrame :=
  if String.eqb path "people.csv" then Ok people
  else if String.eqb path "one.csv" then Ok one_numeric
  else if String.eqb path "text.csv" then Ok text_only
  else Err FileNotFoundError.

(** Summaries that keep the exact counts and leave the floating point
    statistics out. *)
Definition count_only (inf_as_na : bool) (c : column) : numeric_summary :=
  let n := SInt (Z.of_nat (List.length (col_values c))) in
  mkNumericSummary n SNaN SNaN SNaN SNaN SNaN SNaN SNaN.

Definition first_value (inf_as_na : bool) (c : column) : object_summary :=
  let n := SInt (Z.of_nat (List.length (col_values c))) in
  mkObjectSummary n n (nth 0 (col_values c) SNaN) (SInt 1).

End Sample.

(** Further tables: a repeated label, infinite values, a column without
    values, an unsigned column, values far apart. *)
Module Cases.

Definition repeated : DataFrame :=
  mkDataFrame [0; 1]
    [ mkColumn "a" int64 [SInt 1; SInt 2];
      mkColumn "b" object_ [SStr "x"; SStr "y"];
      mkColumn "a" float64 [SFloat (1 # 2); SNaN] ].

Definition overflowed : DataFrame :=
  mkDataFrame [0; 1; 2]
    [ mkColumn "ratio" float64 [SInf false; SNaN; SFloat (3 # 4)];
      mkColumn "unit" object_ [SStr "m"; SStr "s"; SNaN] ].

Definition all_missing : DataFrame :=
  mkDataFrame [0; 1]
    [ mkColumn "a" int64 [SInt 1; SInt 2];
      mkColumn "b" float64 [SNaN; SNaN];
      mkColumn "c" int64 [SInt 3; SInt 4] ].

Definition unsigned : DataFrame :=
  mkDataFrame [0; 1]
    [ mkColumn "id" uint64 [SInt 18446744073709551615; SInt 7];
      mkColumn "name" object_ [SStr "x"; SStr "y"] ].

Definition wide_range : DataFrame :=
  mkDataFrame [0; 1] [ mkColumn "a" float64 [SFloat 0; SFloat (inject_Z (10 ^ 80))] ].

Definition files (path : string) : result DataFrame :=
  if String.eqb path "overflowed.csv" then Ok overflowed
  else if String.eqb path "unsigned.csv" then Ok unsigned
  else if String.eqb path "missing_values.csv" then Ok all_missing
  else Sample.files path.

End Cases.

Section Libraries.

(** The advisory warnings of each library call. *)
Variable advisories : libcall -> list warning.

(** [pd.read_csv] on the files of the machine. *)
Variable read_csv : string -> result DataFrame.

(** The exception, if any, with which seaborn refuses to draw a chart,
    given the value of [mode.use_inf_as_na]. *)
Variable refusal : bool -> chart -> option exn.

(** ** matplotlib and seaborn *)

Definition advise (c : libcall) : M unit := Warnings.emit (advisories c).

Definition new_figure (figsize : option (Z * Z)) : M nat :=
  fun s =>
    if bad_size figsize then Raises ValueError s
    else
      let num := next_num (open_figures s) in
      Returns num
        (set_open_figures (mkFigure num figsize (0, 0) [] None false :: open_figures s) s).

(** [plt.figure(figsize=...)] *)
Definition plt_figure (figsize : option (Z * Z)) : M unit :=
  advise (call_figure figsize) ;;
  _ <- new_figure figsize ;;
  ret tt.

(** [plt.subplots(nrows, ncols, figsize=...)]: the figure is made first,
    then its grid, which must have at least one row and one column. *)
Definition plt_subplots (nrows ncols : Z) (figsize : option (Z * Z)) : M axes_array :=
  advise (call_subplots nrows ncols) ;;
  num <- new_figure figsize ;;
  if (nrows <=? 0) || (ncols <=? 0) then raise ValueError
  else
    modify (fun s =>
      set_open_figures
        (update_figure num
           (fun g => mkFigure (fig_num g) (fig_size g) (nrows, ncols)
                       (repeat blank_axes (Z.to_nat nrows * Z.to_nat ncols))
                       (fig_suptitle g) (fig_tight g))
           (open_figures s)) s) ;;
    ret (squeeze nrows ncols (grid_refs num nrows ncols)).

Definition on_axes (r : ax_ref) (f : axes -> axes) : M unit :=
  modify (fun s =>
    set_open_figures
      (update_figure (ref_fig r)
         (fun g => set_axes (update_nth (ref_pos r) f (fig_axes g)) g)
         (open_figures s)) s).

(** A chart is added to its axes, unless seaborn refuses its data. *)
Definition draw (c : chart) (ax : ax_ref) : M unit :=
  fun s =>
    match refusal (use_inf_as_na s) c with
    | Some e => Raises e s
    | None => on_axes ax (add_chart c) s
    end.

(** [sns.boxplot(x=x, ax=ax)] and [sns.histplot(x=x, ax=ax)] *)
Definition sns_boxplot (x : Pandas.selection) (ax : ax_ref) : M unit :=
  advise (call_boxplot x) ;;
  draw (Boxplot x) ax.

Definition sns_histplot (x : Pandas.selection) (ax : ax_ref) : M unit :=
  advise (call_histplot x) ;;
  draw (Histplot x) ax.

(** seaborn draws the chart of a column, and of every numeric column of a
    table. *)
Definition accepted (inf_as_na : bool) (plot_type : string) (c : column) : bool :=
  forallb (fun ch => match refusal inf_as_na ch with None => true | Some _ => false end)
          (charts_of plot_type c).

Definition draws (inf_as_na : bool) (plot_type : string) (data : DataFrame) : bool :=
  forallb (accepted inf_as_na plot_type) (numeric_of data).

(** [ax.set_title(t)] and [ax.axis('off')] *)
Definition set_title (ax : ax_ref) (t : string) : M unit := on_axes ax (with_title t).

Definition axis_off (ax : ax_ref) : M unit := on_axes ax switched_off.

(** [plt.suptitle(t, ...)], [plt.title(t)], [plt.tight_layout()] *)
Definition plt_suptitle (t : string) : M unit :=
  advise (call_suptitle t) ;;
  with_gcf (fun g => mkFigure (fig_num g) (fig_size g) (fig_grid g) (fig_axes g) (Some t)
                       (fig_tight g)).

Definition plt_title (t : string) : M unit :=
  advise (call_title t) ;;
  with_gcf (on_gca (with_title t)).

Definition plt_tight_layout : M unit :=
  advise call_tight_layout ;;
  with_gcf (fun g => mkFigure (fig_num g) (fig_size g) (fig_grid g) (fig_axes g)
                       (fig_suptitle g) true).

(** [plt.show()]: every open figure is displayed, oldest first, and closed,
    as under a blocking or an inline backend. *)
Definition plt_show : M unit :=
  advise call_show ;;
  modify (fun s => set_figures [] (shown s ++ rev (open_figures s)) s).

(** [sns.heatmap(m, annot=..., fmt=..., linewidths=...)]: the colour range
    is taken from the cells first ([np.nanmin]), which fails on a matrix
    without cells; the map is then drawn on the current axes.  The line
    width and the colour bar are not part of the model. *)
Definition sns_heatmap (m : frame) (annot : bool) (fmt : string) : M unit :=
  advise (call_heatmap m) ;;
  if size_zero m then raise ValueError
  else with_gcf (on_gca (add_chart (Heatmap m annot fmt))).

Definition pd_corr (data : DataFrame) : M frame :=
  advise (call_corr data) ;;
  ret (corr data).

(** [pd.set_option('mode.use_inf_as_na', value)] *)
Definition pd_set_option_use_inf_as_na (value : bool) : M unit :=
  advise (call_set_option "mode.use_inf_as_na" value) ;;
  modify (set_use_inf_as_na value).

(** ** Chart renderer *)

(** The cell of one column in [create_subplots]. *)
Definition plot_column (data : DataFrame) (plot_type : string) (num_cols : Z)
    (axs : axes_array) (i : Z) (column : string) : M unit :=
  row <- lift (floordiv i num_cols) ;;
  col <- lift (pymod i num_cols) ;;
  (if String.eqb plot_type "boxplot" then
     x <- lift (Pandas.getitem data column) ;;
     ax <- lift (axes_getitem axs row col) ;;
     sns_boxplot x ax
   else if String.eqb plot_type "histplot" then
     x <- lift (Pandas.getitem data column) ;;
     ax <- lift (axes_getitem axs row col) ;;
     sns_histplot x ax
   else ret tt) ;;
  ax <- lift (axes_getitem axs row col) ;;
  set_title ax (PyStr.capitalize column).

(** The cell switched off after the last chart. *)
Definition hide_cell (num_cols : Z) (axs : axes_array) (i : Z) : M unit :=
  row <- lift (floordiv i num_cols) ;;
  col <- lift (pymod i num_cols) ;;
  ax <- lift (axes_getitem axs row col) ;;
  axis_off ax.

Definition create_subplots (data : DataFrame) (plot_type : string) (num_cols : Z) : M unit :=
  numeric_columns <- lift (filter_r (is_int64_or_float64 data) (columns data)) ;;
  let num_plots := Z.of_nat (List.length numeric_columns) in
  num_rows <- lift (floordiv (num_plots + num_cols - 1) num_cols) ;;
  axs <- plt_subplots num_rows num_cols (Some (15, num_rows * 5)) ;;
  for_each (enumerate numeric_columns)
    (fun ic => plot_column data plot_type num_cols axs (fst ic) (snd ic)) ;;
  let plot_title := if String.eqb plot_type "boxplot" then "Boxplot" else "Histogram" in
  plt_suptitle (plot_title ++ " Analysis")%string ;;
  for_each (py_range num_plots (num_rows * num_cols)) (hide_cell num_cols axs) ;;
  plt_tight_layout ;;
  plt_show.

Definition create_heatmap (data : DataFrame) : M unit :=
  data <- lift (numeric_data data) ;;
  corr_matrix <- pd_corr data ;;
  plt_figure (Some (8, 6)) ;;
  sns_heatmap corr_matrix true ".2f" ;;
  plt_title "Correlation Heatmap" ;;
  plt_tight_layout ;;
  plt_show.

(** ** Loader *)

Definition data_input (csv : string) : M DataFrame :=
  advise (call_read_csv csv) ;;
  lift (read_csv csv).

(** ** Statistics aggregator *)

(** The summaries pandas computes, given the value of the option
    [mode.use_inf_as_na]. *)
Variable describe_numeric : bool -> column -> numeric_summary.
Variable describe_object : bool -> column -> object_summary.

Definition numeric_stats : list (string * (numeric_summary -> scalar)) :=
  [("count", ns_count); ("mean", ns_mean); ("std", ns_std); ("min", ns_min);
   ("25%", ns_q25); ("50%", ns_q50); ("75%", ns_q75); ("max", ns_max)].

Definition object_stats : list (string * (object_summary -> scalar)) :=
  [("count", os_count); ("unique", os_unique); ("top", os_top); ("freq", os_freq)].

Definition summary_frame {S : Type} (stats : list (string * (S -> scalar)))
    (summary : column -> S) (cols : list column) : frame :=
  mkFrame (map (fun st => LStr (fst st)) stats)
          (map name_label cols)
          (map (fun st => map (fun c => snd st (summary c)) cols) stats).

(** [data.describe()]: one column per column of [data] whose dtype is a
    number ([np.number]) and one row per statistic; when [data] has no such
    column, every column is summarised as an object column instead; a table
    without columns cannot be described. *)
Definition describe (inf_as_na : bool) (data : DataFrame) : result frame :=
  match df_columns data with
  | [] => Err ValueError
  | cols =>
      match filter is_number cols with
      | [] => Ok (summary_frame object_stats (describe_object inf_as_na) cols)
      | numbers => Ok (summary_frame numeric_stats (describe_numeric inf_as_na) numbers)
      end
  end.

Definition pd_describe (data : DataFrame) : M frame :=
  advise (call_describe data) ;;
  fun s => lift (describe (use_inf_as_na s) data) s.

Definition data_describe (data : DataFrame) : M frame :=
  described <- pd_describe data ;;
  lift (Frames.drop_columns (LStr "count") (Frames.transpose described)).

(** [pd.isnull] on a cell: infinities count when [mode.use_inf_as_na] is set. *)
Definition isnull (inf_as_na : bool) (v : scalar) : bool :=
  match v with
  | SNaN => true
  | SInf _ => inf_as_na
  | _ => false
  end.

Definition null_count (inf_as_na : bool) (c : column) : Z :=
  Z.of_nat (List.length (filter (isnull inf_as_na) (col_values c))).

(** [data.isnull().sum()] *)
Definition isnull_sum (inf_as_na : bool) (data : DataFrame) : series :=
  map (fun c => (name_label c, SInt (null_count inf_as_na c))) (df_columns data).

Definition data_isnull (data : DataFrame) : M frame :=
  fun s =>
    Returns (Frames.rename_columns [(LInt 0, LStr "null_count")]
               (Frames.to_frame (isnull_sum (use_inf_as_na s) data))) s.

(** [data.dtypes] *)
Definition data_type (data : DataFrame) : series :=
  map (fun c => (name_label c, SDtype (col_dtype c))) (df_columns data).

(** [d[k] = v] on a dict: a key keeps the place of its first insertion. *)
Fixpoint dict_set {V : Type} (d : list (string * V)) (k : string) (v : V)
    : list (string * V) :=
  match d with
  | [] => [(k, v)]
  | (k', v') :: rest =>
      if String.eqb k' k then (k', v) :: rest else (k', v') :: dict_set rest k v
  end.

Definition data_count (data : DataFrame) : list (string * list scalar) :=
  fold_left (fun count_dict column => dict_set count_dict column [SInt (shape0 data)])
            (columns data) [].

Definition stats_report (csv : string) : M frame :=
  data <- data_input csv ;;
  counts <- lift (Frames.of_dict (data_count data)) ;;
  let df1 := Frames.rename_columns [(LInt 0, LStr "entry_count")] (Frames.transpose counts) in
  df1 <- lift (Frames.setitem_series df1 (LStr "data_type") (data_type data)) ;;
  nulls <- data_isnull data ;;
  df1 <- lift (Frames.setitem_frame df1 (LStr "null_count") nulls) ;;
  df2 <- data_describe data ;;
  ret (Frames.merge_left df1 df2).

(** ** Report driver *)

(** The statements under the [with] of [initial_analysis], after the
    filter is set. *)
Definition analysis_body (csv : string) (num_cols : Z) : M unit :=
  pd_set_option_use_inf_as_na true ;;
  data <- data_input csv ;;
  print (String "010" EmptyString) ;;
  create_subplots data "boxplot" num_cols ;;
  print (String "010" (String "010" EmptyString)) ;;
  create_subplots data "histplot" num_cols ;;
  print (String "010" (String "010" EmptyString)) ;;
  create_heatmap data.

Definition initial_analysis (csv : string) (num_cols : Z) : M unit :=
  Warnings.catch_warnings
    (Warnings.simplefilter act_ignore ;;
     analysis_body csv num_cols).

(** The same sequence run without the warning-suppression wrapper: the
    run that [initial_analysis] is compared with. *)
Definition initial_analysis_unwrapped (csv : string) (num_cols : Z) : M unit :=
  analysis_body csv num_cols.

(** ** The statistics report as the specification words it *)

(** The count/type/null table: one row per column of the table. *)
Definition count_type_null (inf_as_na : bool) (data : DataFrame) : frame :=
  mkFrame (map name_label (df_columns data))
          [LStr "entry_count"; LStr "data_type"; LStr "null_count"]
          (map (fun c => [SInt (shape0 data); SDtype (col_dtype c);
                          SInt (null_count inf_as_na c)])
               (df_columns data)).

(** The numeric descriptive-statistics table: one row per column whose
    dtype is a number. *)
Definition numeric_fields : list label :=
  [LStr "mean"; LStr "std"; LStr "min"; LStr "25%"; LStr "50%"; LStr "75%"; LStr "max"].

Definition numeric_table (inf_as_na : bool) (data : DataFrame) : frame :=
  let numeric := numbers_of data in
  mkFrame (map name_label numeric) numeric_fields
          (map (fun c =>
                  let s := describe_numeric inf_as_na c in
                  [ns_mean s; ns_std s; ns_min s; ns_q25 s; ns_q50 s; ns_q75 s; ns_max s])
               numeric).

Definition left_join_report (inf_as_na : bool) (data : DataFrame) : frame :=
  Frames.merge_left (count_type_null inf_as_na data) (numeric_table inf_as_na data).

(** The table that the report is joined with when no column is a number:
    the object summary of every column, without its count. *)
Definition categorical_table (inf_as_na : bool) (data : DataFrame) : frame :=
  mkFrame (map name_label (df_columns data)) [LStr "unique"; LStr "top"; LStr "freq"]
          (map (fun c =>
                  let s := describe_object inf_as_na c in
                  [os_unique s; os_top s; os_freq s])
               (df_columns data)).

End Libraries.

(** * Properties *)

(** ** Column classifier *)

Lemma nodupb_sound (l : list string) : nodupb l = true -> NoDup l.
Proof.
  induction l as [|x l IH]; simpl; intros H; [constructor|].
  apply andb_true_iff in H. destruct H as [Hx Hl].
  constructor; [|now apply IH].
  intros Hin. apply negb_true_iff in Hx.
  assert (E : existsb (String.eqb x) l = true).
  { apply existsb_exists. exists x. split; auto. apply String.eqb_refl. }
  congruence.
Qed.

Lemma filter_name_absent (cs : list column) (key : string) :
  ~ In key (map col_name cs) ->
  filter (fun c => String.eqb (col_name c) key) cs = [].
Proof.
  induction cs as [|c cs IH]; simpl; intros H; auto.
  destruct (String.eqb (col_name c) key) eqn:E.
  - apply String.eqb_eq in E. tauto.
  - apply IH. tauto.
Qed.

Lemma filter_name_unique (cs : list column) (c : column) :
  NoDup (map col_name cs) -> In c cs ->
  filter (fun c' => String.eqb (col_name c') (col_name c)) cs = [c].
Proof.
  induction cs as [|c0 cs IH]; simpl; intros Hnd Hin; [contradiction|].
  inversion Hnd as [|? ? Hnot Hnd']; subst.
  destruct Hin as [-> | Hin].
  - rewrite String.eqb_refl. f_equal. now apply filter_name_absent.
  - destruct (String.eqb (col_name c0) (col_name c)) eqn:E.
    + apply String.eqb_eq in E. exfalso. apply Hnot. rewrite E. now apply in_map.
    + now apply IH.
Qed.

Lemma getitem_unique (data : DataFrame) (c : column) :
  unique_columns data -> In c (df_columns data) ->
  Pandas.getitem data (col_name c) = Ok (Pandas.Series c).
Proof.
  intros Hu Hin. unfold Pandas.getitem.
  now rewrite (filter_name_unique _ _ (nodupb_sound _ Hu) Hin).
Qed.

Lemma find_column_unique (data : DataFrame) (c : column) :
  unique_columns data -> In c (df_columns data) ->
  Pandas.find_column data (col_name c) = c.
Proof.
  intros Hu. apply nodupb_sound in Hu. revert Hu.
  unfold columns, Pandas.find_column.
  generalize (df_columns data) as cs. intros cs.
  induction cs as [|c0 cs IH]; simpl; intros Hnd Hin; [contradiction|].
  inversion Hnd as [|? ? Hnot Hnd']; subst.
  destruct Hin as [-> | Hin].
  - now rewrite String.eqb_refl.
  - destruct (String.eqb (col_name c0) (col_name c)) eqn:E.
    + apply String.eqb_eq in E. exfalso. apply Hnot. rewrite E. now apply in_map.
    + now apply IH.
Qed.

Lemma is_int64_or_float64_unique (data : DataFrame) (c : column) :
  unique_columns data -> In c (df_columns data) ->
  is_int64_or_float64 data (col_name c) = Ok (is_numeric c).
Proof.
  intros Hu Hin. unfold is_int64_or_float64.
  rewrite (getitem_unique _ _ Hu Hin). simpl.
  unfold is_numeric. now destruct (col_dtype c).
Qed.

Lemma not_int64_and_not_float64_unique (data : DataFrame) (c : column) :
  unique_columns data -> In c (df_columns data) ->
  not_int64_and_not_float64 data (col_name c) = Ok (negb (is_numeric c)).
Proof.
  intros Hu Hin. unfold not_int64_and_not_float64.
  rewrite (getitem_unique _ _ Hu Hin). simpl.
  unfold is_numeric. now destruct (col_dtype c).
Qed.

Lemma filter_r_names (p : string -> result bool) (q : column -> bool) (cs : list column) :
  (forall c, In c cs -> p (col_name c) = Ok (q c)) ->
  filter_r p (map col_name cs) = Ok (map col_name (filter q cs)).
Proof.
  induction cs as [|c cs IH]; simpl; intros H; auto.
  rewrite (H c (or_introl eq_refl)). simpl.
  rewrite IH by (intros; apply H; now right). simpl.
  now destruct (q c).
Qed.

Lemma numeric_column_names (data : DataFrame) :
  unique_columns data ->
  filter_r (is_int64_or_float64 data) (columns data)
  = Ok (map col_name (filter is_numeric (df_columns data))).
Proof.
  intros Hu. apply filter_r_names. intros c Hc.
  now apply is_int64_or_float64_unique.
Qed.

Lemma reindex_selected (data : DataFrame) (q : column -> bool) :
  unique_columns data ->
  Pandas.reindex_columns data (map col_name (filter q (df_columns data)))
  = Ok (mkDataFrame (df_index data) (filter q (df_columns data))).
Proof.
  intros Hu. unfold Pandas.reindex_columns.
  rewrite Hu. do 2 f_equal.
  rewrite map_map.
  assert (H : forall c, In c (filter q (df_columns data)) ->
                        Pandas.find_column data (col_name c) = c).
  { intros c Hc. apply filter_In in Hc. now apply find_column_unique. }
  induction (filter q (df_columns data)) as [|c cs IH]; simpl; auto.
  rewrite H by now left. f_equal. apply IH. intros; apply H; now right.
Qed.

Lemma numeric_data_unique (data : DataFrame) :
  unique_columns data ->
  numeric_data data = Ok (mkDataFrame (df_index data) (filter is_numeric (df_columns data))).
Proof.
  intros Hu. unfold numeric_data.
  rewrite (numeric_column_names _ Hu). simpl.
  now apply reindex_selected.
Qed.

Lemma non_numeric_data_unique (data : DataFrame) :
  unique_columns data ->
  non_numeric_data data
  = Ok (mkDataFrame (df_index data)
          (filter (fun c => negb (is_numeric c)) (df_columns data))).
Proof.
  intros Hu. unfold non_numeric_data, columns.
  rewrite (filter_r_names _ (fun c => negb (is_numeric c))).
  - simpl. now apply (reindex_selected data (fun c => negb (is_numeric c))).
  - intros c Hc. now apply not_int64_and_not_float64_unique.
Qed.

Lemma name_of_filtered (q : column -> bool) (cs : list column) (name : string) :
  NoDup (map col_name cs) ->
  In name (map col_name (filter q cs)) ->
  exists c, In c cs /\ col_name c = name /\ q c = true /\
            forall c', In c' cs -> col_name c' = name -> c' = c.
Proof.
  intros Hnd Hin. apply in_map_iff in Hin. destruct Hin as [c [Hname Hc]].
  apply filter_In in Hc. destruct Hc as [Hc Hq].
  exists c. repeat split; auto.
  intros c' Hc' Hname'. clear Hq.
  induction cs as [|c0 cs IH]; simpl in *; [contradiction|].
  inversion Hnd as [|? ? Hnot Hnd']; subst.
  destruct Hc as [-> | Hc], Hc' as [-> | Hc']; auto.
  - exfalso. apply Hnot. rewrite <- Hname'. now apply in_map.
  - exfalso. apply Hnot. rewrite Hname'. now apply in_map.
Qed.

(** C4. The classifier splits a table with distinct column labels into a
    numeric and a non-numeric table without raising: both keep the index
    of the table (hence its row count) and their columns in the order of
    the table, no label is in both, and every label of the table is in one
    of them. *)
Theorem classifier_partition (T : DataFrame) :
  unique_columns T ->
  exists N X,
    numeric_data T = Ok N /\ non_numeric_data T = Ok X /\
    df_columns N = filter is_numeric (df_columns T) /\
    df_columns X = filter (fun c => negb (is_numeric c)) (df_columns T) /\
    df_index N = df_index T /\ df_index X = df_index T /\
    shape0 N = shape0 T /\ shape0 X = shape0 T /\
    (forall name, In name (columns N) -> ~ In name (columns X)) /\
    (forall name, In name (columns T) <-> In name (columns N) \/ In name (columns X)) /\
    (aligned T -> aligned N /\ aligned X).
Proof.
  intros Hu.
  exists (mkDataFrame (df_index T) (filter is_numeric (df_columns T))).
  exists (mkDataFrame (df_index T) (filter (fun c => negb (is_numeric c)) (df_columns T))).
  split; [now apply numeric_data_unique|].
  split; [now apply non_numeric_data_unique|].
  unfold columns, shape0, aligned; simpl.
  repeat (split; [reflexivity|]).
  split; [|split].
  - intros name HN HX.
    destruct (name_of_filtered _ _ _ (nodupb_sound _ Hu) HN) as [c [Hc [Hn [Hq Huniq]]]].
    destruct (name_of_filtered _ _ _ (nodupb_sound _ Hu) HX) as [c' [Hc' [Hn' [Hq' _]]]].
    rewrite (Huniq c' Hc' Hn') in Hq'. rewrite Hq in Hq'. discriminate.
  - intros name. split.
    + intros Hin. apply in_map_iff in Hin. destruct Hin as [c [Hn Hc]].
      destruct (is_numeric c) eqn:E; [left | right];
        apply in_map_iff; exists c; split; auto; apply filter_In; split; auto.
      now rewrite E.
    + intros [Hin | Hin]; apply in_map_iff in Hin; destruct Hin as [c [Hn Hc]];
        apply filter_In in Hc; apply in_map_iff; exists c; tauto.
  - intros Hal. split; intros c Hc; apply filter_In in Hc; apply Hal; tauto.
Qed.

(** ** Runs that differ in their warnings only *)

Lemma agree_refl (s : world) : agree s s.
Proof. unfold agree; auto. Qed.

Lemma agree_trans (s1 s2 s3 : world) : agree s1 s2 -> agree s2 s3 -> agree s1 s3.
Proof. unfold agree; intuition congruence. Qed.

Lemma agree_sym (s1 s2 : world) : agree s1 s2 -> agree s2 s1.
Proof. unfold agree; intuition congruence. Qed.

Lemma tolerant_filters (s1 s2 : world) :
  filters s1 = filters s2 -> Warnings.tolerant s2 = true -> Warnings.tolerant s1 = true.
Proof. unfold Warnings.tolerant. now intros ->. Qed.

Lemma sim_ret {A : Type} (a : A) : sim (ret a) (ret a).
Proof. intros s1 s2 H _ _. unfold related; simpl; auto. Qed.

Lemma sim_raise {A : Type} (e : exn) : sim (@raise A e) (raise e).
Proof. intros s1 s2 H _ _. unfold related; simpl; auto. Qed.

Lemma sim_lift {A : Type} (r : result A) : sim (lift r) (lift r).
Proof. destruct r; [apply sim_ret | apply sim_raise]. Qed.

Lemma sim_bind {A B : Type} (m1 m2 : M A) (k1 k2 : A -> M B) :
  sim m1 m2 -> (forall a, sim (k1 a) (k2 a)) -> sim (bind m1 k1) (bind m2 k2).
Proof.
  intros Hm Hk s1 s2 Hs H1 H2. unfold bind.
  specialize (Hm s1 s2 Hs H1 H2). destruct Hm as [Hr [Ha [F1 F2]]].
  destruct (m1 s1) as [a t1 | e t1], (m2 s2) as [b t2 | e' t2]; simpl in *;
    try contradiction.
  - subst b.
    assert (T1 := tolerant_filters _ _ F1 H1).
    assert (T2 := tolerant_filters _ _ F2 H2).
    destruct (Hk a t1 t2 Ha T1 T2) as [Hr' [Ha' [G1 G2]]].
    split; [exact Hr'|]. split; [exact Ha'|]. split; congruence.
  - unfold related; simpl; auto.
Qed.

Lemma sim_for_each {A : Type} (xs : list A) (f1 f2 : A -> M unit) :
  (forall x, sim (f1 x) (f2 x)) -> sim (for_each xs f1) (for_each xs f2).
Proof.
  intros H. induction xs as [|x xs IH]; simpl.
  - apply sim_ret.
  - apply sim_bind; auto.
Qed.

Lemma sim_modify (f : world -> world) :
  (forall s1 s2, agree s1 s2 -> agree (f s1) (f s2)) ->
  (forall s, filters (f s) = filters s) ->
  sim (modify f) (modify f).
Proof.
  intros Hf Hfl s1 s2 Hs _ _. unfold related, modify; simpl. auto.
Qed.

Lemma action_for_category (fs : list wfilter) (w : warning) :
  Warnings.action_for fs w = Warnings.action_for fs (mkWarning (w_category w) "").
Proof. reflexivity. Qed.

Lemma action_for_tolerant (s : world) (w : warning) :
  Warnings.tolerant s = true ->
  Warnings.action_for (filters s) w <> act_error.
Proof.
  unfold Warnings.tolerant, Warnings.escalates. intros H E.
  rewrite action_for_category in E.
  apply negb_true_iff in H. simpl in H.
  destruct (w_category w); rewrite E in H; simpl in H;
    repeat rewrite orb_true_r in H; discriminate.
Qed.

Lemma warn_tolerant (w : warning) (s : world) :
  Warnings.tolerant s = true ->
  exists s', Warnings.warn w s = Returns tt s' /\ agree s s' /\ filters s' = filters s.
Proof.
  intros H. unfold Warnings.warn.
  pose proof (action_for_tolerant s w H) as Hne.
  destruct (Warnings.action_for (filters s) w); try congruence;
    eexists; (split; [reflexivity|]); (split; [unfold agree; simpl; auto | reflexivity]).
Qed.

Lemma emit_tolerant (ws : list warning) (s : world) :
  Warnings.tolerant s = true ->
  exists s', Warnings.emit ws s = Returns tt s' /\ agree s s' /\ filters s' = filters s.
Proof.
  revert s. induction ws as [|w ws IH]; intros s H.
  - exists s. repeat split; apply agree_refl.
  - destruct (warn_tolerant w s H) as [s1 [E1 [A1 F1]]].
    destruct (IH s1 (tolerant_filters _ _ F1 H)) as [s2 [E2 [A2 F2]]].
    exists s2. unfold Warnings.emit in *. simpl. unfold bind at 1. rewrite E1.
    split; [exact E2|]. split; [eapply agree_trans; eauto | congruence].
Qed.

Ltac same_surface :=
  let u := fresh "u" in let f := fresh "f" in let e := fresh "e" in
  let o := fresh "o" in let g := fresh "g" in let h := fresh "h" in
  let Hu := fresh "Hu" in let Ho := fresh "Ho" in
  let Hg := fresh "Hg" in let Hh := fresh "Hh" in
  intros [u f e o g h] [? ? ? ? ? ?] [Hu [Ho [Hg Hh]]]; simpl in Hu, Ho, Hg, Hh; subst.

Ltac modifies :=
  apply sim_modify;
  [ same_surface; unfold agree; simpl;
    try (match goal with |- context [match ?g with _ => _ end] => destruct g end;
         simpl);
    repeat split; auto
  | intros [? ? ? ? ? ?]; simpl;
    try (match goal with |- context [match ?g with _ => _ end] => destruct g end);
    reflexivity ].

Create HintDb sim.

#[local] Hint Resolve sim_ret sim_raise sim_lift sim_for_each : sim.

Ltac sim_steps :=
  repeat first
    [ solve [auto with sim]
    | apply sim_bind; [|intro] ].

Section TwoLibraries.

Variables adv1 adv2 : libcall -> list warning.
Variable refusal : bool -> chart -> option exn.

Lemma sim_advise (c : libcall) : sim (advise adv1 c) (advise adv2 c).
Proof.
  intros s1 s2 Hs H1 H2. unfold advise.
  destruct (emit_tolerant (adv1 c) s1 H1) as [t1 [E1 [A1 F1]]].
  destruct (emit_tolerant (adv2 c) s2 H2) as [t2 [E2 [A2 F2]]].
  rewrite E1, E2. unfold related; simpl.
  split; [reflexivity|]. split; [|split; assumption].
  eapply agree_trans; [apply agree_sym; exact A1|].
  eapply agree_trans; [exact Hs | exact A2].
Qed.

Lemma sim_new_figure (figsize : option (Z * Z)) :
  sim (new_figure figsize) (new_figure figsize).
Proof.
  same_surface. intros _ _. unfold new_figure, related.
  destruct (bad_size figsize); simpl; unfold agree; simpl; repeat split; auto.
Qed.

Lemma sim_on_axes (r : ax_ref) (f : axes -> axes) : sim (on_axes r f) (on_axes r f).
Proof. unfold on_axes. modifies. Qed.

Lemma sim_with_gcf (f : figure -> figure) : sim (with_gcf f) (with_gcf f).
Proof. unfold with_gcf. modifies. Qed.

Hint Resolve sim_advise sim_new_figure sim_on_axes sim_with_gcf : sim.

Lemma sim_plt_figure (figsize : option (Z * Z)) :
  sim (plt_figure adv1 figsize) (plt_figure adv2 figsize).
Proof. unfold plt_figure. sim_steps. Qed.

Lemma sim_plt_subplots (nrows ncols : Z) (figsize : option (Z * Z)) :
  sim (plt_subplots adv1 nrows ncols figsize) (plt_subplots adv2 nrows ncols figsize).
Proof.
  unfold plt_subplots. sim_steps.
  destruct ((nrows <=? 0) || (ncols <=? 0)); sim_steps. modifies.
Qed.

Lemma sim_draw (c : chart) (ax : ax_ref) : sim (draw refusal c ax) (draw refusal c ax).
Proof.
  intros s1 s2 Hs H1 H2. unfold draw.
  pose proof Hs as [Hu _]. rewrite <- Hu.
  destruct (refusal (use_inf_as_na s1) c).
  - unfold related; simpl; auto.
  - apply sim_on_axes; assumption.
Qed.

Hint Resolve sim_draw : sim.

Lemma sim_sns_boxplot (x : Pandas.selection) (ax : ax_ref) :
  sim (sns_boxplot adv1 refusal x ax) (sns_boxplot adv2 refusal x ax).
Proof. unfold sns_boxplot. sim_steps. Qed.

Lemma sim_sns_histplot (x : Pandas.selection) (ax : ax_ref) :
  sim (sns_histplot adv1 refusal x ax) (sns_histplot adv2 refusal x ax).
Proof. unfold sns_histplot. sim_steps. Qed.

Lemma sim_set_title (ax : ax_ref) (t : string) : sim (set_title ax t) (set_title ax t).
Proof. unfold set_title. auto with sim. Qed.

Lemma sim_axis_off (ax : ax_ref) : sim (axis_off ax) (axis_off ax).
Proof. unfold axis_off. auto with sim. Qed.

Lemma sim_plt_suptitle (t : string) : sim (plt_suptitle adv1 t) (plt_suptitle adv2 t).
Proof. unfold plt_suptitle. sim_steps. Qed.

Lemma sim_plt_title (t : string) : sim (plt_title adv1 t) (plt_title adv2 t).
Proof. unfold plt_title. sim_steps. Qed.

Lemma sim_plt_tight_layout : sim (plt_tight_layout adv1) (plt_tight_layout adv2).
Proof. unfold plt_tight_layout. sim_steps. Qed.

Lemma sim_plt_show : sim (plt_show adv1) (plt_show adv2).
Proof. unfold plt_show. sim_steps. modifies. Qed.

Lemma sim_sns_heatmap (m : frame) (annot : bool) (fmt : string) :
  sim (sns_heatmap adv1 m annot fmt) (sns_heatmap adv2 m annot fmt).
Proof. unfold sns_heatmap. sim_steps. destruct (size_zero m); auto with sim. Qed.

Lemma sim_pd_corr (data : DataFrame) :
  sim (pd_corr adv1 data) (pd_corr adv2 data).
Proof. unfold pd_corr. sim_steps. Qed.

Lemma sim_pd_set_option (value : bool) :
  sim (pd_set_option_use_inf_as_na adv1 value) (pd_set_option_use_inf_as_na adv2 value).
Proof. unfold pd_set_option_use_inf_as_na. sim_steps. modifies. Qed.

Lemma sim_print (text : string) : sim (print text) (print text).
Proof. unfold print. modifies. Qed.

Hint Resolve sim_plt_figure sim_plt_subplots sim_sns_boxplot sim_sns_histplot
  sim_set_title sim_axis_off sim_plt_suptitle sim_plt_title sim_plt_tight_layout
  sim_plt_show sim_sns_heatmap sim_pd_corr sim_pd_set_option sim_print : sim.

Lemma sim_plot_column (data : DataFrame) (plot_type : string) (num_cols : Z)
    (axs : axes_array) (i : Z) (column : string) :
  sim (plot_column adv1 refusal data plot_type num_cols axs i column)
      (plot_column adv2 refusal data plot_type num_cols axs i column).
Proof.
  unfold plot_column. sim_steps.
  destruct (String.eqb plot_type "boxplot"); [sim_steps|].
  destruct (String.eqb plot_type "histplot"); sim_steps.
Qed.

Lemma sim_hide_cell (num_cols : Z) (axs : axes_array) (i : Z) :
  sim (hide_cell num_cols axs i) (hide_cell num_cols axs i).
Proof. unfold hide_cell. sim_steps. Qed.

Hint Resolve sim_plot_column sim_hide_cell : sim.

Lemma sim_create_subplots (data : DataFrame) (plot_type : string) (num_cols : Z) :
  sim (create_subplots adv1 refusal data plot_type num_cols)
      (create_subplots adv2 refusal data plot_type num_cols).
Proof. unfold create_subplots. sim_steps. Qed.

Lemma sim_create_heatmap (data : DataFrame) :
  sim (create_heatmap adv1 data) (create_heatmap adv2 data).
Proof. unfold create_heatmap. sim_steps. Qed.

Lemma sim_data_input (read_csv : string -> result DataFrame) (csv : string) :
  sim (data_input adv1 read_csv csv) (data_input adv2 read_csv csv).
Proof. unfold data_input. sim_steps. Qed.

Hint Resolve sim_create_subplots sim_create_heatmap sim_data_input : sim.

Lemma sim_analysis_body (read_csv : string -> result DataFrame) (csv : string)
    (num_cols : Z) :
  sim (analysis_body adv1 read_csv refusal csv num_cols)
      (analysis_body adv2 read_csv refusal csv num_cols).
Proof. unfold analysis_body. sim_steps. Qed.

End TwoLibraries.

(** ** Chart grids *)

Lemma nth_error_map_seq {A : Type} (f : nat -> A) (n j start : nat) :
  (j < n)%nat -> nth_error (map f (seq start n)) j = Some (f (start + j)%nat).
Proof.
  revert j start. induction n as [|n IH]; intros j start H; [lia|].
  destruct j as [|j]; simpl.
  - now rewrite Nat.add_0_r.
  - rewrite IH by lia. f_equal. f_equal. lia.
Qed.

Lemma np_index_map_seq {A : Type} (f : nat -> A) (n : nat) (i : Z) :
  0 <= i < Z.of_nat n -> np_index (map f (seq 0 n)) i = Ok (f (Z.to_nat i)).
Proof.
  intros H. unfold np_index. rewrite length_map, length_seq.
  destruct (i <? 0) eqn:E; [apply Z.ltb_lt in E; lia|].
  replace ((0 <=? i) && (i <? Z.of_nat n)) with true
    by (symmetry; apply andb_true_iff; split; [apply Z.leb_le | apply Z.ltb_lt]; lia).
  rewrite nth_error_map_seq by lia. reflexivity.
Qed.

Lemma grid_getitem (num : nat) (nrows ncols : Z) (k : nat) :
  2 <= nrows -> 2 <= ncols -> Z.of_nat k < nrows * ncols ->
  axes_getitem (squeeze nrows ncols (grid_refs num nrows ncols))
    (Z.of_nat k / ncols) (Z.of_nat k mod ncols) = Ok (mkRef num k).
Proof.
  intros Hr Hc Hk. unfold squeeze.
  replace (nrows =? 1) with false by (symmetry; apply Z.eqb_neq; lia).
  replace (ncols =? 1) with false by (symmetry; apply Z.eqb_neq; lia).
  simpl. unfold grid_refs.
  assert (Hq : 0 <= Z.of_nat k / ncols < nrows).
  { split; [apply Z.div_pos; lia|]. apply Z.div_lt_upper_bound; lia. }
  assert (Hm : 0 <= Z.of_nat k mod ncols < ncols) by (apply Z.mod_pos_bound; lia).
  rewrite np_index_map_seq by (rewrite Z2Nat.id; lia). simpl.
  rewrite np_index_map_seq by (rewrite Z2Nat.id; lia).
  do 2 f_equal.
  apply Nat2Z.inj. rewrite Nat2Z.inj_add, Nat2Z.inj_mul, !Z2Nat.id by lia.
  rewrite (Z.div_mod (Z.of_nat k) ncols) at 3 by lia. lia.
Qed.

Lemma update_nth_app {A : Type} (f : A -> A) (pre post : list A) (x : A) :
  update_nth (List.length pre) f (pre ++ x :: post) = pre ++ f x :: post.
Proof. induction pre as [|y pre IH]; simpl; auto. now rewrite IH. Qed.

Lemma set_axes_twice (a b : list axes) (g : figure) :
  set_axes a (set_axes b g) = set_axes a g.
Proof. reflexivity. Qed.

Lemma on_axes_head (r : ax_ref) (f : axes -> axes) (u : bool) (fl : list wfilter)
    (er : list warning) (out : list string) (g : figure) (figs sh : list figure) :
  fig_num g = ref_fig r ->
  on_axes r f (mkWorld u fl er out (g :: figs) sh)
  = Returns tt (mkWorld u fl er out
                  (set_axes (update_nth (ref_pos r) f (fig_axes g)) g :: figs) sh).
Proof.
  intros H. unfold on_axes, modify, set_open_figures, set_figures. simpl.
  now rewrite H, Nat.eqb_refl.
Qed.

Lemma bind_returns {A B : Type} (m : M A) (k : A -> M B) (s s' : world) (a : A) :
  m s = Returns a s' -> bind m k s = k a s'.
Proof. intros H. unfold bind. now rewrite H. Qed.

Lemma bind_raises {A B : Type} (m : M A) (k : A -> M B) (s s' : world) (e : exn) :
  m s = Raises e s' -> bind m k s = Raises e s'.
Proof. intros H. unfold bind. now rewrite H. Qed.

Section SilentGrid.

Variable refusal : bool -> chart -> option exn.
Variable data : DataFrame.
Variable plot_type : string.
Variables (num_rows num_cols : Z) (num : nat).
Hypothesis unique : unique_columns data.
Hypothesis rows_ge_2 : 2 <= num_rows.
Hypothesis cols_ge_2 : 2 <= num_cols.

Let axs := squeeze num_rows num_cols (grid_refs num num_rows num_cols).

Lemma plot_column_silent (c : column) (k : nat) (u : bool) (fl : list wfilter)
    (er : list warning) (out : list string) (g : figure) (figs sh : list figure)
    (pre post : list axes) :
  In c (df_columns data) ->
  accepted refusal u plot_type c = true ->
  Z.of_nat k < num_rows * num_cols ->
  fig_num g = num ->
  List.length pre = k ->
  fig_axes g = pre ++ blank_axes :: post ->
  plot_column Sample.silent refusal data plot_type num_cols axs (Z.of_nat k) (col_name c)
    (mkWorld u fl er out (g :: figs) sh)
  = Returns tt (mkWorld u fl er out
                  (set_axes (pre ++ chart_cell plot_type c :: post) g :: figs) sh).
Proof.
  intros Hin Hacc Hk Hnum Hpre Hax. unfold plot_column.
  unfold floordiv, pymod.
  replace (num_cols =? 0) with false by (symmetry; apply Z.eqb_neq; lia).
  simpl lift. unfold bind at 1 2. unfold ret at 1 2.
  rewrite (getitem_unique _ _ unique Hin).
  unfold axs. rewrite (grid_getitem num num_rows num_cols k rows_ge_2 cols_ge_2 Hk).
  unfold accepted in Hacc.
  unfold chart_cell, charts_of, set_title, sns_boxplot, sns_histplot, draw, advise in *.
  destruct (String.eqb plot_type "boxplot"); [|destruct (String.eqb plot_type "histplot")];
    simpl in Hacc; simpl; unfold bind, ret; simpl;
    try (match type of Hacc with
         | context [refusal u ?ch] => destruct (refusal u ch); [discriminate|]
         end);
    unfold bind, ret, on_axes, modify, set_open_figures, set_figures; simpl;
    rewrite ?Hnum, ?Nat.eqb_refl; simpl; rewrite ?Hnum, ?Nat.eqb_refl; simpl;
    rewrite Hax, <- Hpre, !update_nth_app; reflexivity.
Qed.

Lemma plot_column_refused (c : column) (k : nat) (s : world) :
  In c (df_columns data) ->
  accepted refusal (use_inf_as_na s) plot_type c = false ->
  Z.of_nat k < num_rows * num_cols ->
  exists e, plot_column Sample.silent refusal data plot_type num_cols axs (Z.of_nat k)
              (col_name c) s = Raises e s.
Proof.
  intros Hin Hacc Hk. unfold plot_column.
  unfold floordiv, pymod.
  replace (num_cols =? 0) with false by (symmetry; apply Z.eqb_neq; lia).
  simpl lift. unfold bind at 1 2. unfold ret at 1 2.
  rewrite (getitem_unique _ _ unique Hin).
  unfold axs. rewrite (grid_getitem num num_rows num_cols k rows_ge_2 cols_ge_2 Hk).
  unfold accepted, charts_of in Hacc.
  unfold sns_boxplot, sns_histplot, draw, advise.
  destruct (String.eqb plot_type "boxplot"); [|destruct (String.eqb plot_type "histplot")];
    simpl in Hacc; try discriminate; simpl; unfold bind, ret; simpl;
    match type of Hacc with
    | context [refusal ?u ?ch] => destruct (refusal u ch) as [e|]; [|discriminate]
    end;
    exists e; reflexivity.
Qed.

Lemma plot_loop_silent (cols : list column) :
  forall (k : nat) (u : bool) (fl : list wfilter) (er : list warning) (out : list string)
         (g : figure) (figs sh : list figure) (pre post : list axes),
  incl cols (df_columns data) ->
  forallb (accepted refusal u plot_type) cols = true ->
  Z.of_nat (k + List.length cols) <= num_rows * num_cols ->
  fig_num g = num ->
  List.length pre = k ->
  fig_axes g = pre ++ repeat blank_axes (List.length cols) ++ post ->
  for_each (combine (map Z.of_nat (seq k (List.length cols))) (map col_name cols))
    (fun ic => plot_column Sample.silent refusal data plot_type num_cols axs (fst ic) (snd ic))
    (mkWorld u fl er out (g :: figs) sh)
  = Returns tt (mkWorld u fl er out
                  (set_axes (pre ++ map (chart_cell plot_type) cols ++ post) g :: figs) sh).
Proof.
  induction cols as [|c cs IH];
    intros k u fl er out g figs sh pre post Hincl Hacc Hk Hnum Hpre Hax.
  - simpl in *. unfold ret. rewrite <- Hax. now destruct g.
  - simpl in Hax. simpl. simpl in Hacc. apply andb_true_iff in Hacc. destruct Hacc as [Hc Hcs].
    erewrite bind_returns;
      [| apply (plot_column_silent c k u fl er out g figs sh pre
                  (repeat blank_axes (List.length cs) ++ post));
         auto; [apply Hincl; now left | simpl in Hk; lia] ].
    rewrite (IH (S k) u fl er out _ figs sh (pre ++ [chart_cell plot_type c]) post).
    + rewrite set_axes_twice, <- app_assoc. reflexivity.
    + intros x Hx. apply Hincl. now right.
    + exact Hcs.
    + simpl in Hk. lia.
    + exact Hnum.
    + rewrite length_app. simpl. lia.
    + simpl. now rewrite <- app_assoc.
Qed.

(** The loop stops with the exception of the first chart that seaborn
    refuses. *)
Lemma plot_loop_refused (cols : list column) :
  forall (k : nat) (u : bool) (fl : list wfilter) (er : list warning) (out : list string)
         (g : figure) (figs sh : list figure) (pre post : list axes),
  incl cols (df_columns data) ->
  forallb (accepted refusal u plot_type) cols = false ->
  Z.of_nat (k + List.length cols) <= num_rows * num_cols ->
  fig_num g = num ->
  List.length pre = k ->
  fig_axes g = pre ++ repeat blank_axes (List.length cols) ++ post ->
  exists e t,
    for_each (combine (map Z.of_nat (seq k (List.length cols))) (map col_name cols))
      (fun ic => plot_column Sample.silent refusal data plot_type num_cols axs (fst ic) (snd ic))
      (mkWorld u fl er out (g :: figs) sh)
    = Raises e t.
Proof.
  induction cols as [|c cs IH];
    intros k u fl er out g figs sh pre post Hincl Hacc Hk Hnum Hpre Hax.
  - discriminate.
  - simpl in Hax. simpl. simpl in Hacc.
    destruct (accepted refusal u plot_type c) eqn:Hc.
    + simpl in Hacc.
      erewrite bind_returns;
        [| apply (plot_column_silent c k u fl er out g figs sh pre
                    (repeat blank_axes (List.length cs) ++ post));
           auto; [apply Hincl; now left | simpl in Hk; lia] ].
      apply (IH (S k) u fl er out _ figs sh (pre ++ [chart_cell plot_type c]) post).
      * intros x Hx. apply Hincl. now right.
      * exact Hacc.
      * simpl in Hk. lia.
      * exact Hnum.
      * rewrite length_app. simpl. lia.
      * simpl. now rewrite <- app_assoc.
    + destruct (plot_column_refused c k (mkWorld u fl er out (g :: figs) sh)) as [e E].
      * apply Hincl. now left.
      * exact Hc.
      * simpl in Hk. lia.
      * exists e. eexists. apply bind_raises. exact E.
Qed.

Lemma hide_cell_silent (n : Z) (u : bool) (fl : list wfilter) (er : list warning)
    (out : list string) (g : figure) (figs sh : list figure) (pre post : list axes) :
  Z.of_nat (List.length pre) = n ->
  n < num_rows * num_cols ->
  fig_num g = num ->
  fig_axes g = pre ++ blank_axes :: post ->
  hide_cell num_cols axs n (mkWorld u fl er out (g :: figs) sh)
  = Returns tt (mkWorld u fl er out (set_axes (pre ++ hidden_cell :: post) g :: figs) sh).
Proof.
  intros Hn Hlt Hnum Hax. subst n. unfold hide_cell, floordiv, pymod.
  replace (num_cols =? 0) with false by (symmetry; apply Z.eqb_neq; lia).
  simpl lift. unfold bind at 1 2. unfold ret at 1 2.
  unfold axs. rewrite (grid_getitem num num_rows num_cols _ rows_ge_2 cols_ge_2 Hlt).
  simpl. unfold bind, ret, axis_off, on_axes, modify, set_open_figures, set_figures. simpl.
  rewrite Hnum, Nat.eqb_refl. rewrite Hax, update_nth_app. reflexivity.
Qed.

Lemma hide_loop_silent (m : nat) :
  forall (d : nat) (n : Z) (u : bool) (fl : list wfilter) (er : list warning)
         (out : list string) (g : figure) (figs sh : list figure) (pre post : list axes),
  Z.of_nat (List.length pre) = n + Z.of_nat d ->
  Z.of_nat (List.length pre + m) <= num_rows * num_cols ->
  fig_num g = num ->
  fig_axes g = pre ++ repeat blank_axes m ++ post ->
  for_each (map (fun j => n + Z.of_nat j) (seq d m)) (hide_cell num_cols axs)
    (mkWorld u fl er out (g :: figs) sh)
  = Returns tt (mkWorld u fl er out
                  (set_axes (pre ++ repeat hidden_cell m ++ post) g :: figs) sh).
Proof.
  induction m as [|m IH]; intros d n u fl er out g figs sh pre post Hn Hk Hnum Hax.
  - simpl in *. unfold ret. rewrite <- Hax. now destruct g.
  - simpl in Hax. simpl.
    erewrite bind_returns;
      [| apply (hide_cell_silent (n + Z.of_nat d) u fl er out g figs sh pre
                  (repeat blank_axes m ++ post)); auto; lia ].
    rewrite (IH (S d) n u fl er out _ figs sh (pre ++ [hidden_cell]) post).
    + rewrite set_axes_twice, <- app_assoc. reflexivity.
    + rewrite length_app. simpl. lia.
    + rewrite length_app. simpl. lia.
    + exact Hnum.
    + simpl. now rewrite <- app_assoc.
Qed.

End SilentGrid.

Lemma num_rows_bounds (n w : Z) :
  0 < w -> 0 <= n ->
  let num_rows := (n + w - 1) / w in
  (num_rows - 1) * w < n <= num_rows * w.
Proof.
  intros Hw Hn. cbv zeta.
  pose proof (Z.div_mod (n + w - 1) w ltac:(lia)) as E.
  pose proof (Z.mod_pos_bound (n + w - 1) w Hw) as B.
  nia.
Qed.

Lemma plt_subplots_silent (nrows ncols : Z) (h : Z) (u : bool) (fl : list wfilter)
    (er : list warning) (out : list string) (figs sh : list figure) :
  0 < nrows -> 0 < ncols -> 0 <= h ->
  plt_subplots Sample.silent nrows ncols (Some (15, h)) (mkWorld u fl er out figs sh)
  = Returns (squeeze nrows ncols (grid_refs (next_num figs) nrows ncols))
      (mkWorld u fl er out
         (mkFigure (next_num figs) (Some (15, h)) (nrows, ncols)
            (repeat blank_axes (Z.to_nat nrows * Z.to_nat ncols)) None false :: figs) sh).
Proof.
  intros Hr Hc Hh. unfold plt_subplots, advise, new_figure. simpl.
  unfold bind, ret. simpl.
  replace (h <? 0) with false by (symmetry; apply Z.ltb_ge; lia). simpl.
  replace (nrows <=? 0) with false by (symmetry; apply Z.leb_gt; lia).
  replace (ncols <=? 0) with false by (symmetry; apply Z.leb_gt; lia). simpl.
  now rewrite Nat.eqb_refl.
Qed.

Lemma create_subplots_silent (refusal : bool -> chart -> option exn) (data : DataFrame)
    (plot_type : string) (num_cols : Z) (s : world) :
  unique_columns data ->
  2 <= num_cols < Z.of_nat (List.length (numeric_of data)) ->
  draws refusal (use_inf_as_na s) plot_type data = true ->
  create_subplots Sample.silent refusal data plot_type num_cols s
  = Returns tt
      (set_figures []
         (shown s ++ rev (chart_grid (next_num (open_figures s)) plot_type
                            (numeric_of data) num_cols :: open_figures s)) s).
Proof.
  intros Hu [Hw Hn] Hdraws. destruct s as [u fl er out figs sh].
  unfold draws in Hdraws. simpl use_inf_as_na in Hdraws.
  unfold create_subplots. rewrite (numeric_column_names _ Hu).
  fold (numeric_of data). set (numeric := numeric_of data) in *.
  erewrite bind_returns by reflexivity. cbv zeta. rewrite length_map.
  set (n := Z.of_nat (List.length numeric)) in *.
  unfold floordiv. replace (num_cols =? 0) with false by (symmetry; apply Z.eqb_neq; lia).
  erewrite bind_returns by reflexivity.
  set (num_rows := (n + num_cols - 1) / num_cols).
  destruct (num_rows_bounds n num_cols) as [Hlo Hhi]; [lia | lia |]. fold num_rows in Hlo, Hhi.
  assert (Hrows : 2 <= num_rows) by nia.
  erewrite bind_returns by (apply plt_subplots_silent; lia).
  set (num := next_num figs).
  assert (Hcells : (Z.to_nat num_rows * Z.to_nat num_cols
                    = List.length numeric + Z.to_nat (num_rows * num_cols - n))%nat).
  { apply Nat2Z.inj. rewrite Nat2Z.inj_add, Nat2Z.inj_mul, !Z2Nat.id by lia.
    unfold n. lia. }
  unfold enumerate. rewrite length_map.
  erewrite bind_returns.
  2:{ apply (plot_loop_silent refusal data plot_type num_rows num_cols num Hu Hrows Hw
               numeric 0%nat u fl er out _ figs sh []
               (repeat blank_axes (Z.to_nat (num_rows * num_cols - n)))).
      - unfold numeric, numeric_of. intros c Hc. now apply filter_In in Hc.
      - exact Hdraws.
      - fold n. simpl. lia.
      - reflexivity.
      - reflexivity.
      - simpl. rewrite Hcells. apply repeat_app. }
  erewrite bind_returns by reflexivity.
  unfold py_range.
  erewrite bind_returns.
  2:{ apply (hide_loop_silent num_rows num_cols num Hrows Hw
               (Z.to_nat (num_rows * num_cols - n)) 0%nat n u fl er out _ figs sh
               (map (chart_cell plot_type) numeric) []).
      - rewrite length_map. fold n. simpl. lia.
      - rewrite length_map. fold n. rewrite Nat2Z.inj_add, Z2Nat.id by lia. fold n. lia.
      - reflexivity.
      - simpl. now rewrite app_nil_r. }
  erewrite bind_returns by reflexivity.
  unfold plt_show, advise, bind, modify, chart_grid. simpl.
  fold numeric. fold n. fold num_rows. rewrite app_nil_r. reflexivity.
Qed.

(** A grid with a chart that seaborn refuses is not rendered. *)
Lemma create_subplots_refused_silent (refusal : bool -> chart -> option exn)
    (data : DataFrame) (plot_type : string) (num_cols : Z) (s : world) :
  unique_columns data ->
  2 <= num_cols < Z.of_nat (List.length (numeric_of data)) ->
  draws refusal (use_inf_as_na s) plot_type data = false ->
  exists e t, create_subplots Sample.silent refusal data plot_type num_cols s = Raises e t.
Proof.
  intros Hu [Hw Hn] Hdraws. destruct s as [u fl er out figs sh].
  unfold draws in Hdraws. simpl use_inf_as_na in Hdraws.
  unfold create_subplots. rewrite (numeric_column_names _ Hu).
  fold (numeric_of data). set (numeric := numeric_of data) in *.
  erewrite bind_returns by reflexivity. cbv zeta. rewrite length_map.
  set (n := Z.of_nat (List.length numeric)) in *.
  unfold floordiv. replace (num_cols =? 0) with false by (symmetry; apply Z.eqb_neq; lia).
  erewrite bind_returns by reflexivity.
  set (num_rows := (n + num_cols - 1) / num_cols).
  destruct (num_rows_bounds n num_cols) as [Hlo Hhi]; [lia | lia |]. fold num_rows in Hlo, Hhi.
  assert (Hrows : 2 <= num_rows) by nia.
  erewrite bind_returns by (apply plt_subplots_silent; lia).
  set (num := next_num figs).
  assert (Hcells : (Z.to_nat num_rows * Z.to_nat num_cols
                    = List.length numeric + Z.to_nat (num_rows * num_cols - n))%nat).
  { apply Nat2Z.inj. rewrite Nat2Z.inj_add, Nat2Z.inj_mul, !Z2Nat.id by lia.
    unfold n. lia. }
  unfold enumerate. rewrite length_map.
  destruct (plot_loop_refused refusal data plot_type num_rows num_cols num Hu Hrows Hw
              numeric 0%nat u fl er out
              (mkFigure num (Some (15, num_rows * 5)) (num_rows, num_cols)
                 (repeat blank_axes (Z.to_nat num_rows * Z.to_nat num_cols)) None false)
              figs sh [] (repeat blank_axes (Z.to_nat (num_rows * num_cols - n))))
    as [e [t E]].
  - unfold numeric, numeric_of. intros c Hc. now apply filter_In in Hc.
  - exact Hdraws.
  - fold n. simpl. lia.
  - reflexivity.
  - reflexivity.
  - simpl. rewrite Hcells. apply repeat_app.
  - exists e, t. apply bind_raises. exact E.
Qed.

(** A run of a program is known from the run of a program it is [sim]ilar
    to, up to the warnings it printed. *)
Lemma transfer_returns {A : Type} (m1 m2 : M A) (s t : world) (a : A) :
  sim m1 m2 -> Warnings.tolerant s = true -> m2 s = Returns a t ->
  exists s', m1 s = Returns a s' /\ agree s' t /\ filters s' = filters s.
Proof.
  intros Hsim Hs E. destruct (Hsim s s (agree_refl s) Hs Hs) as [Hr [Ha [F1 _]]].
  rewrite E in Hr, Ha. destruct (m1 s) as [b s' | e s']; simpl in *; [|contradiction].
  subst b. exists s'. auto.
Qed.

Lemma transfer_raises {A : Type} (m1 m2 : M A) (s t : world) (e : exn) :
  sim m1 m2 -> Warnings.tolerant s = true -> m2 s = Raises e t ->
  exists s', m1 s = Raises e s' /\ agree s' t /\ filters s' = filters s.
Proof.
  intros Hsim Hs E. destruct (Hsim s s (agree_refl s) Hs Hs) as [Hr [Ha [F1 _]]].
  rewrite E in Hr, Ha. destruct (m1 s) as [b s' | e' s']; simpl in *; [contradiction|].
  subst e'. exists s'. auto.
Qed.

(** The layout law on the grids that are rendered: with at least two grid
    columns, more numeric columns than that and no chart that seaborn
    refuses, the figure shown is [chart_grid], whatever warnings the
    libraries issue. *)
Lemma create_subplots_grid (advisories : libcall -> list warning)
    (refusal : bool -> chart -> option exn) (data : DataFrame)
    (plot_type : string) (num_cols : Z) (s : world) :
  unique_columns data ->
  Warnings.tolerant s = true ->
  2 <= num_cols < Z.of_nat (List.length (numeric_of data)) ->
  draws refusal (use_inf_as_na s) plot_type data = true ->
  exists s',
    create_subplots advisories refusal data plot_type num_cols s = Returns tt s' /\
    open_figures s' = [] /\
    shown s' = shown s ++ rev (chart_grid (next_num (open_figures s)) plot_type
                                 (numeric_of data) num_cols :: open_figures s) /\
    use_inf_as_na s' = use_inf_as_na s /\ stdout s' = stdout s /\ filters s' = filters s.
Proof.
  intros Hu Hs Hn Hdraws.
  destruct (transfer_returns _ _ s _ tt
              (sim_create_subplots advisories Sample.silent refusal data plot_type num_cols)
              Hs (create_subplots_silent refusal data plot_type num_cols s Hu Hn Hdraws))
    as [s' [E [[A1 [A2 [A3 A4]]] F]]].
  exists s'. simpl in *. repeat split; auto.
Qed.

Lemma chart_grid_rows (num : nat) (plot_type : string) (numeric : list column) (w : Z) :
  0 < w ->
  let n := Z.of_nat (List.length numeric) in
  let num_rows := fst (fig_grid (chart_grid num plot_type numeric w)) in
  (num_rows - 1) * w < n <= num_rows * w /\
  List.length (fig_axes (chart_grid num plot_type numeric w)) = Z.to_nat (num_rows * w).
Proof.
  intros Hw. cbv zeta. unfold chart_grid. simpl.
  pose proof (num_rows_bounds (Z.of_nat (List.length numeric)) w Hw ltac:(lia)) as B.
  cbv zeta in B. split; [exact B|].
  rewrite length_app, length_map, repeat_length. lia.
Qed.

(** ** Grids of a single row *)

Lemma axes_getitem_single_row (num : nat) (w row col : Z) :
  1 <= w ->
  axes_getitem (squeeze 1 w (grid_refs num 1 w)) row col
  = Err (if w =? 1 then TypeError else IndexError).
Proof.
  intros Hw. unfold squeeze. destruct (w =? 1) eqn:E.
  - apply Z.eqb_eq in E. subst w. reflexivity.
  - reflexivity.
Qed.

Lemma plot_column_single_row (refusal : bool -> chart -> option exn) (data : DataFrame)
    (plot_type : string) (w : Z) (num : nat) (c : column) (i : Z) (s : world) :
  unique_columns data -> In c (df_columns data) -> 1 <= w ->
  plot_column Sample.silent refusal data plot_type w (squeeze 1 w (grid_refs num 1 w)) i
    (col_name c) s
  = Raises (if w =? 1 then TypeError else IndexError) s.
Proof.
  intros Hu Hin Hw. unfold plot_column, floordiv, pymod.
  replace (w =? 0) with false by (symmetry; apply Z.eqb_neq; lia).
  simpl lift. unfold bind at 1 2. unfold ret at 1 2.
  rewrite (getitem_unique _ _ Hu Hin), axes_getitem_single_row by exact Hw.
  destruct (String.eqb plot_type "boxplot"); [reflexivity|].
  destruct (String.eqb plot_type "histplot"); reflexivity.
Qed.

Lemma single_row (n w : Z) : 1 <= n <= w -> (n + w - 1) / w = 1.
Proof.
  intros H. symmetry. apply (Z.div_unique_pos _ _ 1 (n - 1)); lia.
Qed.

Lemma create_subplots_single_row_silent (refusal : bool -> chart -> option exn)
    (data : DataFrame) (plot_type : string) (num_cols : Z) (s : world) :
  unique_columns data ->
  1 <= Z.of_nat (List.length (numeric_of data)) <= num_cols ->
  create_subplots Sample.silent refusal data plot_type num_cols s
  = Raises (if num_cols =? 1 then TypeError else IndexError)
      (set_open_figures
         (mkFigure (next_num (open_figures s)) (Some (15, 5)) (1, num_cols)
            (repeat blank_axes (Z.to_nat num_cols)) None false :: open_figures s) s).
Proof.
  intros Hu Hn. destruct s as [u fl er out figs sh].
  unfold create_subplots. rewrite (numeric_column_names _ Hu).
  fold (numeric_of data). set (numeric := numeric_of data) in *.
  erewrite bind_returns by reflexivity. cbv zeta. rewrite length_map.
  unfold floordiv. replace (num_cols =? 0) with false by (symmetry; apply Z.eqb_neq; lia).
  erewrite bind_returns by reflexivity.
  rewrite (single_row _ _ Hn).
  erewrite bind_returns; [| apply plt_subplots_silent; try lia].
  assert (Hin : incl numeric (df_columns data)).
  { unfold numeric, numeric_of. intros c Hc. now apply filter_In in Hc. }
  destruct numeric as [|c cs]; [simpl in Hn; lia|].
  apply bind_raises. simpl for_each. apply bind_raises. simpl fst. simpl snd.
  rewrite plot_column_single_row; auto; [|apply Hin; now left|lia].
  unfold set_open_figures, set_figures. simpl. now rewrite Nat.add_0_r.
Qed.

(** C9. When the table has between one and [num_cols] numeric columns the
    grid has a single row, and [create_subplots] raises at the first
    [axes[row, col]]: an [IndexError] on the one-dimensional array of axes
    ([TypeError] on the single [Axes] of a 1x1 grid).  The figure is left
    open with blank subplots and nothing is shown. *)
Theorem create_subplots_single_row_raises (advisories : libcall -> list warning)
    (refusal : bool -> chart -> option exn)
    (data : DataFrame) (plot_type : string) (num_cols : Z) (s : world) :
  unique_columns data ->
  Warnings.tolerant s = true ->
  1 <= Z.of_nat (List.length (numeric_of data)) <= num_cols ->
  exists s',
    create_subplots advisories refusal data plot_type num_cols s
    = Raises (if num_cols =? 1 then TypeError else IndexError) s' /\
    (Z.of_nat (List.length (numeric_of data)) + num_cols - 1) / num_cols = 1 /\
    shown s' = shown s /\
    open_figures s'
    = mkFigure (next_num (open_figures s)) (Some (15, 5)) (1, num_cols)
        (repeat blank_axes (Z.to_nat num_cols)) None false :: open_figures s.
Proof.
  intros Hu Hs Hn.
  destruct (transfer_raises _ _ s _ _
              (sim_create_subplots advisories Sample.silent refusal data plot_type num_cols) Hs
              (create_subplots_single_row_silent refusal data plot_type num_cols s Hu Hn))
    as [s' [E [[A1 [A2 [A3 A4]]] F]]].
  exists s'. simpl in *. repeat split; auto.
  now apply single_row.
Qed.

(** C1. A table with one numeric column and a grid two columns wide: the
    layout law wants one row with one chart and one hidden cell, but
    [create_subplots] raises [IndexError] at its first [axes[row, col]] and
    leaves the figure blank and unshown. *)
Theorem create_subplots_single_row_not_rendered :
  create_subplots Sample.silent Sample.seaborn Sample.one_numeric "boxplot" 2 Sample.fresh
  = Raises IndexError
      (mkWorld false [] [] []
         [mkFigure 1 (Some (15, 5)) (1, 2) [blank_axes; blank_axes] None false] []) /\
  fig_grid (chart_grid 1 "boxplot" (numeric_of Sample.one_numeric) 2) = (1, 2) /\
  fig_axes (chart_grid 1 "boxplot" (numeric_of Sample.one_numeric) 2)
  = [chart_cell "boxplot" (mkColumn "a" int64 [SInt 1; SInt 2]); hidden_cell].
Proof. repeat split. Qed.

(** ** Grid widths that are not positive *)

Lemma create_subplots_negative_silent (refusal : bool -> chart -> option exn)
    (data : DataFrame) (plot_type : string) (num_cols : Z) (s : world) :
  unique_columns data -> num_cols < 0 ->
  exists s', create_subplots Sample.silent refusal data plot_type num_cols s = Raises ValueError s'.
Proof.
  intros Hu Hw. destruct s as [u fl er out figs sh].
  unfold create_subplots. rewrite (numeric_column_names _ Hu).
  erewrite bind_returns by reflexivity. cbv zeta.
  unfold floordiv. replace (num_cols =? 0) with false by (symmetry; apply Z.eqb_neq; lia).
  erewrite bind_returns by reflexivity.
  set (num_rows := _ / num_cols).
  unfold plt_subplots, advise, new_figure. simpl.
  unfold bind at 1 2 3. simpl.
  destruct (num_rows * 5 <? 0); simpl; [eexists; reflexivity|].
  unfold bind at 1. simpl.
  replace (num_cols <=? 0) with true by (symmetry; apply Z.leb_le; lia).
  rewrite orb_true_r. eexists; reflexivity.
Qed.

(** C2. With [num_cols = 0] the row count cannot be computed:
    [create_subplots] raises [ZeroDivisionError] and the world is as it
    was, so no figure has been made.  With a negative [num_cols] the
    plotting library refuses the grid with a [ValueError]. *)
Theorem create_subplots_rejects_non_positive_width (advisories : libcall -> list warning)
    (refusal : bool -> chart -> option exn)
    (data : DataFrame) (plot_type : string) (s : world) :
  unique_columns data ->
  create_subplots advisories refusal data plot_type 0 s = Raises ZeroDivisionError s /\
  (forall num_cols, num_cols < 0 -> Warnings.tolerant s = true ->
     exists s',
       create_subplots advisories refusal data plot_type num_cols s = Raises ValueError s').
Proof.
  intros Hu. split.
  - unfold create_subplots. rewrite (numeric_column_names _ Hu).
    erewrite bind_returns by reflexivity. reflexivity.
  - intros num_cols Hw Hs.
    destruct (create_subplots_negative_silent refusal data plot_type num_cols s Hu Hw)
      as [t E].
    destruct (transfer_raises _ _ s _ _
                (sim_create_subplots advisories Sample.silent refusal data plot_type num_cols) Hs E)
      as [s' [E' _]].
    now exists s'.
Qed.

(** ** Subplot titles *)

Lemma nth_error_map_some {A B : Type} (f : A -> B) (l : list A) (i : nat) (a : A) :
  nth_error l i = Some a -> nth_error (map f l) i = Some (f a).
Proof.
  revert i. induction l as [|x l IH]; intros [|i] H; simpl in *; try discriminate.
  - now inversion H.
  - now apply IH.
Qed.

(** C7. In a grid that is rendered (at least two grid columns, more
    numeric columns than that, and no chart that seaborn refuses), over
    columns whose names are ASCII text, the subplot of the [i]-th numeric
    column is the [i]-th cell in row-major order and its title is the
    column name as [str.capitalize] gives it: first character upper-cased,
    all others lower-cased. *)
Theorem subplot_titles_capitalized (advisories : libcall -> list warning)
    (refusal : bool -> chart -> option exn)
    (data : DataFrame) (plot_type : string) (num_cols : Z) (s : world) :
  unique_columns data ->
  Warnings.tolerant s = true ->
  2 <= num_cols < Z.of_nat (List.length (numeric_of data)) ->
  draws refusal (use_inf_as_na s) plot_type data = true ->
  ascii_names (numeric_of data) = true ->
  exists s' fig,
    create_subplots advisories refusal data plot_type num_cols s = Returns tt s' /\
    shown s' = shown s ++ rev (fig :: open_figures s) /\
    forall i c, nth_error (numeric_of data) i = Some c ->
      nth_error (map ax_title (fig_axes fig)) i = Some (PyStr.capitalize (col_name c)).
Proof.
  intros Hu Hs Hn Hdraws _.
  destruct (create_subplots_grid advisories refusal data plot_type num_cols s Hu Hs Hn Hdraws)
    as [s' [E [_ [Hshown _]]]].
  exists s'. eexists. split; [exact E|]. split; [exact Hshown|].
  intros i c Hi. unfold chart_grid. simpl.
  rewrite map_app, nth_error_app1.
  - rewrite map_map. now apply (nth_error_map_some (fun x => ax_title (chart_cell plot_type x))).
  - rewrite !length_map. apply nth_error_Some. congruence.
Qed.

(** seaborn is asked for nothing when the plot type is unknown. *)
Lemma draws_unknown_plot_type (refusal : bool -> chart -> option exn) (inf_as_na : bool)
    (plot_type : string) (data : DataFrame) :
  String.eqb plot_type "boxplot" = false ->
  String.eqb plot_type "histplot" = false ->
  draws refusal inf_as_na plot_type data = true.
Proof.
  intros Hbox Hhist. unfold draws. apply forallb_forall. intros c _.
  unfold accepted, charts_of. now rewrite Hbox, Hhist.
Qed.

(** ** The pandas option *)

Lemma keeps_ret {A : Type} (a : A) : keeps_option (ret a).
Proof. intros s. reflexivity. Qed.

Lemma keeps_raise {A : Type} (e : exn) : keeps_option (@raise A e).
Proof. intros s. reflexivity. Qed.

Lemma keeps_lift {A : Type} (r : result A) : keeps_option (lift r).
Proof. destruct r; [apply keeps_ret | apply keeps_raise]. Qed.

Lemma keeps_bind {A B : Type} (m : M A) (k : A -> M B) :
  keeps_option m -> (forall a, keeps_option (k a)) -> keeps_option (bind m k).
Proof.
  intros Hm Hk s. unfold bind. specialize (Hm s).
  destruct (m s) as [a s' | e s']; simpl in *; [|exact Hm].
  now rewrite Hk.
Qed.

Lemma keeps_for_each {A : Type} (xs : list A) (f : A -> M unit) :
  (forall x, keeps_option (f x)) -> keeps_option (for_each xs f).
Proof.
  intros H. induction xs as [|x xs IH]; simpl.
  - apply keeps_ret.
  - apply keeps_bind; auto.
Qed.

Lemma keeps_modify (f : world -> world) :
  (forall s, use_inf_as_na (f s) = use_inf_as_na s) -> keeps_option (modify f).
Proof. intros H s. simpl. apply H. Qed.

Lemma keeps_warn (w : warning) : keeps_option (Warnings.warn w).
Proof.
  intros s. unfold Warnings.warn.
  destruct (Warnings.action_for (filters s) w); reflexivity.
Qed.

Lemma keeps_advise (advisories : libcall -> list warning) (c : libcall) :
  keeps_option (advise advisories c).
Proof. unfold advise, Warnings.emit. apply keeps_for_each, keeps_warn. Qed.

Lemma keeps_new_figure (figsize : option (Z * Z)) : keeps_option (new_figure figsize).
Proof. intros s. unfold new_figure. destruct (bad_size figsize); reflexivity. Qed.

Lemma keeps_on_axes (r : ax_ref) (f : axes -> axes) : keeps_option (on_axes r f).
Proof. apply keeps_modify. reflexivity. Qed.

Lemma keeps_with_gcf (f : figure -> figure) : keeps_option (with_gcf f).
Proof. apply keeps_modify. intros s. destruct (open_figures s); reflexivity. Qed.

Lemma keeps_print (text : string) : keeps_option (print text).
Proof. apply keeps_modify. reflexivity. Qed.

Create HintDb keeps.

#[local] Hint Resolve keeps_ret keeps_raise keeps_lift keeps_for_each keeps_advise
  keeps_new_figure keeps_on_axes keeps_with_gcf keeps_print : keeps.

Ltac keeps_steps :=
  repeat first
    [ solve [auto with keeps]
    | apply keeps_bind; [|intro]
    | apply keeps_modify; reflexivity
    | match goal with |- keeps_option (if ?b then _ else _) => destruct b end ].

Lemma keeps_draw (refusal : bool -> chart -> option exn) (c : chart) (ax : ax_ref) :
  keeps_option (draw refusal c ax).
Proof.
  intros s. unfold draw. destruct (refusal (use_inf_as_na s) c); [reflexivity|].
  apply keeps_on_axes.
Qed.

#[local] Hint Resolve keeps_draw : keeps.

Lemma keeps_create_subplots (advisories : libcall -> list warning)
    (refusal : bool -> chart -> option exn) (data : DataFrame)
    (plot_type : string) (num_cols : Z) :
  keeps_option (create_subplots advisories refusal data plot_type num_cols).
Proof.
  assert (Hplot : forall axs i column,
            keeps_option (plot_column advisories refusal data plot_type num_cols axs i column)).
  { intros. unfold plot_column, sns_boxplot, sns_histplot, set_title. keeps_steps. }
  assert (Hhide : forall axs i, keeps_option (hide_cell num_cols axs i)).
  { intros. unfold hide_cell, axis_off. keeps_steps. }
  unfold create_subplots, plt_subplots, plt_suptitle, plt_tight_layout, plt_show.
  keeps_steps.
Qed.

Lemma keeps_create_heatmap (advisories : libcall -> list warning) (data : DataFrame) :
  keeps_option (create_heatmap advisories data).
Proof.
  unfold create_heatmap, pd_corr, plt_figure, sns_heatmap, plt_title, plt_tight_layout,
    plt_show.
  keeps_steps.
Qed.

Lemma keeps_data_input (advisories : libcall -> list warning)
    (read_csv : string -> result DataFrame) (csv : string) :
  keeps_option (data_input advisories read_csv csv).
Proof. unfold data_input. keeps_steps. Qed.

Lemma emit_ignored (ws : list warning) (s : world) (fs : list wfilter) :
  filters s = mkFilter act_ignore None :: fs -> Warnings.emit ws s = Returns tt s.
Proof.
  intros H. induction ws as [|w ws IH]; [reflexivity|].
  unfold Warnings.emit in *. simpl. unfold bind at 1.
  unfold Warnings.warn at 1. rewrite H. simpl. exact IH.
Qed.

Lemma final_catch_warnings {A : Type} (m : M A) (s : world) :
  final (Warnings.catch_warnings m s) = set_filters (filters s) (final (m s)).
Proof. unfold Warnings.catch_warnings. now destruct (m s). Qed.

(** C10. However [initial_analysis] ends, by returning or by raising, and
    whatever the option was before, [mode.use_inf_as_na] is [True]
    afterwards: later null counts in the same process take infinite
    values for missing ones. *)
Theorem initial_analysis_leaves_use_inf_as_na_set (advisories : libcall -> list warning)
    (read_csv : string -> result DataFrame) (refusal : bool -> chart -> option exn)
    (csv : string) (num_cols : Z) (s : world) :
  let after := final (initial_analysis advisories read_csv refusal csv num_cols s) in
  use_inf_as_na after = true /\
  forall negative, isnull (use_inf_as_na after) (SInf negative) = true.
Proof.
  cbv zeta.
  assert (H : use_inf_as_na
                (final (initial_analysis advisories read_csv refusal csv num_cols s))
              = true).
  { unfold initial_analysis. rewrite final_catch_warnings. simpl.
    unfold bind at 1. simpl.
    unfold analysis_body, pd_set_option_use_inf_as_na.
    unfold bind at 1. unfold bind at 1. unfold advise.
    erewrite emit_ignored by reflexivity.
    simpl.
    match goal with |- use_inf_as_na (final (?m ?s1)) = true =>
      assert (K : keeps_option m)
    end.
    { pose proof keeps_create_subplots. pose proof keeps_create_heatmap.
      pose proof keeps_data_input. keeps_steps. }
    now rewrite K. }
  split; [exact H|]. intros negative. now rewrite H.
Qed.

(** ** The warning-suppression wrapper *)

Lemma tolerant_ignore_first (s : world) :
  Warnings.tolerant (set_filters (mkFilter act_ignore None :: filters s) s) = true.
Proof. reflexivity. Qed.

(** C8. From a world that does not turn warnings into exceptions, the
    driver and the same sequence run without the wrapper end alike: both
    return or both raise the same exception, with the same figures shown
    and open, the same printed text and the same pandas option, and each
    with the warnings filters it started with. *)
Theorem warning_suppression_keeps_results (advisories : libcall -> list warning)
    (read_csv : string -> result DataFrame) (refusal : bool -> chart -> option exn)
    (csv : string) (num_cols : Z) (s : world) :
  Warnings.tolerant s = true ->
  related s s
    (initial_analysis advisories read_csv refusal csv num_cols s)
    (initial_analysis_unwrapped advisories read_csv refusal csv num_cols s).
Proof.
  intros Hs. unfold initial_analysis, initial_analysis_unwrapped, Warnings.catch_warnings.
  unfold bind at 1. simpl.
  set (s1 := set_filters (mkFilter act_ignore None :: filters s) s).
  assert (Ha : agree s1 s) by (unfold agree; auto).
  destruct (sim_analysis_body advisories advisories refusal read_csv csv num_cols
              s1 s Ha (tolerant_ignore_first s) Hs) as [Hr [Hf [_ F2]]].
  destruct (analysis_body advisories read_csv refusal csv num_cols s1) as [a t1 | e t1],
           (analysis_body advisories read_csv refusal csv num_cols s) as [b t2 | e' t2];
    simpl in *; try contradiction;
    (split; [exact Hr|]); (split; [exact Hf | split; [reflexivity | exact F2]]).
Qed.

(** ** Statistics report *)

Lemma dict_set_fresh {V : Type} (d : list (string * V)) (k : string) (v : V) :
  ~ In k (map fst d) -> dict_set d k v = d ++ [(k, v)].
Proof.
  induction d as [|[k' v'] d IH]; simpl; intros H; auto.
  destruct (String.eqb k' k) eqn:E.
  - apply String.eqb_eq in E. tauto.
  - rewrite IH by tauto. reflexivity.
Qed.

Lemma fold_dict_set_fresh {V : Type} (v : V) (names : list string) :
  forall d : list (string * V),
  NoDup names -> (forall k, In k names -> ~ In k (map fst d)) ->
  fold_left (fun acc k => dict_set acc k v) names d = d ++ map (fun k => (k, v)) names.
Proof.
  induction names as [|k names IH]; intros d Hnd Hfresh; simpl.
  - now rewrite app_nil_r.
  - inversion Hnd as [|? ? Hk Hnd']; subst.
    rewrite dict_set_fresh by (apply Hfresh; now left).
    rewrite IH; auto.
    + now rewrite <- app_assoc.
    + intros k' Hk' Hin. rewrite map_app, in_app_iff in Hin. simpl in Hin.
      destruct Hin as [Hin | [-> | []]]; [|contradiction].
      apply (Hfresh k'); auto. now right.
Qed.

Lemma data_count_unique (data : DataFrame) :
  unique_columns data ->
  data_count data = map (fun c => (col_name c, [SInt (shape0 data)])) (df_columns data).
Proof.
  intros Hu. unfold data_count.
  rewrite fold_dict_set_fresh; auto using nodupb_sound.
  simpl. unfold columns. now rewrite map_map.
Qed.

Lemma map_nth_seq {A B : Type} (g : A -> B) (l : list A) (d : A) :
  map (fun j => g (nth j l d)) (seq 0 (List.length l)) = map g l.
Proof.
  induction l as [|x l IH]; simpl; auto.
  f_equal. rewrite <- seq_shift, map_map. exact IH.
Qed.

Lemma combine_map {A B C : Type} (f : A -> B) (g : A -> C) (l : list A) :
  combine (map f l) (map g l) = map (fun x => (f x, g x)) l.
Proof. induction l; simpl; congruence. Qed.

Lemma label_eqb_refl (l : label) : label_eqb l l = true.
Proof. destruct l; simpl; [apply Z.eqb_refl | apply String.eqb_refl]. Qed.

Lemma labels_eqb_refl (ls : list label) : labels_eqb ls ls = true.
Proof. induction ls; simpl; auto. now rewrite label_eqb_refl. Qed.

Lemma counts_frame (data : DataFrame) :
  unique_columns data -> df_columns data <> [] ->
  rbind (Frames.of_dict (data_count data))
    (fun counts => Ok (Frames.rename_columns [(LInt 0, LStr "entry_count")]
                         (Frames.transpose counts)))
  = Ok (mkFrame (map name_label (df_columns data)) [LStr "entry_count"]
          (map (fun _ => [SInt (shape0 data)]) (df_columns data))).
Proof.
  intros Hu Hne. rewrite (data_count_unique _ Hu).
  set (v := SInt (shape0 data)). set (cols := df_columns data) in *.
  assert (Hall : forallb (fun kv : string * list scalar => Nat.eqb (List.length (snd kv)) 1)
                   (map (fun c => (col_name c, [v])) cols) = true).
  { apply forallb_forall. intros x Hx. apply in_map_iff in Hx.
    destruct Hx as [c [<- _]]. reflexivity. }
  unfold Frames.of_dict.
  destruct (map (fun c => (col_name c, [v])) cols) as [|[k first] rest] eqn:E.
  - destruct cols; [congruence | discriminate].
  - assert (Hfirst : List.length first = 1%nat).
    { destruct cols as [|c cs]; inversion E. reflexivity. }
    rewrite Hfirst, Hall. rewrite <- E. clear E Hfirst Hall.
    simpl. unfold Frames.transpose, Frames.rename_columns. simpl.
    rewrite !map_map. simpl. f_equal. rewrite length_map.
    rewrite <- (map_map (fun _ : column => v) (fun x => [x])).
    rewrite <- (length_map (fun _ : column => v) cols).
    rewrite (map_nth_seq (fun x => [x])). reflexivity.
Qed.

Lemma put_at_fresh (cols : list label) (key : label) (v : scalar) (row : list scalar) :
  existsb (label_eqb key) cols = false -> List.length row = List.length cols ->
  Frames.put_at cols key v row = row ++ [v].
Proof.
  revert row. induction cols as [|c cols IH]; intros [|x row] Hk Hlen;
    simpl in *; try discriminate; auto.
  apply orb_false_iff in Hk. destruct Hk as [Hc Hk].
  replace (label_eqb c key) with false.
  - rewrite IH; auto.
  - destruct c, key; simpl in *; auto.
    + now rewrite Z.eqb_sym.
    + now rewrite String.eqb_sym.
Qed.

Lemma setitem_series_aligned (cols : list column) (fields : list label)
    (rowf : column -> list scalar) (key : label) (val : column -> scalar) :
  existsb (label_eqb key) fields = false ->
  (forall c, List.length (rowf c) = List.length fields) ->
  Frames.setitem_series (mkFrame (map name_label cols) fields (map rowf cols)) key
    (map (fun c => (name_label c, val c)) cols)
  = Ok (mkFrame (map name_label cols) (fields ++ [key])
          (map (fun c => rowf c ++ [val c]) cols)).
Proof.
  intros Hk Hlen. unfold Frames.setitem_series, Frames.align. simpl.
  rewrite !map_map. simpl. rewrite labels_eqb_refl. simpl. rewrite Hk.
  f_equal. f_equal. rewrite combine_map, map_map. simpl.
  apply map_ext. intros c. now apply put_at_fresh.
Qed.

Lemma count_type_null_frame (inf_as_na : bool) (data : DataFrame) :
  unique_columns data -> df_columns data <> [] ->
  (let? counts := Frames.of_dict (data_count data) in
   let df1 := Frames.rename_columns [(LInt 0, LStr "entry_count")]
                (Frames.transpose counts) in
   let? df1 := Frames.setitem_series df1 (LStr "data_type") (data_type data) in
   Frames.setitem_frame df1 (LStr "null_count")
     (Frames.rename_columns [(LInt 0, LStr "null_count")]
        (Frames.to_frame (isnull_sum inf_as_na data))))
  = Ok (count_type_null inf_as_na data).
Proof.
  intros Hu Hne. pose proof (counts_frame data Hu Hne) as Hc.
  destruct (Frames.of_dict (data_count data)) as [counts | e]; unfold rbind in Hc;
    [|discriminate].
  apply (f_equal (fun r => match r with Ok f => f | Err _ => mkFrame [] [] [] end)) in Hc.
  unfold rbind at 1. cbv zeta. rewrite Hc.
  unfold data_type.
  rewrite (setitem_series_aligned (df_columns data) [LStr "entry_count"]
             (fun _ => [SInt (shape0 data)]) (LStr "data_type")
             (fun c => SDtype (col_dtype c))) by auto.
  simpl. unfold Frames.setitem_frame, isnull_sum. simpl.
  rewrite !map_map. simpl.
  rewrite combine_map.
  rewrite (setitem_series_aligned (df_columns data) [LStr "entry_count"; LStr "data_type"]
             (fun c => [SInt (shape0 data); SDtype (col_dtype c)]) (LStr "null_count")
             (fun c => SInt (null_count inf_as_na c))) by auto.
  reflexivity.
Qed.

Lemma transpose_summary_frame {S : Type} (stats : list (string * (S -> scalar)))
    (summary : column -> S) (cols : list column) :
  Frames.transpose (summary_frame stats summary cols)
  = mkFrame (map name_label cols) (map (fun st => LStr (fst st)) stats)
      (map (fun c => map (fun st => snd st (summary c)) stats) cols).
Proof.
  unfold Frames.transpose, summary_frame. simpl. f_equal.
  rewrite length_map.
  induction cols as [|c cs IH]; simpl; auto.
  f_equal.
  - rewrite map_map. reflexivity.
  - rewrite <- seq_shift, map_map. simpl. rewrite <- IH.
    apply map_ext. intros j. rewrite !map_map. reflexivity.
Qed.

Lemma describe_numeric_table (describe_numeric : bool -> column -> numeric_summary)
    (describe_object : bool -> column -> object_summary) (inf_as_na : bool)
    (data : DataFrame) :
  numbers_of data <> [] ->
  (let? described := describe describe_numeric describe_object inf_as_na data in
   Frames.drop_columns (LStr "count") (Frames.transpose described))
  = Ok (numeric_table describe_numeric inf_as_na data).
Proof.
  intros Hne. unfold describe, numeric_table, numbers_of in *.
  destruct (df_columns data) as [|c0 cs0] eqn:E; [simpl in Hne; congruence|].
  rewrite <- E in *. clear E c0 cs0.
  destruct (filter is_number (df_columns data)) as [|c cs] eqn:E; [congruence|].
  rewrite <- E. clear E Hne c cs. simpl.
  rewrite transpose_summary_frame. unfold Frames.drop_columns. simpl.
  rewrite map_map. reflexivity.
Qed.

Lemma describe_categorical_table (describe_numeric : bool -> column -> numeric_summary)
    (describe_object : bool -> column -> object_summary) (inf_as_na : bool)
    (data : DataFrame) :
  df_columns data <> [] -> numbers_of data = [] ->
  (let? described := describe describe_numeric describe_object inf_as_na data in
   Frames.drop_columns (LStr "count") (Frames.transpose described))
  = Ok (categorical_table describe_object inf_as_na data).
Proof.
  intros Hne Hnum. unfold describe, numbers_of in *.
  destruct (df_columns data) as [|c0 cs0] eqn:E; [congruence|].
  rewrite <- E in *. clear E c0 cs0. rewrite Hnum. simpl.
  rewrite transpose_summary_frame. unfold Frames.drop_columns, categorical_table. simpl.
  rewrite map_map. reflexivity.
Qed.

Lemma filter_map_comm {A B : Type} (P : B -> bool) (g : A -> B) (l : list A) :
  filter P (map g l) = map g (filter (fun x => P (g x)) l).
Proof.
  induction l as [|x l IH]; simpl; auto.
  destruct (P (g x)); simpl; now rewrite IH.
Qed.

Lemma NoDup_names_filter (q : column -> bool) (cols : list column) :
  NoDup (map col_name cols) -> NoDup (map col_name (filter q cols)).
Proof.
  induction cols as [|c cols IH]; simpl; intros H; auto.
  inversion H as [|? ? Hc Hnd]; subst.
  destruct (q c); simpl; auto.
  constructor; auto.
  intros Hin. apply Hc. apply in_map_iff in Hin. destruct Hin as [x [Hx Hin]].
  apply filter_In in Hin. apply in_map_iff. exists x. tauto.
Qed.

Lemma matching_selected (q : column -> bool) (fields : list label)
    (rrow : column -> list scalar) (cols : list column) (c : column) :
  NoDup (map col_name cols) -> In c cols ->
  Frames.matching
    (mkFrame (map name_label (filter q cols)) fields (map rrow (filter q cols)))
    (name_label c)
  = if q c then [rrow c] else [].
Proof.
  intros Hnd Hin. unfold Frames.matching. simpl.
  rewrite combine_map, filter_map_comm. simpl.
  destruct (q c) eqn:Hq.
  - rewrite (filter_name_unique (filter q cols) c).
    + reflexivity.
    + now apply NoDup_names_filter.
    + apply filter_In. auto.
  - rewrite filter_name_absent; [reflexivity|].
    intros Hname.
    destruct (name_of_filtered q cols (col_name c) Hnd Hname) as [x [Hx [Hn [Hqx Huniq]]]].
    rewrite (Huniq c Hin eq_refl) in Hq. congruence.
Qed.

Lemma flat_map_singletons {A B : Type} (f : A -> list B) (h : A -> B) (l : list A) :
  (forall x, In x l -> f x = [h x]) -> flat_map f l = map h l.
Proof.
  induction l as [|x l IH]; simpl; intros H; auto.
  rewrite H by now left. simpl. f_equal. apply IH. intros; apply H; now right.
Qed.

Lemma merge_left_selected (q : column -> bool) (lfields rfields : list label)
    (lrow rrow : column -> list scalar) (cols : list column) :
  NoDup (map col_name cols) ->
  Frames.merge_left
    (mkFrame (map name_label cols) lfields (map lrow cols))
    (mkFrame (map name_label (filter q cols)) rfields (map rrow (filter q cols)))
  = mkFrame (map name_label cols) (lfields ++ rfields)
      (map (fun c => lrow c ++ (if q c then rrow c else map (fun _ => SNaN) rfields)) cols).
Proof.
  intros Hnd. unfold Frames.merge_left. simpl fr_index. simpl fr_rows. simpl fr_columns.
  rewrite combine_map, flat_map_concat_map, map_map, <- flat_map_concat_map.
  rewrite (flat_map_singletons _
             (fun c => (name_label c,
                        lrow c ++ (if q c then rrow c else map (fun _ => SNaN) rfields)))).
  - rewrite !map_map. reflexivity.
  - intros c Hc. unfold Frames.merge_row. simpl fst. simpl snd.
    rewrite (matching_selected q rfields rrow cols c Hnd Hc).
    destruct (q c); reflexivity.
Qed.

Lemma filter_all {A : Type} (l : list A) : filter (fun _ => true) l = l.
Proof. induction l; simpl; congruence. Qed.

Lemma position_of_name (cols : list column) (c : column) :
  NoDup (map col_name cols) -> In c cols ->
  exists i, Frames.position (name_label c) (map name_label cols) = Some i /\
            nth_error cols i = Some c.
Proof.
  induction cols as [|c0 cols IH]; simpl; intros Hnd Hin; [contradiction|].
  inversion Hnd as [|? ? Hc Hnd']; subst.
  destruct Hin as [-> | Hin].
  - exists O. now rewrite String.eqb_refl.
  - destruct (String.eqb (col_name c0) (col_name c)) eqn:E.
    + apply String.eqb_eq in E. exfalso. apply Hc. rewrite E. now apply in_map.
    + destruct (IH Hnd' Hin) as [i [Hp Hn]]. exists (S i). now rewrite Hp.
Qed.

Lemma cell_of_row (cols : list column) (fields : list label)
    (rowf : column -> list scalar) (c : column) (f : label) :
  NoDup (map col_name cols) -> In c cols ->
  Frames.cell (mkFrame (map name_label cols) fields (map rowf cols)) (name_label c) f
  = match Frames.position f fields with
    | Some j => nth_error (rowf c) j
    | None => None
    end.
Proof.
  intros Hnd Hin. unfold Frames.cell. simpl.
  destruct (position_of_name cols c Hnd Hin) as [i [Hp Hn]].
  rewrite Hp. destruct (Frames.position f fields); auto.
  now rewrite (nth_error_map_some rowf cols i c Hn).
Qed.

(** The table that [stats_report] joins the count/type/null table with. *)
Lemma report_silent (read_csv : string -> result DataFrame)
    (describe_numeric : bool -> column -> numeric_summary)
    (describe_object : bool -> column -> object_summary)
    (csv : string) (data : DataFrame) (right : frame) (s : world) :
  read_csv csv = Ok data ->
  unique_columns data -> df_columns data <> [] ->
  (let? described := describe describe_numeric describe_object (use_inf_as_na s) data in
   Frames.drop_columns (LStr "count") (Frames.transpose described)) = Ok right ->
  stats_report Sample.silent read_csv describe_numeric describe_object csv s
  = Returns (Frames.merge_left (count_type_null (use_inf_as_na s) data) right) s.
Proof.
  intros Hread Hu Hne Hright.
  pose proof (count_type_null_frame (use_inf_as_na s) data Hu Hne) as Hleft.
  unfold stats_report.
  erewrite bind_returns
    by (unfold data_input, advise; simpl; unfold bind, ret; rewrite Hread; reflexivity).
  destruct (Frames.of_dict (data_count data)) as [counts | e]; [|discriminate].
  unfold rbind at 1 in Hleft. cbv zeta in Hleft.
  erewrite bind_returns by reflexivity. cbv zeta.
  destruct (Frames.setitem_series _ (LStr "data_type") (data_type data)) as [df1 | e];
    [|discriminate].
  unfold rbind in Hleft.
  erewrite bind_returns by reflexivity.
  erewrite bind_returns by reflexivity.
  rewrite Hleft.
  erewrite bind_returns by reflexivity.
  assert (Hd : data_describe Sample.silent describe_numeric describe_object data s
               = Returns right s).
  { unfold data_describe, pd_describe, advise, bind, ret. simpl.
    destruct (describe describe_numeric describe_object (use_inf_as_na s) data) as [d | e];
      [|discriminate].
    unfold rbind in Hright. simpl. now rewrite Hright. }
  erewrite bind_returns by exact Hd. reflexivity.
Qed.

Lemma sim_stats_report (adv1 adv2 : libcall -> list warning)
    (read_csv : string -> result DataFrame)
    (describe_numeric : bool -> column -> numeric_summary)
    (describe_object : bool -> column -> object_summary) (csv : string) :
  sim (stats_report adv1 read_csv describe_numeric describe_object csv)
      (stats_report adv2 read_csv describe_numeric describe_object csv).
Proof.
  assert (Hnull : forall data, sim (data_isnull data) (data_isnull data)).
  { intros data. same_surface. intros _ _. unfold related, data_isnull, agree; simpl.
    repeat split; auto. }
  assert (Hdesc : forall data,
            sim (fun s => lift (describe describe_numeric describe_object
                                  (use_inf_as_na s) data) s)
                (fun s => lift (describe describe_numeric describe_object
                                  (use_inf_as_na s) data) s)).
  { intros data. same_surface. intros _ _. simpl.
    match goal with
    | |- context [describe _ _ ?b _] =>
        destruct (describe describe_numeric describe_object b data)
    end; unfold related, agree; simpl; repeat split; auto. }
  pose proof (sim_advise adv1 adv2) as Hadv.
  pose proof (sim_data_input adv1 adv2 read_csv) as Hin.
  unfold stats_report, data_describe, pd_describe.
  repeat first [ solve [auto with sim] | apply sim_bind; [|intro] ].
Qed.

Lemma stats_report_frame (advisories : libcall -> list warning)
    (read_csv : string -> result DataFrame)
    (describe_numeric : bool -> column -> numeric_summary)
    (describe_object : bool -> column -> object_summary)
    (csv : string) (data : DataFrame) (s : world) :
  read_csv csv = Ok data ->
  unique_columns data -> df_columns data <> [] ->
  Warnings.tolerant s = true ->
  exists s',
    stats_report advisories read_csv describe_numeric describe_object csv s
    = Returns
        (Frames.merge_left (count_type_null (use_inf_as_na s) data)
           (match numbers_of data with
            | [] => categorical_table describe_object (use_inf_as_na s) data
            | _ => numeric_table describe_numeric (use_inf_as_na s) data
            end)) s' /\
    agree s' s /\ filters s' = filters s.
Proof.
  intros Hread Hu Hne Hs.
  apply (transfer_returns _ _ s s _
           (sim_stats_report advisories Sample.silent read_csv describe_numeric
              describe_object csv) Hs).
  apply (report_silent read_csv describe_numeric describe_object csv data _ s Hread Hu Hne).
  destruct (numbers_of data) eqn:E.
  - now apply describe_categorical_table.
  - apply describe_numeric_table. congruence.
Qed.

(** The report, row by row: the three cells of the count/type/null table,
    then the cells of the table it is joined with. *)
Lemma report_rows (describe_numeric : bool -> column -> numeric_summary)
    (describe_object : bool -> column -> object_summary) (flag : bool) (data : DataFrame) :
  unique_columns data ->
  Frames.merge_left (count_type_null flag data)
    (match numbers_of data with
     | [] => categorical_table describe_object flag data
     | _ => numeric_table describe_numeric flag data
     end)
  = mkFrame (map name_label (df_columns data))
      ([LStr "entry_count"; LStr "data_type"; LStr "null_count"]
       ++ match numbers_of data with
          | [] => [LStr "unique"; LStr "top"; LStr "freq"]
          | _ => numeric_fields
          end)
      (map (fun c =>
              [SInt (shape0 data); SDtype (col_dtype c); SInt (null_count flag c)]
              ++ match numbers_of data with
                 | [] => let o := describe_object flag c in [os_unique o; os_top o; os_freq o]
                 | _ => if is_number c
                        then let n := describe_numeric flag c in
                             [ns_mean n; ns_std n; ns_min n; ns_q25 n; ns_q50 n; ns_q75 n;
                              ns_max n]
                        else map (fun _ => SNaN) numeric_fields
                 end)
           (df_columns data)).
Proof.
  intros Hu. apply nodupb_sound in Hu. unfold count_type_null.
  destruct (numbers_of data) eqn:E.
  - unfold categorical_table.
    rewrite <- (filter_all (df_columns data)) at 3 4.
    rewrite (merge_left_selected (fun _ => true)) by exact Hu. reflexivity.
  - unfold numeric_table. rewrite E. rewrite <- E. unfold numbers_of.
    rewrite (merge_left_selected is_number) by exact Hu. reflexivity.
Qed.

Lemma numeric_is_number (c : column) : is_numeric c = true -> is_number c = true.
Proof. unfold is_numeric, is_number. now destruct (col_dtype c). Qed.

Lemma position_absent (f : label) (fields : list label) :
  existsb (label_eqb f) fields = false -> Frames.position f fields = None.
Proof.
  induction fields as [|x fields IH]; simpl; intros H; auto.
  apply orb_false_iff in H. destruct H as [Hx H].
  replace (label_eqb x f) with false.
  - now rewrite IH.
  - destruct x, f; simpl in *; auto.
    + now rewrite Z.eqb_sym.
    + now rewrite String.eqb_sym.
Qed.

(** C5. The report of a loaded table has one row per column of the table,
    labelled with the column names in the order of the table, and the
    [entry_count] of every row is the row count of the table, whatever the
    column holds. *)
Theorem stats_report_one_row_per_column (advisories : libcall -> list warning)
    (read_csv : string -> result DataFrame)
    (describe_numeric : bool -> column -> numeric_summary)
    (describe_object : bool -> column -> object_summary)
    (csv : string) (data : DataFrame) (s : world) :
  read_csv csv = Ok data ->
  unique_columns data -> df_columns data <> [] ->
  Warnings.tolerant s = true ->
  exists report s',
    stats_report advisories read_csv describe_numeric describe_object csv s
    = Returns report s' /\
    fr_index report = map name_label (df_columns data) /\
    List.length (fr_rows report) = List.length (df_columns data) /\
    forall c, In c (df_columns data) ->
      Frames.cell report (name_label c) (LStr "entry_count") = Some (SInt (shape0 data)).
Proof.
  intros Hread Hu Hne Hs.
  destruct (stats_report_frame advisories read_csv describe_numeric describe_object
              csv data s Hread Hu Hne Hs) as [s' [E _]].
  rewrite (report_rows describe_numeric describe_object _ data Hu) in E.
  eexists. exists s'. split; [exact E|]. simpl.
  split; [reflexivity|]. split; [apply length_map|].
  intros c Hc.
  rewrite (cell_of_row (df_columns data) _ _ c (LStr "entry_count") (nodupb_sound _ Hu) Hc).
  reflexivity.
Qed.

(** C6. The report of a loaded table has one row per column of the
    table.  When the table has a column whose dtype is a number ([int64],
    [float64] or [uint64]: what [describe()] summarises numerically), the
    report is the left join of the count/type/null table with the numeric
    descriptive-statistics table on the column name, and holds NaN in each
    of [mean], [std], [min], [25%], [50%], [75%] and [max] on the row of a
    column whose dtype is not a number.  When the table has no such column
    the report is the join with the object summary of every column
    instead: its fields are then [unique], [top] and [freq], and none of
    the numeric fields is a field of it. *)
Theorem stats_report_is_left_join (advisories : libcall -> list warning)
    (read_csv : string -> result DataFrame)
    (describe_numeric : bool -> column -> numeric_summary)
    (describe_object : bool -> column -> object_summary)
    (csv : string) (data : DataFrame) (s : world) :
  read_csv csv = Ok data ->
  unique_columns data -> df_columns data <> [] ->
  Warnings.tolerant s = true ->
  exists report s',
    stats_report advisories read_csv describe_numeric describe_object csv s
    = Returns report s' /\
    fr_index report = map name_label (df_columns data) /\
    (numbers_of data <> [] ->
     report = left_join_report describe_numeric (use_inf_as_na s) data /\
     forall c, In c (df_columns data) -> is_number c = false ->
       forall f, In f numeric_fields -> Frames.cell report (name_label c) f = Some SNaN) /\
    (numbers_of data = [] ->
     report = Frames.merge_left (count_type_null (use_inf_as_na s) data)
                (categorical_table describe_object (use_inf_as_na s) data) /\
     fr_columns report
     = [LStr "entry_count"; LStr "data_type"; LStr "null_count";
        LStr "unique"; LStr "top"; LStr "freq"] /\
     forall r f, In f numeric_fields -> Frames.cell report r f = None).
Proof.
  intros Hread Hu Hne Hs.
  destruct (stats_report_frame advisories read_csv describe_numeric describe_object
              csv data s Hread Hu Hne Hs) as [s' [E _]].
  pose proof (report_rows describe_numeric describe_object (use_inf_as_na s) data Hu) as R.
  eexists. exists s'. split; [exact E|].
  split; [rewrite R; reflexivity|].
  destruct (numbers_of data) as [|n0 ns] eqn:En.
  - split; [congruence|]. intros _. split; [reflexivity|].
    rewrite R. split; [reflexivity|].
    intros r f Hf. unfold Frames.cell. simpl fr_columns.
    rewrite (position_absent f).
    + now destruct (Frames.position r _).
    + simpl in Hf.
      repeat (destruct Hf as [<- | Hf]; [reflexivity|]). contradiction.
  - split; [|discriminate]. intros _. split; [reflexivity|].
    intros c Hc Hq f Hf. rewrite R.
    rewrite (cell_of_row (df_columns data) _ _ c f (nodupb_sound _ Hu) Hc).
    rewrite Hq. simpl in Hf.
    repeat (destruct Hf as [<- | Hf]; [reflexivity|]). contradiction.
Qed.

(** ** Correlation heatmap *)

Lemma corr_size_zero (data : DataFrame) :
  size_zero (corr data)
  = match df_columns data with [] => true | _ => false end.
Proof.
  unfold corr, size_zero. destruct (df_columns data) as [|c cs]; reflexivity.
Qed.

Lemma create_heatmap_silent (data : DataFrame) (s : world) :
  unique_columns data ->
  let numeric := mkDataFrame (df_index data) (numeric_of data) in
  let num := next_num (open_figures s) in
  create_heatmap Sample.silent data s
  = match numeric_of data with
    | [] => Raises ValueError
              (set_open_figures
                 (mkFigure num (Some (8, 6)) (0, 0) [] None false :: open_figures s) s)
    | _ => Returns tt
             (set_figures []
                (shown s ++ rev (heatmap_figure num (corr numeric)
                                   :: open_figures s)) s)
    end.
Proof.
  intros Hu. cbv zeta. destruct s as [u fl er out figs sh].
  unfold create_heatmap. rewrite (numeric_data_unique _ Hu). fold (numeric_of data).
  erewrite bind_returns by reflexivity.
  erewrite bind_returns by reflexivity.
  erewrite bind_returns by reflexivity.
  unfold sns_heatmap, advise. simpl Warnings.emit.
  rewrite corr_size_zero. simpl df_columns.
  destruct (numeric_of data) as [|c cs] eqn:E; reflexivity.
Qed.

Lemma corr_single (index : list Z) (c : column) :
  corr (mkDataFrame index [c])
  = mkFrame [name_label c] [name_label c] [[pearson c c]].
Proof. reflexivity. Qed.


(** * The properties on the sample inputs *)

(** Three numeric columns on a grid two columns wide: two rows, three
    charts in row-major order, the fourth cell hidden. *)
Example grid_of_three_columns :
  exists fig,
    shown (final (create_subplots Sample.silent Sample.seaborn Sample.people "boxplot" 2
                    Sample.fresh))
    = [fig] /\
    fig_grid fig = (2, 2) /\
    map ax_title (fig_axes fig) = ["Age"; "Total income"; "Score"; ""] /\
    map ax_on (fig_axes fig) = [true; true; true; false] /\
    fig_suptitle fig = Some "Boxplot Analysis".
Proof. eexists. split; [vm_compute; reflexivity|]. repeat split. Qed.

(** With a repeated label the classifier returns no table at all: both
    functions raise. *)
Lemma repeated_label_is_not_partitioned :
  columns Cases.repeated = ["a"; "b"; "a"] /\
  numeric_data Cases.repeated = Err ValueError /\
  non_numeric_data Cases.repeated = Err ValueError.
Proof. repeat split. Qed.

Lemma classifier_partition_people :
  unique_columns Sample.people /\
  exists N X,
    numeric_data Sample.people = Ok N /\ non_numeric_data Sample.people = Ok X /\
    columns N = ["age"; "total income"; "score"] /\ columns X = ["city"] /\
    shape0 N = 3 /\ shape0 X = 3.
Proof.
  split; [reflexivity|].
  destruct (classifier_partition Sample.people eq_refl)
    as [N [X [HN [HX [CN [CX [_ [_ [SN [SX _]]]]]]]]]].
  exists N, X. unfold columns. rewrite CN, CX, SN, SX.
  repeat split; assumption.
Defined.

Lemma single_row_raises_on_one_numeric :
  exists s',
    create_subplots Sample.noisy Sample.seaborn Sample.one_numeric "boxplot" 2 Sample.fresh
    = Raises IndexError s' /\
    shown s' = [].
Proof.
  destruct (create_subplots_single_row_raises Sample.noisy Sample.seaborn Sample.one_numeric
              "boxplot" 2 Sample.fresh eq_refl eq_refl)
    as [s' [E [_ [Hshown _]]]].
  - simpl. lia.
  - exists s'. split; [exact E | exact Hshown].
Defined.

Lemma non_positive_width_on_people :
  create_subplots Sample.noisy Sample.seaborn Sample.people "histplot" 0 Sample.fresh
  = Raises ZeroDivisionError Sample.fresh /\
  exists s',
    create_subplots Sample.noisy Sample.seaborn Sample.people "histplot" (-2) Sample.fresh
    = Raises ValueError s'.
Proof.
  destruct (create_subplots_rejects_non_positive_width Sample.noisy Sample.seaborn
              Sample.people "histplot" Sample.fresh eq_refl) as [Hzero Hneg].
  split; [exact Hzero|]. apply Hneg; [lia | reflexivity].
Defined.

(** At width zero the exception is not the [InvalidConfigError] of the
    specification, which the code nowhere defines. *)
Lemma zero_width_is_not_a_config_error :
  create_subplots Sample.silent Sample.seaborn Sample.people "boxplot" 0 Sample.fresh
  = Raises ZeroDivisionError Sample.fresh /\
  exn_name ZeroDivisionError <> "InvalidConfigError".
Proof. split; [reflexivity | discriminate]. Qed.

Lemma titles_capitalized_on_people :
  exists s' fig,
    create_subplots Sample.noisy Sample.seaborn Sample.people "boxplot" 2 Sample.fresh
    = Returns tt s' /\
    shown s' = [fig] /\
    nth_error (map ax_title (fig_axes fig)) 1 = Some "Total income".
Proof.
  destruct (subplot_titles_capitalized Sample.noisy Sample.seaborn Sample.people "boxplot" 2
              Sample.fresh eq_refl eq_refl)
    as [s' [fig [E [Hshown Htitles]]]].
  - simpl. lia.
  - reflexivity.
  - reflexivity.
  - exists s', fig. split; [exact E|]. split; [exact Hshown|].
    apply (Htitles 1%nat (mkColumn "total income" float64 [SFloat (5 # 2); SNaN; SFloat (7 # 1)])).
    reflexivity.
Defined.

(** The subplot of the column [total income] is titled [Total income],
    which is not its title-cased form [Total Income]. *)
Lemma title_is_not_title_cased :
  exists s' fig,
    create_subplots Sample.silent Sample.seaborn Sample.people "boxplot" 2 Sample.fresh
    = Returns tt s' /\
    shown s' = [fig] /\
    PyStr.isascii "total income" = true /\
    nth_error (map ax_title (fig_axes fig)) 1 = Some "Total income" /\
    PyStr.title "total income" = "Total Income" /\
    nth_error (map ax_title (fig_axes fig)) 1 <> Some (PyStr.title "total income").
Proof.
  eexists. eexists. split; [vm_compute; reflexivity|]. split; [reflexivity|].
  split; [reflexivity|]. split; [reflexivity|]. split; [reflexivity|]. discriminate.
Qed.

Lemma wrapper_keeps_results_on_people :
  related Sample.fresh Sample.fresh
    (initial_analysis Sample.noisy Sample.files Sample.seaborn "people.csv" 2
       Sample.fresh)
    (initial_analysis_unwrapped Sample.noisy Sample.files Sample.seaborn "people.csv" 2
       Sample.fresh).
Proof.
  apply (warning_suppression_keeps_results Sample.noisy Sample.files Sample.seaborn
           "people.csv" 2 Sample.fresh).
  reflexivity.
Defined.

(** The two runs differ in what reaches the error stream, and a process
    that turns warnings into exceptions is outside the comparison: there
    the unwrapped sequence stops at the first warning. *)
Example unwrapped_run_prints_warnings :
  stderr (final (initial_analysis Sample.noisy Sample.files Sample.seaborn
                   "people.csv" 2 Sample.fresh)) = [] /\
  List.length (stderr (final (initial_analysis_unwrapped Sample.noisy Sample.files
                                Sample.seaborn "people.csv" 2 Sample.fresh))) = 6%nat.
Proof. split; reflexivity. Qed.

Example strict_process_needs_the_wrapper :
  (exists s', initial_analysis Sample.noisy Sample.files Sample.seaborn
                "people.csv" 2 Sample.strict = Returns tt s') /\
  initial_analysis_unwrapped Sample.noisy Sample.files Sample.seaborn
    "people.csv" 2 Sample.strict
  = Raises (WarningRaised FutureWarning) Sample.strict.
Proof. split; [eexists; vm_compute; reflexivity | reflexivity]. Qed.

Example initial_analysis_returns_on_people :
  exists s',
    initial_analysis Sample.noisy Sample.files Sample.seaborn "people.csv" 2
      Sample.fresh = Returns tt s' /\
    use_inf_as_na Sample.fresh = false /\ use_inf_as_na s' = true /\
    List.length (shown s') = 3%nat.
Proof. eexists. split; [vm_compute; reflexivity|]. repeat split. Qed.

Lemma report_rows_on_people :
  exists report s',
    stats_report Sample.noisy Sample.files Sample.count_only Sample.first_value
      "people.csv" Sample.fresh = Returns report s' /\
    fr_index report = [LStr "age"; LStr "total income"; LStr "city"; LStr "score"] /\
    Frames.cell report (LStr "total income") (LStr "entry_count") = Some (SInt 3).
Proof.
  destruct (stats_report_one_row_per_column Sample.noisy Sample.files Sample.count_only
              Sample.first_value "people.csv" Sample.people Sample.fresh eq_refl eq_refl)
    as [report [s' [E [Hindex [_ Hcount]]]]].
  - discriminate.
  - reflexivity.
  - exists report, s'. split; [exact E|]. split; [exact Hindex|].
    apply (Hcount (mkColumn "total income" float64 [SFloat (5 # 2); SNaN; SFloat (7 # 1)])).
    simpl. auto.
Defined.

Lemma left_join_on_people :
  exists report s',
    stats_report Sample.noisy Sample.files Sample.count_only Sample.first_value
      "people.csv" Sample.fresh = Returns report s' /\
    report = left_join_report Sample.count_only false Sample.people /\
    Frames.cell report (LStr "city") (LStr "mean") = Some SNaN.
Proof.
  destruct (stats_report_is_left_join Sample.noisy Sample.files Sample.count_only
              Sample.first_value "people.csv" Sample.people Sample.fresh eq_refl eq_refl)
    as [report [s' [E [_ [Hsome _]]]]].
  - discriminate.
  - reflexivity.
  - destruct Hsome as [Hjoin Hnan]; [discriminate|].
    exists report, s'. split; [exact E|]. split; [exact Hjoin|].
    apply (Hnan (mkColumn "city" object_ [SStr "Oslo"; SStr "Rome"; SStr "Lima"])).
    + simpl. auto.
    + reflexivity.
    + simpl. auto.
Defined.

(** For a table without a numeric column the report is not that join: it
    is joined with the object summary of every column, so it has the
    fields [unique], [top] and [freq], filled, and none of the numeric
    fields. *)
Lemma text_only_report_is_not_the_left_join :
  exists report,
    stats_report Sample.silent Sample.files Sample.count_only Sample.first_value
      "text.csv" Sample.fresh = Returns report Sample.fresh /\
    fr_columns report
    = [LStr "entry_count"; LStr "data_type"; LStr "null_count";
       LStr "unique"; LStr "top"; LStr "freq"] /\
    Frames.cell report (LStr "city") (LStr "mean") = None /\
    Frames.cell report (LStr "city") (LStr "top") = Some (SStr "Oslo") /\
    report <> left_join_report Sample.count_only false Sample.text_only.
Proof.
  eexists. split; [vm_compute; reflexivity|]. split; [reflexivity|].
  split; [reflexivity|]. split; [reflexivity|]. discriminate.
Qed.



(** * Further properties of the code *)

(** ** The classifier on repeated labels, and composed with itself *)

Lemma nodupb_complete (l : list string) : NoDup l -> nodupb l = true.
Proof.
  induction 1 as [|x l Hx _ IH]; simpl; auto.
  rewrite IH, andb_true_r.
  destruct (existsb (String.eqb x) l) eqn:E; auto.
  apply existsb_exists in E. destruct E as [y [Hy Hxy]].
  apply String.eqb_eq in Hxy. subst y. contradiction.
Qed.

Lemma repeated_label (l : list string) :
  nodupb l = false ->
  exists x, In x l /\ (2 <= List.length (filter (fun y => String.eqb y x) l))%nat.
Proof.
  induction l as [|x l IH]; simpl; intros H; [discriminate|].
  apply andb_false_iff in H. destruct H as [H | H].
  - apply negb_false_iff in H. apply existsb_exists in H.
    destruct H as [y [Hy Hxy]]. apply String.eqb_eq in Hxy. subst y.
    exists x. split; [now left|]. rewrite String.eqb_refl. simpl.
    assert (Hin : In x (filter (fun y => String.eqb y x) l)).
    { apply filter_In. split; auto. apply String.eqb_refl. }
    destruct (filter (fun y => String.eqb y x) l); [contradiction | simpl; lia].
  - destruct (IH H) as [y [Hy Hlen]]. exists y. split; [now right|].
    destruct (String.eqb x y); simpl; lia.
Qed.

Lemma filter_names_length (cs : list column) (key : string) :
  List.length (filter (fun c => String.eqb (col_name c) key) cs)
  = List.length (filter (fun y => String.eqb y key) (map col_name cs)).
Proof.
  induction cs as [|c cs IH]; simpl; auto.
  destruct (String.eqb (col_name c) key); simpl; now rewrite IH.
Qed.

(** The truth test of the comprehension on a label of the table: a
    boolean, or the [ValueError] of a Series without truth value. *)
Lemma dtype_test_outcome (data : DataFrame) (key : string)
    (test1 test2 : dtype -> string -> bool) (short : bool) :
  In key (columns data) ->
  let run :=
    let? sel := Pandas.getitem data key in
    let? left := Pandas.truth_value (Pandas.dtypes_test test1 sel "int64") in
    if Bool.eqb left short then Ok short
    else
      let? sel' := Pandas.getitem data key in
      Pandas.truth_value (Pandas.dtypes_test test2 sel' "float64") in
  (exists b, run = Ok b) \/ run = Err ValueError.
Proof.
  intros Hin. cbv zeta. unfold Pandas.getitem.
  destruct (filter (fun c => String.eqb (col_name c) key) (df_columns data))
    as [|c [|c' cs]] eqn:E.
  - exfalso. apply in_map_iff in Hin. destruct Hin as [c [Hn Hc]].
    assert (Hf : In c (filter (fun c => String.eqb (col_name c) key) (df_columns data))).
    { apply filter_In. split; auto. rewrite Hn. apply String.eqb_refl. }
    rewrite E in Hf. contradiction.
  - left. simpl. destruct (Bool.eqb (test1 (col_dtype c) "int64") short); eauto.
  - right. reflexivity.
Qed.

Lemma dtype_test_repeated (data : DataFrame) (key : string)
    (test1 test2 : dtype -> string -> bool) (short : bool) :
  (2 <= List.length (filter (fun c => String.eqb (col_name c) key) (df_columns data)))%nat ->
  (let? sel := Pandas.getitem data key in
   let? left := Pandas.truth_value (Pandas.dtypes_test test1 sel "int64") in
   if Bool.eqb left short then Ok short
   else
     let? sel' := Pandas.getitem data key in
     Pandas.truth_value (Pandas.dtypes_test test2 sel' "float64"))
  = Err ValueError.
Proof.
  intros H. unfold Pandas.getitem.
  destruct (filter (fun c => String.eqb (col_name c) key) (df_columns data))
    as [|c [|c' cs]]; simpl in H; try lia.
  reflexivity.
Qed.

Lemma filter_r_value_error {A : Type} (p : A -> result bool) (xs : list A) :
  (forall x, In x xs -> (exists b, p x = Ok b) \/ p x = Err ValueError) ->
  (exists x, In x xs /\ p x = Err ValueError) ->
  filter_r p xs = Err ValueError.
Proof.
  induction xs as [|x xs IH]; intros Hall [y [Hy Hp]]; [contradiction|].
  simpl. destruct (Hall x (or_introl eq_refl)) as [[b Hb] | Hb]; rewrite Hb; simpl; auto.
  destruct Hy as [-> | Hy]; [congruence|].
  rewrite IH; auto.
  - intros z Hz. apply Hall. now right.
  - now exists y.
Qed.

Lemma is_int64_or_float64_shape (data : DataFrame) (key : string) :
  is_int64_or_float64 data key
  = (let? sel := Pandas.getitem data key in
     let? left := Pandas.truth_value (Pandas.dtypes_test dtype_eq sel "int64") in
     if Bool.eqb left true then Ok true
     else
       let? sel' := Pandas.getitem data key in
       Pandas.truth_value (Pandas.dtypes_test dtype_eq sel' "float64")).
Proof.
  unfold is_int64_or_float64. destruct (Pandas.getitem data key); simpl; auto.
  destruct (Pandas.truth_value _); simpl; auto. now destruct a0.
Qed.

Lemma not_int64_and_not_float64_shape (data : DataFrame) (key : string) :
  not_int64_and_not_float64 data key
  = (let? sel := Pandas.getitem data key in
     let? left := Pandas.truth_value (Pandas.dtypes_test dtype_ne sel "int64") in
     if Bool.eqb left false then Ok false
     else
       let? sel' := Pandas.getitem data key in
       Pandas.truth_value (Pandas.dtypes_test dtype_ne sel' "float64")).
Proof.
  unfold not_int64_and_not_float64. destruct (Pandas.getitem data key); simpl; auto.
  destruct (Pandas.truth_value _); simpl; auto. now destruct a0.
Qed.

Lemma comprehension_fails_on_repeated_label (data : DataFrame) :
  nodupb (columns data) = false ->
  filter_r (is_int64_or_float64 data) (columns data) = Err ValueError /\
  filter_r (not_int64_and_not_float64 data) (columns data) = Err ValueError.
Proof.
  intros H. destruct (repeated_label _ H) as [key [Hin Hlen]].
  unfold columns in Hlen. rewrite <- filter_names_length in Hlen.
  split; apply filter_r_value_error.
  - intros x Hx. rewrite is_int64_or_float64_shape.
    apply (dtype_test_outcome data x dtype_eq dtype_eq true Hx).
  - exists key. split; auto. rewrite is_int64_or_float64_shape.
    now apply dtype_test_repeated.
  - intros x Hx. rewrite not_int64_and_not_float64_shape.
    apply (dtype_test_outcome data x dtype_ne dtype_ne false Hx).
  - exists key. split; auto. rewrite not_int64_and_not_float64_shape.
    now apply dtype_test_repeated.
Qed.

(** X1. On a table in which a column label occurs twice, both classifiers
    raise [ValueError]: [data[column]] is then a DataFrame, whose dtype
    test has no truth value. *)
Theorem classifier_raises_on_repeated_label (data : DataFrame) :
  nodupb (columns data) = false ->
  numeric_data data = Err ValueError /\ non_numeric_data data = Err ValueError.
Proof.
  intros H. destruct (comprehension_fails_on_repeated_label data H) as [H1 H2].
  unfold numeric_data, non_numeric_data. now rewrite H1, H2.
Qed.

Lemma unique_columns_filter (q : column -> bool) (index : list Z) (data : DataFrame) :
  unique_columns data ->
  unique_columns (mkDataFrame index (filter q (df_columns data))).
Proof.
  intros Hu. unfold unique_columns, columns. simpl.
  apply nodupb_complete, NoDup_names_filter, nodupb_sound, Hu.
Qed.

Lemma filter_filter {A : Type} (p q : A -> bool) (l : list A) :
  filter p (filter q l) = filter (fun x => q x && p x) l.
Proof.
  induction l as [|x l IH]; simpl; auto.
  destruct (q x); simpl; [destruct (p x)|]; now rewrite IH.
Qed.

Lemma filter_none {A : Type} (p : A -> bool) (l : list A) :
  (forall x, p x = false) -> filter p l = [].
Proof. intros H. induction l as [|x l IH]; simpl; auto. now rewrite H. Qed.

(** X2. Classifying twice changes nothing: the numeric table of a table
    is its own numeric table and has no non-numeric column, and the same
    holds on the other side. *)
Theorem classifier_idempotent (T N X : DataFrame) :
  unique_columns T ->
  numeric_data T = Ok N -> non_numeric_data T = Ok X ->
  numeric_data N = Ok N /\
  non_numeric_data N = Ok (mkDataFrame (df_index T) []) /\
  non_numeric_data X = Ok X /\
  numeric_data X = Ok (mkDataFrame (df_index T) []).
Proof.
  intros Hu HN HX.
  rewrite (numeric_data_unique _ Hu) in HN. rewrite (non_numeric_data_unique _ Hu) in HX.
  injection HN as <-. injection HX as <-.
  pose proof (unique_columns_filter is_numeric (df_index T) T Hu) as UN.
  pose proof (unique_columns_filter (fun c => negb (is_numeric c)) (df_index T) T Hu) as UX.
  rewrite (numeric_data_unique _ UN), (non_numeric_data_unique _ UN).
  rewrite (numeric_data_unique _ UX), (non_numeric_data_unique _ UX). simpl.
  rewrite !filter_filter.
  repeat split; f_equal; f_equal.
  - apply filter_ext. intros c. now destruct (is_numeric c).
  - apply filter_none. intros c. now destruct (is_numeric c).
  - apply filter_ext. intros c. now destruct (is_numeric c).
  - apply filter_none. intros c. now destruct (is_numeric c).
Qed.

(** ** Which grids are rendered *)

Lemma plot_column_no_axes (refusal : bool -> chart -> option exn) (data : DataFrame)
    (plot_type : string) (w : Z) (axs : axes_array) (e : exn) (c : column) (i : Z)
    (s : world) :
  unique_columns data -> In c (df_columns data) -> w <> 0 ->
  axes_getitem axs (i / w) (i mod w) = Err e ->
  plot_column Sample.silent refusal data plot_type w axs i (col_name c) s = Raises e s.
Proof.
  intros Hu Hin Hw Hax. unfold plot_column, floordiv, pymod.
  replace (w =? 0) with false by (symmetry; apply Z.eqb_neq; lia).
  simpl lift. unfold bind at 1 2. unfold ret at 1 2.
  rewrite (getitem_unique _ _ Hu Hin), Hax.
  destruct (String.eqb plot_type "boxplot"); [reflexivity|].
  destruct (String.eqb plot_type "histplot"); reflexivity.
Qed.

Lemma create_subplots_no_numeric_silent (refusal : bool -> chart -> option exn)
    (data : DataFrame) (plot_type : string) (num_cols : Z) (s : world) :
  unique_columns data -> numeric_of data = [] -> 1 <= num_cols ->
  create_subplots Sample.silent refusal data plot_type num_cols s
  = Raises ValueError
      (set_open_figures
         (mkFigure (next_num (open_figures s)) (Some (15, 0)) (0, 0) [] None false
          :: open_figures s) s).
Proof.
  intros Hu Hnone Hw. destruct s as [u fl er out figs sh].
  unfold create_subplots. rewrite (numeric_column_names _ Hu).
  fold (numeric_of data). rewrite Hnone.
  erewrite bind_returns by reflexivity. cbv zeta. simpl List.length. simpl Z.of_nat.
  unfold floordiv. replace (num_cols =? 0) with false by (symmetry; apply Z.eqb_neq; lia).
  erewrite bind_returns by reflexivity.
  replace ((0 + num_cols - 1) / num_cols) with 0 by (symmetry; apply Z.div_small; lia).
  reflexivity.
Qed.

Lemma create_subplots_single_column_silent (refusal : bool -> chart -> option exn)
    (data : DataFrame) (plot_type : string) (s : world) :
  unique_columns data -> 2 <= Z.of_nat (List.length (numeric_of data)) ->
  exists t, create_subplots Sample.silent refusal data plot_type 1 s = Raises IndexError t.
Proof.
  intros Hu Hn. destruct s as [u fl er out figs sh].
  unfold create_subplots. rewrite (numeric_column_names _ Hu).
  fold (numeric_of data). set (numeric := numeric_of data) in *.
  erewrite bind_returns by reflexivity. cbv zeta. rewrite length_map.
  erewrite bind_returns by reflexivity.
  replace ((Z.of_nat (List.length numeric) + 1 - 1) / 1)
    with (Z.of_nat (List.length numeric)) by (rewrite Z.div_1_r; lia).
  erewrite bind_returns; [| apply plt_subplots_silent; try lia].
  assert (Hin : incl numeric (df_columns data)).
  { unfold numeric, numeric_of. intros c Hc. now apply filter_In in Hc. }
  assert (Hax : forall row col,
            axes_getitem
              (squeeze (Z.of_nat (List.length numeric)) 1
                 (grid_refs (next_num figs) (Z.of_nat (List.length numeric)) 1)) row col
            = Err IndexError).
  { intros row col. unfold squeeze.
    replace (Z.of_nat (List.length numeric) =? 1) with false
      by (symmetry; apply Z.eqb_neq; lia).
    reflexivity. }
  destruct numeric as [|c cs]; [simpl in Hn; lia|].
  eexists. apply bind_raises. simpl for_each. apply bind_raises. simpl fst. simpl snd.
  apply plot_column_no_axes; auto; [apply Hin; now left | lia].
Qed.

Lemma create_subplots_unrendered_silent (refusal : bool -> chart -> option exn)
    (data : DataFrame) (plot_type : string) (num_cols : Z) (s : world) :
  unique_columns data ->
  ~ (2 <= num_cols < Z.of_nat (List.length (numeric_of data))) ->
  exists e t, create_subplots Sample.silent refusal data plot_type num_cols s = Raises e t.
Proof.
  intros Hu Hnot.
  destruct (Z.lt_trichotomy num_cols 0) as [Hneg | [Hzero | Hpos]].
  - destruct (create_subplots_negative_silent refusal data plot_type num_cols s Hu Hneg)
      as [t E].
    eauto.
  - subst num_cols. exists ZeroDivisionError, s.
    unfold create_subplots. rewrite (numeric_column_names _ Hu).
    erewrite bind_returns by reflexivity. reflexivity.
  - destruct (numeric_of data) as [|c cs] eqn:En.
    + eexists. eexists. apply create_subplots_no_numeric_silent; auto. lia.
    + rewrite <- En in *.
      destruct (Z_le_gt_dec (Z.of_nat (List.length (numeric_of data))) num_cols) as [Hle | Hgt].
      * eexists. eexists. apply create_subplots_single_row_silent; auto.
        rewrite En in *. simpl List.length in *. lia.
      * assert (num_cols = 1) by lia. subst num_cols.
        destruct (create_subplots_single_column_silent refusal data plot_type s Hu)
          as [t E]; [lia | eauto].
Qed.

(** X3. The layout law on the grids that are rendered.  With at least
    two grid columns, more numeric columns than that, no chart that
    seaborn refuses and ASCII column names, [create_subplots] returns; the
    figure it shows has [num_rows] rows with
    [(num_rows - 1) * num_cols < n <= num_rows * num_cols], that is
    [ceil(n / num_cols)], one cell per grid position, the chart of the
    [i]-th numeric column in cell [i] and every later cell hidden and
    empty. *)
Theorem rendered_grid_layout (advisories : libcall -> list warning)
    (refusal : bool -> chart -> option exn) (data : DataFrame)
    (plot_type : string) (num_cols : Z) (s : world) :
  unique_columns data ->
  Warnings.tolerant s = true ->
  2 <= num_cols < Z.of_nat (List.length (numeric_of data)) ->
  draws refusal (use_inf_as_na s) plot_type data = true ->
  ascii_names (numeric_of data) = true ->
  exists s' fig,
    create_subplots advisories refusal data plot_type num_cols s = Returns tt s' /\
    shown s' = shown s ++ rev (fig :: open_figures s) /\
    snd (fig_grid fig) = num_cols /\
    (let n := Z.of_nat (List.length (numeric_of data)) in
     let num_rows := fst (fig_grid fig) in
     (num_rows - 1) * num_cols < n <= num_rows * num_cols /\
     List.length (fig_axes fig) = Z.to_nat (num_rows * num_cols)) /\
    (forall i c, nth_error (numeric_of data) i = Some c ->
       nth_error (fig_axes fig) i = Some (chart_cell plot_type c)) /\
    (forall i, (List.length (numeric_of data) <= i < List.length (fig_axes fig))%nat ->
       nth_error (fig_axes fig) i = Some hidden_cell).
Proof.
  intros Hu Hs Hn Hdraws _.
  destruct (create_subplots_grid advisories refusal data plot_type num_cols s Hu Hs Hn Hdraws)
    as [s' [E [_ [Hshown _]]]].
  exists s'. eexists. split; [exact E|]. split; [exact Hshown|].
  split; [reflexivity|].
  split; [apply (chart_grid_rows _ plot_type (numeric_of data) num_cols); lia|].
  unfold chart_grid. simpl fig_axes. split.
  - intros i c Hi. rewrite nth_error_app1.
    + now apply nth_error_map_some.
    + rewrite length_map. apply nth_error_Some. congruence.
  - intros i [Hlo Hhi]. rewrite length_app, length_map, repeat_length in Hhi.
    rewrite nth_error_app2 by (rewrite length_map; lia).
    rewrite length_map. apply nth_error_repeat. lia.
Qed.

(** X4. [create_subplots] returns exactly when the grid has at least two
    columns, the table more numeric columns than the grid has columns, and
    seaborn refuses the chart of none of them: every other width or table
    ends in an exception. *)
Theorem create_subplots_returns_iff (advisories : libcall -> list warning)
    (refusal : bool -> chart -> option exn)
    (data : DataFrame) (plot_type : string) (num_cols : Z) (s : world) :
  unique_columns data ->
  Warnings.tolerant s = true ->
  (exists s', create_subplots advisories refusal data plot_type num_cols s = Returns tt s')
  <->
  2 <= num_cols < Z.of_nat (List.length (numeric_of data)) /\
  draws refusal (use_inf_as_na s) plot_type data = true.
Proof.
  intros Hu Hs.
  assert (Hraises : forall e t,
            create_subplots Sample.silent refusal data plot_type num_cols s = Raises e t ->
            ~ exists s', create_subplots advisories refusal data plot_type num_cols s
                         = Returns tt s').
  { intros e t Et [s' E].
    destruct (transfer_raises _ _ s _ _
                (sim_create_subplots advisories Sample.silent refusal data plot_type num_cols)
                Hs Et) as [t' [Et' _]].
    congruence. }
  split.
  - intros Hret.
    destruct (Z_le_gt_dec 2 num_cols) as [H2 | H2];
      [destruct (Z_lt_ge_dec num_cols (Z.of_nat (List.length (numeric_of data))))
         as [Hn | Hn] |].
    + split; [lia|].
      destruct (draws refusal (use_inf_as_na s) plot_type data) eqn:Hd; [reflexivity|].
      destruct (create_subplots_refused_silent refusal data plot_type num_cols s Hu
                  (conj H2 Hn) Hd) as [e [t Et]].
      exfalso. exact (Hraises e t Et Hret).
    + destruct (create_subplots_unrendered_silent refusal data plot_type num_cols s Hu)
        as [e [t Et]]; [lia|].
      exfalso. exact (Hraises e t Et Hret).
    + destruct (create_subplots_unrendered_silent refusal data plot_type num_cols s Hu)
        as [e [t Et]]; [lia|].
      exfalso. exact (Hraises e t Et Hret).
  - intros [Hn Hdraws].
    destruct (create_subplots_grid advisories refusal data plot_type num_cols s Hu Hs Hn
                Hdraws) as [s' [E _]].
    now exists s'.
Qed.

(** X5. A plot type that is neither ['boxplot'] nor ['histplot'] is not
    refused: the grid is shown with a title on every populated cell and no
    chart in any cell, under the figure title "Histogram Analysis".  The
    titles are stated for ASCII column names. *)
Theorem unknown_plot_type_draws_nothing (advisories : libcall -> list warning)
    (refusal : bool -> chart -> option exn)
    (data : DataFrame) (plot_type : string) (num_cols : Z) (s : world) :
  unique_columns data ->
  Warnings.tolerant s = true ->
  2 <= num_cols < Z.of_nat (List.length (numeric_of data)) ->
  ascii_names (numeric_of data) = true ->
  String.eqb plot_type "boxplot" = false ->
  String.eqb plot_type "histplot" = false ->
  exists s' fig,
    create_subplots advisories refusal data plot_type num_cols s = Returns tt s' /\
    shown s' = shown s ++ rev (fig :: open_figures s) /\
    fig_suptitle fig = Some "Histogram Analysis" /\
    (forall cell, In cell (fig_axes fig) -> ax_charts cell = []) /\
    (forall i c, nth_error (numeric_of data) i = Some c ->
       nth_error (map ax_title (fig_axes fig)) i = Some (PyStr.capitalize (col_name c))).
Proof.
  intros Hu Hs Hn _ Hbox Hhist.
  destruct (create_subplots_grid advisories refusal data plot_type num_cols s Hu Hs Hn
              (draws_unknown_plot_type refusal _ plot_type data Hbox Hhist))
    as [s' [E [_ [Hshown _]]]].
  exists s'. eexists. split; [exact E|]. split; [exact Hshown|].
  unfold chart_grid, grid_title. simpl. rewrite Hbox.
  split; [reflexivity|]. split.
  - intros cell Hin. apply in_app_iff in Hin. destruct Hin as [Hin | Hin].
    + apply in_map_iff in Hin. destruct Hin as [c [<- _]].
      unfold chart_cell, charts_of. simpl. now rewrite Hbox, Hhist.
    + apply repeat_spec in Hin. now subst cell.
  - intros i c Hi. rewrite map_app, nth_error_app1.
    + rewrite map_map.
      now apply (nth_error_map_some (fun x => ax_title (chart_cell plot_type x))).
    + rewrite !length_map. apply nth_error_Some. congruence.
Qed.

(** X6. A table without a numeric column is not drawn as an empty grid:
    for a positive width the row count is 0, the figure is made with
    height 0, and [plt.subplots] then refuses the grid with [ValueError];
    the figure stays open and nothing is shown. *)
Theorem no_numeric_column_grid_raises (advisories : libcall -> list warning)
    (refusal : bool -> chart -> option exn)
    (data : DataFrame) (plot_type : string) (num_cols : Z) (s : world) :
  unique_columns data ->
  Warnings.tolerant s = true ->
  numeric_of data = [] -> 1 <= num_cols ->
  exists s',
    create_subplots advisories refusal data plot_type num_cols s = Raises ValueError s' /\
    shown s' = shown s /\
    open_figures s'
    = mkFigure (next_num (open_figures s)) (Some (15, 0)) (0, 0) [] None false
      :: open_figures s.
Proof.
  intros Hu Hs Hnone Hw.
  destruct (transfer_raises _ _ s _ _
              (sim_create_subplots advisories Sample.silent refusal data plot_type num_cols) Hs
              (create_subplots_no_numeric_silent refusal data plot_type num_cols s Hu Hnone Hw))
    as [s' [E [[_ [_ [A3 A4]]] _]]].
  exists s'. simpl in *. auto.
Qed.

(** X7. Neither chart operation touches the pandas option
    [mode.use_inf_as_na], whether it returns or raises: only the driver
    sets it. *)
Theorem chart_operations_keep_option (advisories : libcall -> list warning)
    (refusal : bool -> chart -> option exn) (data : DataFrame) (plot_type : string) (num_cols : Z)
    (s : world) :
  use_inf_as_na (final (create_subplots advisories refusal data plot_type num_cols s))
  = use_inf_as_na s /\
  use_inf_as_na (final (create_heatmap advisories data s)) = use_inf_as_na s.
Proof.
  split; [apply keeps_create_subplots | apply keeps_create_heatmap].
Qed.

(** ** More of the statistics report *)

Lemma null_count_with_infinities (c : column) :
  null_count true c = null_count false c + infinities c.
Proof.
  unfold null_count, infinities. rewrite <- Nat2Z.inj_add. f_equal.
  induction (col_values c) as [|v vs IH]; simpl; auto.
  destruct v; simpl; rewrite IH; lia.
Qed.

Lemma null_count_bounds (flag : bool) (c : column) :
  0 <= null_count flag c <= Z.of_nat (List.length (col_values c)).
Proof.
  unfold null_count. split; [lia|]. apply Nat2Z.inj_le, filter_length_le.
Qed.

(** X8. [data_isnull] returns one row per column, labelled by the column
    name, with the single field [null_count]: the number of NaN cells of
    the column, to which the infinite cells are added when the option
    [mode.use_inf_as_na] is set.  It changes nothing. *)
Theorem data_isnull_counts (data : DataFrame) (s : world) :
  unique_columns data ->
  exists nulls,
    data_isnull data s = Returns nulls s /\
    fr_index nulls = map name_label (df_columns data) /\
    fr_columns nulls = [LStr "null_count"] /\
    forall c, In c (df_columns data) ->
      Frames.cell nulls (name_label c) (LStr "null_count")
      = Some (SInt (null_count false c
                    + (if use_inf_as_na s then infinities c else 0))).
Proof.
  intros Hu. eexists. split; [reflexivity|].
  unfold Frames.rename_columns, Frames.to_frame, isnull_sum. simpl.
  rewrite !map_map. simpl. split; [reflexivity|]. split; [reflexivity|].
  intros c Hc.
  rewrite (cell_of_row (df_columns data) [LStr "null_count"]
             (fun x => [SInt (null_count (use_inf_as_na s) x)]) c _ (nodupb_sound _ Hu) Hc).
  simpl. do 2 f_equal.
  destruct (use_inf_as_na s); [apply null_count_with_infinities | lia].
Qed.

(** X9. On the row of every column the report has the dtype of the
    column under [data_type] and its number of missing cells under
    [null_count], and the call leaves the pandas option, the printed text
    and the figures as they were. *)
Theorem stats_report_type_and_nulls (advisories : libcall -> list warning)
    (read_csv : string -> result DataFrame)
    (describe_numeric : bool -> column -> numeric_summary)
    (describe_object : bool -> column -> object_summary)
    (csv : string) (data : DataFrame) (s : world) :
  read_csv csv = Ok data ->
  unique_columns data -> df_columns data <> [] ->
  Warnings.tolerant s = true ->
  exists report s',
    stats_report advisories read_csv describe_numeric describe_object csv s
    = Returns report s' /\
    agree s' s /\
    forall c, In c (df_columns data) ->
      Frames.cell report (name_label c) (LStr "data_type") = Some (SDtype (col_dtype c)) /\
      Frames.cell report (name_label c) (LStr "null_count")
      = Some (SInt (null_count (use_inf_as_na s) c)).
Proof.
  intros Hread Hu Hne Hs.
  destruct (stats_report_frame advisories read_csv describe_numeric describe_object
              csv data s Hread Hu Hne Hs) as [s' [E [Ha _]]].
  rewrite (report_rows describe_numeric describe_object _ data Hu) in E.
  eexists. exists s'. split; [exact E|]. split; [exact Ha|].
  intros c Hc.
  rewrite !(cell_of_row (df_columns data) _ _ c _ (nodupb_sound _ Hu) Hc).
  split; reflexivity.
Qed.

(** X10. On the row of a numeric column the report carries the seven
    statistics that [describe] computed for that very column, and the
    [count] of [describe] is not a field of the report. *)
Theorem stats_report_numeric_row (advisories : libcall -> list warning)
    (read_csv : string -> result DataFrame)
    (describe_numeric : bool -> column -> numeric_summary)
    (describe_object : bool -> column -> object_summary)
    (csv : string) (data : DataFrame) (c : column) (s : world) :
  read_csv csv = Ok data ->
  unique_columns data ->
  In c (df_columns data) -> is_numeric c = true ->
  Warnings.tolerant s = true ->
  exists report s',
    stats_report advisories read_csv describe_numeric describe_object csv s
    = Returns report s' /\
    fr_columns report
    = [LStr "entry_count"; LStr "data_type"; LStr "null_count"; LStr "mean"; LStr "std";
       LStr "min"; LStr "25%"; LStr "50%"; LStr "75%"; LStr "max"] /\
    (forall r, Frames.cell report r (LStr "count") = None) /\
    let stats := describe_numeric (use_inf_as_na s) c in
    let cell := Frames.cell report (name_label c) in
    cell (LStr "mean") = Some (ns_mean stats) /\ cell (LStr "std") = Some (ns_std stats) /\
    cell (LStr "min") = Some (ns_min stats) /\ cell (LStr "25%") = Some (ns_q25 stats) /\
    cell (LStr "50%") = Some (ns_q50 stats) /\ cell (LStr "75%") = Some (ns_q75 stats) /\
    cell (LStr "max") = Some (ns_max stats).
Proof.
  intros Hread Hu Hc Hq Hs.
  assert (Hne : df_columns data <> []) by (intros E; rewrite E in Hc; contradiction).
  destruct (stats_report_frame advisories read_csv describe_numeric describe_object
              csv data s Hread Hu Hne Hs) as [s' [E _]].
  rewrite (report_rows describe_numeric describe_object _ data Hu) in E.
  assert (Hnumber : is_number c = true) by now apply numeric_is_number.
  assert (Hnum : In c (numbers_of data)) by (apply filter_In; auto).
  destruct (numbers_of data) as [|n0 ns] eqn:En; [contradiction|].
  eexists. exists s'. split; [exact E|]. split; [reflexivity|]. split.
  - intros r. unfold Frames.cell. simpl.
    now destruct (Frames.position r (map name_label (df_columns data))).
  - cbv zeta.
    rewrite !(cell_of_row (df_columns data) _ _ c _ (nodupb_sound _ Hu) Hc).
    rewrite Hnumber. simpl. repeat split.
Qed.

(** X11. For a table in which no column has a number dtype ([int64],
    [float64], [uint64]) the report has the fields [unique], [top] and
    [freq] after the first three, and the row of every column carries the
    object summary of that column. *)
Theorem stats_report_categorical_rows (advisories : libcall -> list warning)
    (read_csv : string -> result DataFrame)
    (describe_numeric : bool -> column -> numeric_summary)
    (describe_object : bool -> column -> object_summary)
    (csv : string) (data : DataFrame) (s : world) :
  read_csv csv = Ok data ->
  unique_columns data -> df_columns data <> [] -> numbers_of data = [] ->
  Warnings.tolerant s = true ->
  exists report s',
    stats_report advisories read_csv describe_numeric describe_object csv s
    = Returns report s' /\
    fr_columns report
    = [LStr "entry_count"; LStr "data_type"; LStr "null_count";
       LStr "unique"; LStr "top"; LStr "freq"] /\
    forall c, In c (df_columns data) ->
      let summary := describe_object (use_inf_as_na s) c in
      Frames.cell report (name_label c) (LStr "unique") = Some (os_unique summary) /\
      Frames.cell report (name_label c) (LStr "top") = Some (os_top summary) /\
      Frames.cell report (name_label c) (LStr "freq") = Some (os_freq summary).
Proof.
  intros Hread Hu Hne Hnone Hs.
  destruct (stats_report_frame advisories read_csv describe_numeric describe_object
              csv data s Hread Hu Hne Hs) as [s' [E _]].
  rewrite (report_rows describe_numeric describe_object _ data Hu) in E.
  rewrite Hnone in E.
  eexists. exists s'. split; [exact E|]. split; [reflexivity|].
  intros c Hc. cbv zeta.
  rewrite !(cell_of_row (df_columns data) _ _ c _ (nodupb_sound _ Hu) Hc).
  repeat split.
Qed.

(** X12. In the report of a table whose columns all have one value per
    index entry, no row has more missing cells than entries:
    [0 <= null_count <= entry_count]. *)
Theorem stats_report_nulls_within_entries (advisories : libcall -> list warning)
    (read_csv : string -> result DataFrame)
    (describe_numeric : bool -> column -> numeric_summary)
    (describe_object : bool -> column -> object_summary)
    (csv : string) (data : DataFrame) (s : world) :
  read_csv csv = Ok data ->
  unique_columns data -> df_columns data <> [] -> aligned data ->
  Warnings.tolerant s = true ->
  exists report s',
    stats_report advisories read_csv describe_numeric describe_object csv s
    = Returns report s' /\
    forall c, In c (df_columns data) ->
      exists nulls entries,
        Frames.cell report (name_label c) (LStr "null_count") = Some (SInt nulls) /\
        Frames.cell report (name_label c) (LStr "entry_count") = Some (SInt entries) /\
        0 <= nulls <= entries.
Proof.
  intros Hread Hu Hne Hal Hs.
  destruct (stats_report_frame advisories read_csv describe_numeric describe_object
              csv data s Hread Hu Hne Hs) as [s' [E _]].
  rewrite (report_rows describe_numeric describe_object _ data Hu) in E.
  eexists. exists s'. split; [exact E|].
  intros c Hc.
  exists (null_count (use_inf_as_na s) c), (shape0 data).
  rewrite !(cell_of_row (df_columns data) _ _ c _ (nodupb_sound _ Hu) Hc).
  split; [reflexivity|]. split; [reflexivity|].
  pose proof (null_count_bounds (use_inf_as_na s) c) as B.
  unfold shape0. rewrite <- (Hal c Hc). exact B.
Qed.

(** X13. A file that [read_csv] cannot load makes [stats_report] raise
    the loader's exception itself; nothing is shown, printed or set. *)
Theorem stats_report_propagates_load_error (advisories : libcall -> list warning)
    (read_csv : string -> result DataFrame)
    (describe_numeric : bool -> column -> numeric_summary)
    (describe_object : bool -> column -> object_summary)
    (csv : string) (e : exn) (s : world) :
  read_csv csv = Err e ->
  Warnings.tolerant s = true ->
  exists s',
    stats_report advisories read_csv describe_numeric describe_object csv s = Raises e s' /\
    agree s' s.
Proof.
  intros Hread Hs.
  assert (Hsilent : stats_report Sample.silent read_csv describe_numeric describe_object
                      csv s = Raises e s).
  { unfold stats_report. apply bind_raises.
    unfold data_input, advise. simpl. unfold bind, ret. now rewrite Hread. }
  destruct (transfer_raises _ _ s _ _
              (sim_stats_report advisories Sample.silent read_csv describe_numeric
                 describe_object csv) Hs Hsilent) as [s' [E [A _]]].
  now exists s'.
Qed.

(** X20. The report and the classifier do not take the same columns for
    numeric.  An unsigned column ([uint64]) is left out by the classifier,
    hence by the chart grids and the heatmap, but [describe()] summarises
    it: its row of the report holds the seven statistics computed for it,
    as does the row of every column whose dtype is a number. *)
Theorem stats_report_describes_number_columns (advisories : libcall -> list warning)
    (read_csv : string -> result DataFrame)
    (describe_numeric : bool -> column -> numeric_summary)
    (describe_object : bool -> column -> object_summary)
    (csv : string) (data : DataFrame) (c : column) (s : world) :
  read_csv csv = Ok data ->
  unique_columns data ->
  In c (df_columns data) -> is_number c = true ->
  Warnings.tolerant s = true ->
  (col_dtype c = uint64 -> ~ In c (numeric_of data)) /\
  exists report s',
    stats_report advisories read_csv describe_numeric describe_object csv s
    = Returns report s' /\
    let stats := describe_numeric (use_inf_as_na s) c in
    let cell := Frames.cell report (name_label c) in
    cell (LStr "mean") = Some (ns_mean stats) /\ cell (LStr "std") = Some (ns_std stats) /\
    cell (LStr "min") = Some (ns_min stats) /\ cell (LStr "25%") = Some (ns_q25 stats) /\
    cell (LStr "50%") = Some (ns_q50 stats) /\ cell (LStr "75%") = Some (ns_q75 stats) /\
    cell (LStr "max") = Some (ns_max stats).
Proof.
  intros Hread Hu Hc Hq Hs. split.
  - intros Hd Hin. apply filter_In in Hin. destruct Hin as [_ Hn].
    unfold is_numeric in Hn. rewrite Hd in Hn. discriminate.
  - assert (Hne : df_columns data <> []) by (intros E; rewrite E in Hc; contradiction).
    destruct (stats_report_frame advisories read_csv describe_numeric describe_object
                csv data s Hread Hu Hne Hs) as [s' [E _]].
    rewrite (report_rows describe_numeric describe_object _ data Hu) in E.
    assert (Hnum : In c (numbers_of data)) by (apply filter_In; auto).
    destruct (numbers_of data) as [|n0 ns] eqn:En; [contradiction|].
    eexists. exists s'. split; [exact E|]. cbv zeta.
    rewrite !(cell_of_row (df_columns data) _ _ c _ (nodupb_sound _ Hu) Hc).
    rewrite Hq. simpl. repeat split.
Qed.

(** ** More of the report driver *)

(** The driver ends as its statements do when run, without any library
    warning, under the filter that [simplefilter('ignore')] installs. *)
Lemma driver_via_silent (advisories : libcall -> list warning)
    (read_csv : string -> result DataFrame) (refusal : bool -> chart -> option exn)
    (csv : string) (num_cols : Z) (s : world) :
  let o := initial_analysis advisories read_csv refusal csv num_cols s in
  let o' := analysis_body Sample.silent read_csv refusal csv num_cols
              (set_filters (mkFilter act_ignore None :: filters s) s) in
  same_result o o' /\ agree (final o) (final o') /\ filters (final o) = filters s.
Proof.
  cbv zeta.
  set (s1 := set_filters (mkFilter act_ignore None :: filters s) s).
  assert (E : initial_analysis advisories read_csv refusal csv num_cols s
              = match analysis_body advisories read_csv refusal csv num_cols s1 with
                | Returns a s' => Returns a (set_filters (filters s) s')
                | Raises e s' => Raises e (set_filters (filters s) s')
                end) by reflexivity.
  rewrite E. clear E.
  destruct (sim_analysis_body advisories Sample.silent refusal read_csv csv num_cols
              s1 s1 (agree_refl s1) (tolerant_ignore_first s) (tolerant_ignore_first s))
    as [Hr [Ha _]].
  destruct (analysis_body advisories read_csv refusal csv num_cols s1) as [a t1 | e t1],
           (analysis_body Sample.silent read_csv refusal csv num_cols s1) as [b t2 | e' t2];
    simpl in *; try contradiction; repeat split; auto; apply Ha.
Qed.

Lemma body_starts_silent (read_csv : string -> result DataFrame)
    (refusal : bool -> chart -> option exn)
    (csv : string) (num_cols : Z) (s : world) :
  analysis_body Sample.silent read_csv refusal csv num_cols s
  = (data <- lift (read_csv csv) ;;
     print (String "010" EmptyString) ;;
     create_subplots Sample.silent refusal data "boxplot" num_cols ;;
     print (String "010" (String "010" EmptyString)) ;;
     create_subplots Sample.silent refusal data "histplot" num_cols ;;
     print (String "010" (String "010" EmptyString)) ;;
     create_heatmap Sample.silent data) (set_use_inf_as_na true s).
Proof. reflexivity. Qed.


(** X15. When the table has between one and [num_cols] numeric columns,
    the driver ends with the exception of the box-plot grid: it has
    printed its first blank lines only, shown nothing, left the blank
    figure of the grid open, and drawn neither histograms nor heatmap. *)
Theorem initial_analysis_propagates_grid_error (advisories : libcall -> list warning)
    (read_csv : string -> result DataFrame) (refusal : bool -> chart -> option exn)
    (csv : string) (num_cols : Z) (data : DataFrame) (s : world) :
  read_csv csv = Ok data ->
  unique_columns data ->
  1 <= Z.of_nat (List.length (numeric_of data)) <= num_cols ->
  exists s',
    initial_analysis advisories read_csv refusal csv num_cols s
    = Raises (if num_cols =? 1 then TypeError else IndexError) s' /\
    shown s' = shown s /\
    open_figures s'
    = mkFigure (next_num (open_figures s)) (Some (15, 5)) (1, num_cols)
        (repeat blank_axes (Z.to_nat num_cols)) None false :: open_figures s /\
    stdout s' = stdout s ++ [String "010" (String "010" EmptyString)] /\
    filters s' = filters s.
Proof.
  intros Hread Hu Hn.
  destruct (driver_via_silent advisories read_csv refusal csv num_cols s)
    as [Hr [Ha Hf]].
  rewrite body_starts_silent, Hread in Hr, Ha.
  erewrite bind_returns in Hr, Ha by reflexivity.
  erewrite bind_returns in Hr, Ha by reflexivity.
  erewrite bind_raises in Hr, Ha by (apply create_subplots_single_row_silent; assumption).
  destruct (initial_analysis advisories read_csv refusal csv num_cols s) as [[] s' | e s'];
    simpl in Hr; [contradiction|]. subst e.
  exists s'. split; [reflexivity|].
  destruct Ha as [_ [A2 [A3 A4]]]. simpl in *.
  rewrite A4, A3, A2. destruct s as [u fl er out figs sh]. simpl. auto.
Qed.

(** X16. When [read_csv] raises, the driver raises the same exception:
    nothing is printed, no figure is made or shown, and the warnings
    filters are put back. *)
Theorem initial_analysis_propagates_load_error (advisories : libcall -> list warning)
    (read_csv : string -> result DataFrame) (refusal : bool -> chart -> option exn)
    (csv : string) (num_cols : Z) (e : exn) (s : world) :
  read_csv csv = Err e ->
  exists s',
    initial_analysis advisories read_csv refusal csv num_cols s = Raises e s' /\
    shown s' = shown s /\ open_figures s' = open_figures s /\ stdout s' = stdout s /\
    filters s' = filters s.
Proof.
  intros Hread.
  destruct (driver_via_silent advisories read_csv refusal csv num_cols s)
    as [Hr [Ha Hf]].
  rewrite body_starts_silent, Hread in Hr, Ha.
  erewrite bind_raises in Hr, Ha by reflexivity.
  destruct (initial_analysis advisories read_csv refusal csv num_cols s) as [[] s' | e' s'];
    simpl in Hr; [contradiction|]. subst e'.
  exists s'. split; [reflexivity|].
  destruct Ha as [_ [A2 [A3 A4]]]. simpl in *. auto.
Qed.

Lemma option_set_by_driver (advisories : libcall -> list warning)
    (read_csv : string -> result DataFrame) (refusal : bool -> chart -> option exn)
    (csv : string) (num_cols : Z) (s : world) :
  use_inf_as_na (final (initial_analysis advisories read_csv refusal csv num_cols s))
  = true.
Proof.
  destruct (driver_via_silent advisories read_csv refusal csv num_cols s)
    as [_ [[A1 _] _]].
  rewrite A1, body_starts_silent.
  match goal with |- use_inf_as_na (final (?m ?s1)) = true =>
    assert (K : keeps_option m)
  end.
  { pose proof keeps_create_subplots. pose proof keeps_create_heatmap. keeps_steps. }
  now rewrite K.
Qed.

(** X17. A report asked for after the driver has run in the same process
    counts the infinite cells of a column among its missing ones: its
    [null_count] is the number of NaN cells plus the number of infinite
    cells. *)
Theorem stats_report_after_driver_counts_infinities
    (advisories : libcall -> list warning)
    (read_csv : string -> result DataFrame) (refusal : bool -> chart -> option exn)
    (describe_numeric : bool -> column -> numeric_summary)
    (describe_object : bool -> column -> object_summary)
    (analysed : string) (num_cols : Z) (csv : string) (data : DataFrame) (s : world) :
  read_csv csv = Ok data ->
  unique_columns data -> df_columns data <> [] ->
  Warnings.tolerant s = true ->
  let after := final (initial_analysis advisories read_csv refusal analysed num_cols s) in
  exists report s',
    stats_report advisories read_csv describe_numeric describe_object csv after
    = Returns report s' /\
    forall c, In c (df_columns data) ->
      Frames.cell report (name_label c) (LStr "null_count")
      = Some (SInt (null_count false c + infinities c)).
Proof.
  intros Hread Hu Hne Hs. cbv zeta.
  set (after := final (initial_analysis advisories read_csv refusal analysed num_cols s)).
  assert (Hflag : use_inf_as_na after = true) by apply option_set_by_driver.
  assert (Hfilters : filters after = filters s).
  { unfold after, initial_analysis. now rewrite final_catch_warnings. }
  assert (Hafter : Warnings.tolerant after = true)
    by (apply (tolerant_filters _ _ Hfilters Hs)).
  destruct (stats_report_frame advisories read_csv describe_numeric describe_object
              csv data after Hread Hu Hne Hafter) as [s' [E _]].
  rewrite (report_rows describe_numeric describe_object _ data Hu) in E.
  eexists. exists s'. split; [exact E|].
  intros c Hc.
  rewrite (cell_of_row (df_columns data) _ _ c _ (nodupb_sound _ Hu) Hc).
  rewrite Hflag, null_count_with_infinities. reflexivity.
Qed.

(** ** The error stream under the driver *)

Lemma muted_filters (s t : world) : filters t = filters s -> muted s -> muted t.
Proof. intros E [fs H]. exists fs. congruence. Qed.

Lemma quiet_ret {A : Type} (a : A) : quiet_when_muted (ret a).
Proof. intros s _. split; reflexivity. Qed.

Lemma quiet_raise {A : Type} (e : exn) : quiet_when_muted (@raise A e).
Proof. intros s _. split; reflexivity. Qed.

Lemma quiet_lift {A : Type} (r : result A) : quiet_when_muted (lift r).
Proof. destruct r; [apply quiet_ret | apply quiet_raise]. Qed.

Lemma quiet_bind {A B : Type} (m : M A) (k : A -> M B) :
  quiet_when_muted m -> (forall a, quiet_when_muted (k a)) -> quiet_when_muted (bind m k).
Proof.
  intros Hm Hk s Hs. unfold bind. destruct (Hm s Hs) as [E F].
  destruct (m s) as [a s' | e s']; simpl in *; [|auto].
  destruct (Hk a s' (muted_filters _ _ F Hs)) as [E' F']. split; congruence.
Qed.

Lemma quiet_for_each {A : Type} (xs : list A) (f : A -> M unit) :
  (forall x, quiet_when_muted (f x)) -> quiet_when_muted (for_each xs f).
Proof.
  intros H. induction xs as [|x xs IH]; simpl.
  - apply quiet_ret.
  - apply quiet_bind; auto.
Qed.

Lemma quiet_modify (f : world -> world) :
  (forall s, stderr (f s) = stderr s /\ filters (f s) = filters s) ->
  quiet_when_muted (modify f).
Proof. intros H s _. simpl. apply H. Qed.

Lemma quiet_advise (advisories : libcall -> list warning) (c : libcall) :
  quiet_when_muted (advise advisories c).
Proof.
  intros s [fs H]. unfold advise. rewrite (emit_ignored _ s fs H). split; reflexivity.
Qed.

Lemma quiet_new_figure (figsize : option (Z * Z)) : quiet_when_muted (new_figure figsize).
Proof.
  intros s _. unfold new_figure. destruct (bad_size figsize); split; reflexivity.
Qed.

Lemma quiet_on_axes (r : ax_ref) (f : axes -> axes) : quiet_when_muted (on_axes r f).
Proof. apply quiet_modify. intros s. split; reflexivity. Qed.

Lemma quiet_with_gcf (f : figure -> figure) : quiet_when_muted (with_gcf f).
Proof.
  apply quiet_modify. intros s. destruct (open_figures s); split; reflexivity.
Qed.

Lemma quiet_print (text : string) : quiet_when_muted (print text).
Proof. apply quiet_modify. intros s. split; reflexivity. Qed.

Create HintDb quiet.

#[local] Hint Resolve quiet_ret quiet_raise quiet_lift quiet_for_each quiet_advise
  quiet_new_figure quiet_on_axes quiet_with_gcf quiet_print : quiet.

Ltac quiet_steps :=
  repeat first
    [ solve [auto with quiet]
    | apply quiet_bind; [|intro]
    | apply quiet_modify; intros ?; split; reflexivity
    | match goal with |- quiet_when_muted (if ?b then _ else _) => destruct b end ].

Lemma quiet_draw (refusal : bool -> chart -> option exn) (c : chart) (ax : ax_ref) :
  quiet_when_muted (draw refusal c ax).
Proof.
  intros s Hs. unfold draw. destruct (refusal (use_inf_as_na s) c); [split; reflexivity|].
  now apply quiet_on_axes.
Qed.

#[local] Hint Resolve quiet_draw : quiet.

Lemma quiet_create_subplots (advisories : libcall -> list warning)
    (refusal : bool -> chart -> option exn) (data : DataFrame)
    (plot_type : string) (num_cols : Z) :
  quiet_when_muted (create_subplots advisories refusal data plot_type num_cols).
Proof.
  assert (Hplot : forall axs i column,
            quiet_when_muted (plot_column advisories refusal data plot_type num_cols axs i column)).
  { intros. unfold plot_column, sns_boxplot, sns_histplot, set_title. quiet_steps. }
  assert (Hhide : forall axs i, quiet_when_muted (hide_cell num_cols axs i)).
  { intros. unfold hide_cell, axis_off. quiet_steps. }
  unfold create_subplots, plt_subplots, plt_suptitle, plt_tight_layout, plt_show.
  quiet_steps.
Qed.

Lemma quiet_create_heatmap (advisories : libcall -> list warning) (data : DataFrame) :
  quiet_when_muted (create_heatmap advisories data).
Proof.
  unfold create_heatmap, pd_corr, plt_figure, sns_heatmap, plt_title, plt_tight_layout,
    plt_show.
  quiet_steps.
Qed.

Lemma quiet_analysis_body (advisories : libcall -> list warning)
    (read_csv : string -> result DataFrame) (refusal : bool -> chart -> option exn)
    (csv : string) (num_cols : Z) :
  quiet_when_muted (analysis_body advisories read_csv refusal csv num_cols).
Proof.
  pose proof (quiet_create_subplots advisories refusal).
  pose proof (quiet_create_heatmap advisories).
  unfold analysis_body, pd_set_option_use_inf_as_na, data_input. quiet_steps.
Qed.

(** X18. The driver writes no warning to the error stream, whatever the
    libraries issue, whatever filters the process had, and whether it
    returns or raises. *)
Theorem initial_analysis_prints_no_warning (advisories : libcall -> list warning)
    (read_csv : string -> result DataFrame) (refusal : bool -> chart -> option exn)
    (csv : string) (num_cols : Z) (s : world) :
  stderr (final (initial_analysis advisories read_csv refusal csv num_cols s))
  = stderr s.
Proof.
  unfold initial_analysis. rewrite final_catch_warnings. simpl.
  unfold bind at 1. simpl.
  set (s1 := set_filters (mkFilter act_ignore None :: filters s) s).
  assert (Hs1 : muted s1) by (exists (filters s); reflexivity).
  destruct (quiet_analysis_body advisories read_csv refusal csv num_cols s1 Hs1)
    as [E _].
  exact E.
Qed.

(** ** The matrix of the heatmap *)

Lemma corr_entry (data : DataFrame) (i j : nat) :
  entry (corr data) i j
  = if (i <? List.length (df_columns data))%nat && (j <? List.length (df_columns data))%nat
    then Some (corr_cell (df_columns data) i j)
    else None.
Proof.
  unfold entry, corr. simpl fr_rows. set (k := List.length (df_columns data)).
  destruct (i <? k)%nat eqn:Ei.
  - apply Nat.ltb_lt in Ei. rewrite nth_error_map_seq by exact Ei. simpl.
    destruct (j <? k)%nat eqn:Ej.
    + apply Nat.ltb_lt in Ej. now rewrite nth_error_map_seq by exact Ej.
    + apply Nat.ltb_ge in Ej. apply nth_error_None. now rewrite length_map, length_seq.
  - apply Nat.ltb_ge in Ei. simpl.
    replace (nth_error _ i) with (@None (list scalar)); [reflexivity|].
    symmetry. apply nth_error_None. now rewrite length_map, length_seq.
Qed.


(** * The further properties on the sample inputs *)

Lemma repeated_label_raises :
  nodupb (columns Cases.repeated) = false /\
  numeric_data Cases.repeated = Err ValueError /\
  non_numeric_data Cases.repeated = Err ValueError.
Proof.
  split; [reflexivity|].
  apply (classifier_raises_on_repeated_label Cases.repeated). reflexivity.
Defined.

Lemma classifying_people_twice :
  numeric_data (mkDataFrame [0; 1; 2] (numeric_of Sample.people))
  = Ok (mkDataFrame [0; 1; 2] (numeric_of Sample.people)) /\
  non_numeric_data (mkDataFrame [0; 1; 2] (numeric_of Sample.people))
  = Ok (mkDataFrame [0; 1; 2] []).
Proof.
  destruct (classifier_idempotent Sample.people
              (mkDataFrame [0; 1; 2] (numeric_of Sample.people))
              (mkDataFrame [0; 1; 2]
                 (filter (fun c => negb (is_numeric c)) (df_columns Sample.people)))
              eq_refl eq_refl eq_refl) as [H1 [H2 _]].
  split; [exact H1 | exact H2].
Defined.

Lemma layout_of_people :
  exists s' fig,
    create_subplots Sample.noisy Sample.seaborn Sample.people "histplot" 2 Sample.fresh
    = Returns tt s' /\
    shown s' = [fig] /\
    List.length (fig_axes fig) = Z.to_nat (fst (fig_grid fig) * 2) /\
    nth_error (fig_axes fig) 2
    = Some (chart_cell "histplot" (mkColumn "score" int64 [SInt 1; SInt 2; SInt 4])).
Proof.
  destruct (rendered_grid_layout Sample.noisy Sample.seaborn Sample.people "histplot" 2
              Sample.fresh eq_refl eq_refl)
    as [s' [fig [E [Hshown [_ [[_ Hlen] [Hcells _]]]]]]].
  - simpl. lia.
  - reflexivity.
  - reflexivity.
  - exists s', fig. split; [exact E|]. split; [exact Hshown|].
    split; [exact Hlen|]. apply Hcells. reflexivity.
Defined.

(** A grid over a column without any value is not rendered: seaborn
    refuses its box plot. *)
Lemma all_missing_column_is_not_rendered :
  draws Sample.seaborn false "boxplot" Cases.all_missing = false /\
  ~ exists s',
      create_subplots Sample.noisy Sample.seaborn Cases.all_missing "boxplot" 2 Sample.fresh
      = Returns tt s'.
Proof.
  split; [reflexivity|]. intros H.
  apply (create_subplots_returns_iff Sample.noisy Sample.seaborn Cases.all_missing
           "boxplot" 2 Sample.fresh eq_refl eq_refl) in H.
  destruct H as [_ H]. discriminate H.
Defined.

Lemma violin_plots_of_people :
  exists s' fig,
    create_subplots Sample.noisy Sample.seaborn Sample.people "violin" 2 Sample.fresh
    = Returns tt s' /\
    shown s' = [fig] /\
    fig_suptitle fig = Some "Histogram Analysis" /\
    forall cell, In cell (fig_axes fig) -> ax_charts cell = [].
Proof.
  destruct (unknown_plot_type_draws_nothing Sample.noisy Sample.seaborn Sample.people
              "violin" 2 Sample.fresh eq_refl eq_refl)
    as [s' [fig [E [Hshown [Htitle [Hempty _]]]]]]; try reflexivity.
  - simpl. lia.
  - exists s', fig. auto.
Defined.

Lemma text_only_grid_raises :
  exists s',
    create_subplots Sample.noisy Sample.seaborn Sample.text_only "boxplot" 2 Sample.fresh
    = Raises ValueError s' /\
    shown s' = [].
Proof.
  destruct (no_numeric_column_grid_raises Sample.noisy Sample.seaborn Sample.text_only
              "boxplot" 2 Sample.fresh eq_refl eq_refl eq_refl) as [s' [E [Hshown _]]].
  - lia.
  - exists s'. auto.
Defined.

Lemma null_counts_of_overflowed :
  exists nulls,
    data_isnull Cases.overflowed (mkWorld true [] [] [] [] [])
    = Returns nulls (mkWorld true [] [] [] [] []) /\
    Frames.cell nulls (LStr "ratio") (LStr "null_count") = Some (SInt 2).
Proof.
  destruct (data_isnull_counts Cases.overflowed (mkWorld true [] [] [] [] []) eq_refl)
    as [nulls [E [_ [_ Hcell]]]].
  exists nulls. split; [exact E|].
  apply (Hcell (mkColumn "ratio" float64 [SInf false; SNaN; SFloat (3 # 4)])).
  simpl. auto.
Defined.

Lemma type_and_nulls_of_people :
  exists report s',
    stats_report Sample.noisy Sample.files Sample.count_only Sample.first_value
      "people.csv" Sample.fresh = Returns report s' /\
    Frames.cell report (LStr "total income") (LStr "data_type") = Some (SDtype float64) /\
    Frames.cell report (LStr "total income") (LStr "null_count") = Some (SInt 1).
Proof.
  destruct (stats_report_type_and_nulls Sample.noisy Sample.files Sample.count_only
              Sample.first_value "people.csv" Sample.people Sample.fresh eq_refl eq_refl)
    as [report [s' [E [_ Hcells]]]].
  - discriminate.
  - reflexivity.
  - exists report, s'. split; [exact E|].
    apply (Hcells (mkColumn "total income" float64 [SFloat (5 # 2); SNaN; SFloat (7 # 1)])).
    simpl. auto.
Defined.

Lemma numeric_row_of_age :
  exists report s',
    stats_report Sample.noisy Sample.files Sample.count_only Sample.first_value
      "people.csv" Sample.fresh = Returns report s' /\
    Frames.cell report (LStr "age") (LStr "count") = None /\
    Frames.cell report (LStr "age") (LStr "mean") = Some SNaN.
Proof.
  destruct (stats_report_numeric_row Sample.noisy Sample.files Sample.count_only
              Sample.first_value "people.csv" Sample.people
              (mkColumn "age" int64 [SInt 30; SInt 41; SInt 25]) Sample.fresh eq_refl eq_refl)
    as [report [s' [E [_ [Hcount [Hmean _]]]]]].
  - simpl. auto.
  - reflexivity.
  - reflexivity.
  - exists report, s'. split; [exact E|]. split; [apply Hcount | exact Hmean].
Defined.

Lemma categorical_rows_of_text_only :
  exists report s',
    stats_report Sample.noisy Sample.files Sample.count_only Sample.first_value
      "text.csv" Sample.fresh = Returns report s' /\
    Frames.cell report (LStr "city") (LStr "top") = Some (SStr "Oslo").
Proof.
  destruct (stats_report_categorical_rows Sample.noisy Sample.files Sample.count_only
              Sample.first_value "text.csv" Sample.text_only Sample.fresh eq_refl eq_refl)
    as [report [s' [E [_ Hcells]]]].
  - discriminate.
  - reflexivity.
  - reflexivity.
  - exists report, s'. split; [exact E|].
    apply (Hcells (mkColumn "city" object_ [SStr "Oslo"; SStr "Rome"])).
    simpl. auto.
Defined.

Lemma nulls_within_entries_of_people :
  exists report s',
    stats_report Sample.noisy Sample.files Sample.count_only Sample.first_value
      "people.csv" Sample.fresh = Returns report s' /\
    exists nulls entries,
      Frames.cell report (LStr "total income") (LStr "null_count") = Some (SInt nulls) /\
      Frames.cell report (LStr "total income") (LStr "entry_count") = Some (SInt entries) /\
      0 <= nulls <= entries.
Proof.
  destruct (stats_report_nulls_within_entries Sample.noisy Sample.files Sample.count_only
              Sample.first_value "people.csv" Sample.people Sample.fresh eq_refl eq_refl)
    as [report [s' [E Hrows]]].
  - discriminate.
  - intros c [<- | [<- | [<- | [<- | []]]]]; reflexivity.
  - reflexivity.
  - exists report, s'. split; [exact E|].
    apply (Hrows (mkColumn "total income" float64 [SFloat (5 # 2); SNaN; SFloat (7 # 1)])).
    simpl. auto.
Defined.

Lemma unsigned_column_is_described :
  numeric_of Cases.unsigned = [] /\
  exists report s',
    stats_report Sample.noisy Cases.files Sample.count_only Sample.first_value
      "unsigned.csv" Sample.fresh = Returns report s' /\
    Frames.cell report (LStr "id") (LStr "mean") = Some SNaN.
Proof.
  destruct (stats_report_describes_number_columns Sample.noisy Cases.files Sample.count_only
              Sample.first_value "unsigned.csv" Cases.unsigned
              (mkColumn "id" uint64 [SInt 18446744073709551615; SInt 7]) Sample.fresh
              eq_refl eq_refl)
    as [_ [report [s' [E [Hmean _]]]]].
  - simpl. auto.
  - reflexivity.
  - reflexivity.
  - split; [reflexivity|]. exists report, s'. split; [exact E | exact Hmean].
Defined.

(** The fields of that report are the numeric ones, although the table has
    no column that the classifier takes for numeric. *)
Example unsigned_report_fields :
  exists report,
    stats_report Sample.silent Cases.files Sample.count_only Sample.first_value
      "unsigned.csv" Sample.fresh = Returns report Sample.fresh /\
    fr_columns report
    = [LStr "entry_count"; LStr "data_type"; LStr "null_count"; LStr "mean"; LStr "std";
       LStr "min"; LStr "25%"; LStr "50%"; LStr "75%"; LStr "max"] /\
    Frames.cell report (LStr "id") (LStr "data_type") = Some (SDtype uint64) /\
    Frames.cell report (LStr "name") (LStr "mean") = Some SNaN.
Proof. eexists. split; [vm_compute; reflexivity|]. repeat split. Qed.

Lemma missing_file_report :
  exists s',
    stats_report Sample.noisy Sample.files Sample.count_only Sample.first_value
      "missing.csv" Sample.fresh = Raises FileNotFoundError s' /\
    agree s' Sample.fresh.
Proof.
  apply (stats_report_propagates_load_error Sample.noisy Sample.files Sample.count_only
           Sample.first_value "missing.csv" FileNotFoundError Sample.fresh);
    reflexivity.
Defined.


Lemma driver_stops_at_the_box_plots :
  exists s',
    initial_analysis Sample.noisy Sample.files Sample.seaborn "one.csv" 2
      Sample.fresh = Raises IndexError s' /\
    shown s' = [] /\ List.length (open_figures s') = 1%nat.
Proof.
  destruct (initial_analysis_propagates_grid_error Sample.noisy Sample.files
              Sample.seaborn "one.csv" 2 Sample.one_numeric Sample.fresh
              eq_refl eq_refl)
    as [s' [E [Hshown [Hopen _]]]].
  - simpl. lia.
  - exists s'. split; [exact E|]. split; [exact Hshown|]. now rewrite Hopen.
Defined.

Lemma driver_on_a_missing_file :
  exists s',
    initial_analysis Sample.noisy Sample.files Sample.seaborn "missing.csv" 2
      Sample.fresh = Raises FileNotFoundError s' /\
    shown s' = [] /\ stdout s' = [].
Proof.
  destruct (initial_analysis_propagates_load_error Sample.noisy Sample.files
              Sample.seaborn "missing.csv" 2 FileNotFoundError Sample.fresh eq_refl)
    as [s' [E [Hshown [_ [Hout _]]]]].
  exists s'. auto.
Defined.

(** A column without any value stops the driver at the box plots: the
    grid figure stays open, nothing is shown, and neither the histograms
    nor the heatmap are drawn. *)
Example driver_on_a_column_without_values :
  exists s',
    initial_analysis Sample.noisy Cases.files Sample.seaborn "missing_values.csv" 2
      Sample.fresh = Raises ValueError s' /\
    shown s' = [] /\ List.length (open_figures s') = 1%nat /\
    stdout s' = [String "010" (String "010" EmptyString)].
Proof. eexists. split; [vm_compute; reflexivity|]. repeat split. Qed.

Lemma infinities_counted_after_the_driver :
  exists report s',
    stats_report Sample.noisy Cases.files Sample.count_only Sample.first_value
      "overflowed.csv"
      (final (initial_analysis Sample.noisy Cases.files Sample.seaborn
                "people.csv" 2 Sample.fresh))
    = Returns report s' /\
    Frames.cell report (LStr "ratio") (LStr "null_count") = Some (SInt 2).
Proof.
  destruct (stats_report_after_driver_counts_infinities Sample.noisy Cases.files
              Sample.seaborn Sample.count_only Sample.first_value "people.csv" 2
              "overflowed.csv" Cases.overflowed Sample.fresh eq_refl eq_refl)
    as [report [s' [E Hcells]]].
  - discriminate.
  - reflexivity.
  - exists report, s'. split; [exact E|].
    apply (Hcells (mkColumn "ratio" float64 [SInf false; SNaN; SFloat (3 # 4)])).
    simpl. auto.
Defined.

